(** * Idempotent payment creation and bulk refunds

    A shallow embedding of [ticket-11-idempotency-keys/solution.py] and
    [ticket-12-bulk-refunds/solution.py], and the properties of key
    derivation, safe submission, retry with backoff, refund planning,
    execution and reconciliation proved about it.

    Conventions of the embedding:
    - a Python [str] is a [string] holding its UTF-8 bytes, so [str.encode()]
      is the identity on that representation;
    - a Python [int] is a [Z]; a Python [float] (delays, clock readings) is
      an exact rational [Q]: the rounding of the doubles to 53 bits is not
      modelled, their limits are where the scripts can meet them (an [int]
      too large for a double, a length [time.sleep] refuses);
    - an error of [stripe.error] is raised and caught in the monad; an error
      from outside it that a step of the scripts can raise ([KeyError],
      [TypeError], [ValueError], [OverflowError]) is caught nowhere and is
      carried as a [Failure], the way the function that meets it ends;
    - a [dict] built with varying keys and read with [.get] is a
      [gmap string PyVal]; a dict literal of fixed shape is a record;
    - everything outside the process (the Stripe API, the wrapped callable of
      the retrier, the clock, the random generator) answers from an [Env] of
      scripts, and every effect is appended to the trace of the [World]. *)

From Stdlib Require Import ZArith QArith Qround Lia Lqa List Ascii String.
From stdpp Require Import base strings gmap.
Import ListNotations.

Local Open Scope string_scope.
Local Open Scope list_scope.
Local Open Scope Z_scope.

(* ===================================================================== *)
(** ** hashlib.sha256 (FIPS 180-4), on 32-bit words held in [Z]          *)
(* ===================================================================== *)

Module Sha256.

Definition w32 (x : Z) : Z := x mod 2 ^ 32.

Definition add32 (x y : Z) : Z := w32 (x + y).

Definition rotr (n x : Z) : Z :=
  Z.lor (Z.shiftr x n) (w32 (Z.shiftl x (32 - n))).

Definition not32 (x : Z) : Z := Z.lxor x 0xffffffff.

Definition Ch (x y z : Z) : Z := Z.lxor (Z.land x y) (Z.land (not32 x) z).

Definition Maj (x y z : Z) : Z :=
  Z.lxor (Z.lxor (Z.land x y) (Z.land x z)) (Z.land y z).

Definition Sigma0 (x : Z) : Z :=
  Z.lxor (Z.lxor (rotr 2 x) (rotr 13 x)) (rotr 22 x).

Definition Sigma1 (x : Z) : Z :=
  Z.lxor (Z.lxor (rotr 6 x) (rotr 11 x)) (rotr 25 x).

Definition sigma0 (x : Z) : Z :=
  Z.lxor (Z.lxor (rotr 7 x) (rotr 18 x)) (Z.shiftr x 3).

Definition sigma1 (x : Z) : Z :=
  Z.lxor (Z.lxor (rotr 17 x) (rotr 19 x)) (Z.shiftr x 10).

(** The first 64 primes. *)
Definition primes : list Z :=
  [ 2; 3; 5; 7; 11; 13; 17; 19; 23; 29; 31; 37; 41; 43; 47; 53;
    59; 61; 67; 71; 73; 79; 83; 89; 97; 101; 103; 107; 109; 113; 127; 131;
    137; 139; 149; 151; 157; 163; 167; 173; 179; 181; 191; 193; 197; 199; 211; 223;
    227; 229; 233; 239; 241; 251; 257; 263; 269; 271; 277; 281; 283; 293; 307; 311 ].

(** The largest [x] with [lo <= x < hi] and [x ^ 3 <= n], by bisection. *)
Fixpoint cube_root (fuel : nat) (n lo hi : Z) : Z :=
  match fuel with
  | O => lo
  | S fuel' =>
      let mid := (lo + hi) / 2 in
      if mid ^ 3 <=? n then cube_root fuel' n mid hi else cube_root fuel' n lo mid
  end.

(** The round constants: the first 32 bits of the fractional parts of the
    cube roots of the first 64 primes. *)
Definition K : list Z :=
  Eval vm_compute in map (fun p => w32 (cube_root 40 (p * 2 ^ 96) 0 (2 ^ 35))) primes.

(** The initial hash value: the first 32 bits of the fractional parts of
    the square roots of the first 8 primes. *)
Definition H0 : list Z :=
  Eval vm_compute in map (fun p => w32 (Z.sqrt (p * 2 ^ 64))) (firstn 8 primes).

(** The message bytes, then 0x80, then zeros up to 56 mod 64, then the
    bit length as 8 big-endian bytes. *)
Definition be_bytes (n : nat) (x : Z) : list Z :=
  map (fun i => Z.shiftr x (8 * Z.of_nat i) mod 256) (rev (seq 0 n)).

Definition pad (msg : list Z) : list Z :=
  let len := Z.of_nat (length msg) in
  let zeros := Z.to_nat ((55 - len) mod 64) in
  msg ++ [0x80] ++ repeat 0 zeros ++ be_bytes 8 (8 * len).

Fixpoint be_word (bs : list Z) (acc : Z) : Z :=
  match bs with
  | [] => acc
  | b :: bs' => be_word bs' (acc * 256 + b)
  end.

Fixpoint words_of (n : nat) (bs : list Z) : list Z :=
  match n with
  | O => []
  | S n' => be_word (firstn 4 bs) 0 :: words_of n' (skipn 4 bs)
  end.

(** [schedule n w] extends the 16 block words by [n] more, each from the
    words 2, 7, 15 and 16 places before it; [w] is kept newest first. *)
Fixpoint schedule (n : nat) (w : list Z) : list Z :=
  match n with
  | O => w
  | S n' =>
      let nxt :=
        add32 (add32 (sigma1 (nth 1 w 0)) (nth 6 w 0))
              (add32 (sigma0 (nth 14 w 0)) (nth 15 w 0)) in
      schedule n' (nxt :: w)
  end.

Record Regs := mkRegs { ra : Z; rb : Z; rc : Z; rd : Z;
                        re : Z; rf : Z; rg : Z; rh : Z }.

Definition round (r : Regs) (kw : Z * Z) : Regs :=
  let t1 := add32 (add32 (add32 (rh r) (Sigma1 (re r)))
                         (add32 (Ch (re r) (rf r) (rg r)) (fst kw)))
                  (snd kw) in
  let t2 := add32 (Sigma0 (ra r)) (Maj (ra r) (rb r) (rc r)) in
  mkRegs (add32 t1 t2) (ra r) (rb r) (rc r) (add32 (rd r) t1) (re r) (rf r) (rg r).

Definition regs_of (h : list Z) : Regs :=
  mkRegs (nth 0 h 0) (nth 1 h 0) (nth 2 h 0) (nth 3 h 0)
         (nth 4 h 0) (nth 5 h 0) (nth 6 h 0) (nth 7 h 0).

Definition list_of (r : Regs) : list Z :=
  [ra r; rb r; rc r; rd r; re r; rf r; rg r; rh r].

Definition compress (h : list Z) (block : list Z) : list Z :=
  let w := rev (schedule 48 (rev (words_of 16 block))) in
  let r := fold_left round (combine K w) (regs_of h) in
  map (fun p => add32 (fst p) (snd p)) (combine h (list_of r)).

Fixpoint blocks (n : nat) (h : list Z) (bs : list Z) : list Z :=
  match n with
  | O => h
  | S n' => blocks n' (compress h (firstn 64 bs)) (skipn 64 bs)
  end.

Definition digest_words (msg : list Z) : list Z :=
  let p := pad msg in
  blocks (length p / 64)%nat H0 p.

Definition hex_digit (d : Z) : ascii :=
  if d <? 10 then ascii_of_N (Z.to_N (48 + d))
  else ascii_of_N (Z.to_N (87 + d)).

Definition hex_of_word (x : Z) : list ascii :=
  map (fun i => hex_digit (Z.shiftr x (4 * Z.of_nat i) mod 16)) (rev (seq 0 8)).

Definition bytes_of (s : string) : list Z :=
  map (fun c => Z.of_N (N_of_ascii c)) (list_ascii_of_string s).

(** [hashlib.sha256(data).hexdigest()]: 64 lowercase hexadecimal digits. *)
Definition hexdigest (data : string) : string :=
  string_of_list_ascii (concat (map hex_of_word (digest_words (bytes_of data)))).

End Sha256.

(** [s[:n]] for a string of one-byte characters, as the hexadecimal digest
    is. *)
Definition str_prefix (n : nat) (s : string) : string :=
  string_of_list_ascii (firstn n (list_ascii_of_string s)).

(** A [str] that may hold any character is kept as the bytes of its UTF-8
    encoding, which is what [encode()] hands to the digest. A byte
    [10xxxxxx] continues the character begun before it. *)
Definition is_continuation (c : ascii) : bool :=
  match c with
  | Ascii _ _ _ _ _ _ b6 b7 => b7 && negb b6
  end.

(** [s[:n]]: the first [n] characters of [s], each with all of its bytes. *)
Fixpoint chars_prefix (n : nat) (s : string) : string :=
  match s with
  | EmptyString => EmptyString
  | String c rest =>
      if is_continuation c then String c (chars_prefix n rest)
      else match n with
           | O => EmptyString
           | S n' => String c (chars_prefix n' rest)
           end
  end.

(** The dash of the source's texts, U+2014, in UTF-8. *)
Definition em_dash : string :=
  String "226"%char (String "128"%char (String "148"%char EmptyString)).

(* ===================================================================== *)
(** ** Ticket 11, part 1: key derivation                                 *)
(* ===================================================================== *)

(** [raw = f"{merchant_id}:{order_id}:{action}"] *)
Definition composite_raw (merchant_id order_id action : string) : string :=
  (merchant_id ++ ":" ++ order_id ++ ":" ++ action)%string.

Definition generate_composite_key (merchant_id order_id action : string) : string :=
  let raw := composite_raw merchant_id order_id action in
  str_prefix 32 (Sha256.hexdigest raw).


(* ===================================================================== *)
(** ** Python values, exceptions and the effect monad                    *)
(* ===================================================================== *)

Inductive PyVal :=
| VNone
| VBool (b : bool)
| VInt (z : Z)
| VFloat (q : Q)
| VStr (s : string).

(** A [dict] with string keys; [d.get(k)] is [dict_get]. *)
Abbreviation Dict := (gmap string PyVal).

Definition dict (items : list (string * PyVal)) : Dict := list_to_map items.

Definition dict_get (d : Dict) (k : string) : PyVal := default VNone (d !! k).

(** The exception classes of [stripe.error] (the SDK's module, which is not
    part of this repository), each with its direct base class; [StripeError]
    derives from [Exception]. An exception from outside this hierarchy is an
    interpreter failure and has no counterpart here. *)
Inductive ExcClass :=
| StripeError
| APIError
| APIConnectionError
| StripeErrorWithParamCode
| CardError
| IdempotencyError
| InvalidRequestError
| AuthenticationError
| PermissionError
| RateLimitError
| SignatureVerificationError.

#[global] Instance ExcClass_eq_dec : EqDecision ExcClass.
Proof. solve_decision. Defined.

Definition base_class (c : ExcClass) : option ExcClass :=
  match c with
  | StripeError => None
  | CardError | InvalidRequestError => Some StripeErrorWithParamCode
  | _ => Some StripeError
  end.

(** [type(e).__name__] *)
Definition class_name (c : ExcClass) : string :=
  match c with
  | StripeError => "StripeError"
  | APIError => "APIError"
  | APIConnectionError => "APIConnectionError"
  | StripeErrorWithParamCode => "StripeErrorWithParamCode"
  | CardError => "CardError"
  | IdempotencyError => "IdempotencyError"
  | InvalidRequestError => "InvalidRequestError"
  | AuthenticationError => "AuthenticationError"
  | PermissionError => "PermissionError"
  | RateLimitError => "RateLimitError"
  | SignatureVerificationError => "SignatureVerificationError"
  end.

(** [issubclass(c, h)], walking up at most [fuel] base classes. *)
Fixpoint issubclass_fuel (fuel : nat) (c h : ExcClass) : bool :=
  if decide (c = h) then true
  else match fuel, base_class c with
       | S fuel', Some b => issubclass_fuel fuel' b h
       | _, _ => false
       end.

Definition issubclass (c h : ExcClass) : bool := issubclass_fuel 2 c h.

(** A raised exception: its class and [str(e)]. *)
Record Exception := mkExc { exc_class : ExcClass; exc_str : string }.

Inductive Res (A : Type) :=
| Ret (a : A)
| Raise (e : Exception).
Arguments Ret {A} a.
Arguments Raise {A} e.

(** What the two scripts can raise from outside [stripe.error] by a step
    of their own: [d[k]] on a missing key, a slice of a value that is no
    string, a sleep of negative length, and a number too large for a double
    or for [time.sleep]. No handler of the scripts catches any of them, so
    the function that meets one ends with it. *)
Inductive Failure :=
| KeyError (key : string)
| TypeError
| ValueError
| OverflowError.

(** *** What Stripe holds and answers *)

Record Charge := mkCharge { ch_id : string; ch_amount_refunded : Z }.

Record PaymentIntent := mkPI {
  pi_id : string;
  pi_amount : Z;
  pi_status : string;
  pi_description : string;
  pi_metadata : gmap string string;
  pi_created : Z;
  pi_latest_charge : option Charge
}.

Record Refund := mkRefund { rf_id : string; rf_status : string }.

Inductive Request :=
| PaymentIntent_create (amount : Z) (currency description : string)
    (metadata : list (string * PyVal)) (automatic_payment_methods : list (string * PyVal))
    (idempotency_key : string)
| PaymentIntent_retrieve (id : string) (expand : list string)
| Refund_create (payment_intent : string) (amount : Z) (reason : string)
    (metadata : list (string * PyVal)).

(** One line written by [print]: the text of the f-string, its
    placeholders left in place, and the values they are filled with. The
    rules, box characters, check marks and currency signs of the source are
    written in ASCII or left out; how a value is formatted is not modelled. *)
Record Line := mkLine { template : string; values : list PyVal }.

Inductive Event :=
| EvCall (kwargs : list (string * PyVal))   (* func called with kwargs *)
| EvStripe (req : Request)
| EvSleep (seconds : Q)
| EvPrint (line : Line).

(** The scripts the outside world answers from. The [nat] is the number of
    earlier uses of the same kind: the k-th call of the wrapped callable, the
    k-th request to Stripe, the k-th reading of the clock, the k-th draw of
    [random.random()]. *)
Record Env := mkEnv {
  func_script : nat -> Res Dict;
  stripe_pi : nat -> Request -> Res PaymentIntent;
  stripe_refund : nat -> Request -> Res Refund;
  clock : nat -> Q;
  random_random : nat -> Q
}.

Record World := mkWorld {
  trace : list Event;
  n_calls : nat;
  n_requests : nat;
  n_clock : nat;
  n_random : nat
}.

Definition world0 : World := mkWorld [] 0 0 0 0.

Definition Py (A : Type) : Type := Env -> World -> Res A * World.

Definition ret {A} (a : A) : Py A := fun _ w => (Ret a, w).

Definition raise {A} (e : Exception) : Py A := fun _ w => (Raise e, w).

Definition bind {A B} (m : Py A) (k : A -> Py B) : Py B :=
  fun env w =>
    match m env w with
    | (Ret a, w') => k a env w'
    | (Raise e, w') => (Raise e, w')
    end.

Notation "x <- m ;; k" := (bind m (fun x => k))
  (at level 100, m at next level, right associativity).
Notation "m ;;; k" := (bind m (fun _ => k))
  (at level 100, right associativity).

(** [try: body / except C1 as e: h1 / except C2 as e: h2 ...]: the first
    handler whose class the exception is an instance of runs; with none, the
    exception goes on. *)
Fixpoint find_handler {A} (e : Exception)
    (handlers : list (ExcClass * (Exception -> Py A))) : option (Py A) :=
  match handlers with
  | [] => None
  | (c, h) :: rest =>
      if issubclass (exc_class e) c then Some (h e) else find_handler e rest
  end.

Definition try_except {A} (body : Py A)
    (handlers : list (ExcClass * (Exception -> Py A))) : Py A :=
  fun env w =>
    match body env w with
    | (Ret a, w') => (Ret a, w')
    | (Raise e, w') =>
        match find_handler e handlers with
        | Some h => h env w'
        | None => (Raise e, w')
        end
    end.

Definition emit (ev : Event) (w : World) : World :=
  mkWorld (trace w ++ [ev]) (n_calls w) (n_requests w) (n_clock w) (n_random w).

Definition print (t : string) (vs : list PyVal) : Py unit :=
  fun _ w => (Ret tt, emit (EvPrint (mkLine t vs)) w).

(** The lengths [time.sleep] accepts: not negative, and below the
    [2 ^ 63] nanoseconds that its clock can count. *)
Definition sleepable (seconds : Q) : bool :=
  Qle_bool 0 seconds
  && negb (Qle_bool (inject_Z (2 ^ 63)) (seconds * inject_Z (10 ^ 9))).

(** [time.sleep(seconds)]. The length is converted to nanoseconds first,
    which raises [OverflowError] when they do not fit 64 bits; a negative
    length then raises [ValueError]; otherwise the process sleeps. *)
Definition time_sleep (seconds : Q) : Py (Failure + unit) :=
  fun _ w =>
    let ns := (seconds * inject_Z (10 ^ 9))%Q in
    if Qle_bool (inject_Z (2 ^ 63)) ns || negb (Qle_bool (inject_Z (- 2 ^ 63)) ns)
    then (Ret (inl OverflowError), w)
    else if Qle_bool 0 seconds then (Ret (inr tt), emit (EvSleep seconds) w)
    else (Ret (inl ValueError), w).

(** An [int] that meets a [float] in arithmetic is converted to a double:
    [OverflowError] for the ints that round to no finite double. *)
Definition float_of_int (n : Z) : Failure + Q :=
  if 2 ^ 1024 - 2 ^ 970 <=? Z.abs n then inl OverflowError else inr (inject_Z n).

(** [time.time()], and [datetime.now()] which reads the same clock. *)
Definition time_time : Py Q :=
  fun env w =>
    (Ret (clock env (n_clock w)),
     mkWorld (trace w) (n_calls w) (n_requests w) (S (n_clock w)) (n_random w)).

(** [random.uniform(a, b)] is [a + (b - a) * random.random()]. *)
Definition random_uniform (a b : Q) : Py Q :=
  fun env w =>
    (Ret (a + (b - a) * random_random env (n_random w))%Q,
     mkWorld (trace w) (n_calls w) (n_requests w) (n_clock w) (S (n_random w))).

Definition stripe_request {A} (answer : Env -> nat -> Request -> Res A)
    (req : Request) : Py A :=
  fun env w =>
    (answer env (n_requests w) req,
     mkWorld (trace w ++ [EvStripe req]) (n_calls w) (S (n_requests w))
             (n_clock w) (n_random w)).

(** The call of [func] with its keyword arguments, for the callable handed
    to the retrier. *)
Definition call_func (kwargs : list (string * PyVal)) : Py Dict :=
  fun env w =>
    (func_script env (n_calls w),
     mkWorld (trace w ++ [EvCall kwargs]) (S (n_calls w)) (n_requests w)
             (n_clock w) (n_random w)).

(** [round(x)]: to the nearest integer, a tie to the even one. *)
Definition py_round (x : Q) : Z :=
  let f := Qfloor x in
  match Qcompare (x - inject_Z f) (1 # 2) with
  | Lt => f
  | Gt => f + 1
  | Eq => if Z.even f then f else f + 1
  end.

(** [round(x, 2)] *)
Definition py_round2 (x : Q) : Q := (inject_Z (py_round (x * 100)) / 100)%Q.

(** [range(a, b)] *)
Definition py_range (a b : Z) : list Z :=
  map (fun i => a + Z.of_nat i) (seq 0 (Z.to_nat (b - a))).

(* ===================================================================== *)
(** ** Ticket 11, part 2: safe payment creation                          *)
(* ===================================================================== *)

(** The arguments of [stripe.PaymentIntent.create] in
    [create_payment_safely]. *)
Definition payment_request (amount : Z) (currency description : string)
    (idempotency_key : string) : Request :=
  PaymentIntent_create amount currency description
    [("idempotency_key", VStr idempotency_key);
     ("source", VStr "travelbook_booking_engine")]
    [("enabled", VBool true)]
    idempotency_key.

Definition create_payment_safely (amount : Z) (currency description : string)
    (idempotency_key : string) (customer_email : option string) : Py Dict :=
  try_except
    (payment_intent <-
       stripe_request stripe_pi
         (payment_request amount currency description idempotency_key) ;;
     ret (dict [("success", VBool true);
                ("payment_intent_id", VStr (pi_id payment_intent));
                ("amount", VInt (pi_amount payment_intent));
                ("status", VStr (pi_status payment_intent));
                ("idempotency_key", VStr idempotency_key)]))
    [ (IdempotencyError, fun e =>
         ret (dict [("success", VBool false);
                    ("error_type", VStr "idempotency_collision");
                    ("message", VStr (exc_str e));
                    ("idempotency_key", VStr idempotency_key)]));
      (StripeError, fun e =>
         ret (dict [("success", VBool false);
                    ("error_type", VStr (class_name (exc_class e)));
                    ("message", VStr (exc_str e));
                    ("idempotency_key", VStr idempotency_key)])) ].

(* ===================================================================== *)
(** ** Ticket 11, part 3: retry with exponential backoff                 *)
(* ===================================================================== *)

(** How a call of [retry_with_backoff] ends: with the pair
    [(result, audit_log)] of one of its [return] statements, with [None]
    when the loop ends without reaching one, or with an error raised inside
    a handler, which leaves the function and takes the log with it. *)
Inductive RetryReturn :=
| RPair (result : option Dict) (audit_log : list Dict)
| RNone
| RRaise (f : Failure).

(** One turn of the [for] loop: go on to the next attempt with the log as
    it is now, or leave the function. *)
Inductive LoopStep :=
| Next (audit_log : list Dict)
| Return (r : RetryReturn).

Definition success_entry (attempt : Z) (elapsed : Q) (result : Dict) : Dict :=
  dict [("attempt", VInt attempt);
        ("status", VStr "success");
        ("elapsed_ms", VInt (py_round (elapsed * 1000)));
        ("payment_intent_id", dict_get result "payment_intent_id")].

Definition connection_error_entry (attempt : Z) (elapsed delay : Q) (e : Exception) : Dict :=
  dict [("attempt", VInt attempt);
        ("status", VStr "connection_error");
        ("elapsed_ms", VInt (py_round (elapsed * 1000)));
        ("retry_delay_s", VFloat (py_round2 delay));
        ("error", VStr (exc_str e))].

Definition stripe_error_entry (attempt : Z) (elapsed : Q) (e : Exception) : Dict :=
  dict [("attempt", VInt attempt);
        ("status", VStr "stripe_error");
        ("elapsed_ms", VInt (py_round (elapsed * 1000)));
        ("error", VStr (exc_str e))].

(** [delay = base_delay * (2 ** (attempt - 1)) + random.uniform(0, 0.5)],
    over the rationals: the doubles of the source round the product and the
    sum to the nearest double. *)
Definition backoff_delay (base_delay : Q) (attempt : Z) (jitter : Q) : Q :=
  (base_delay * inject_Z (2 ^ (attempt - 1)) + jitter)%Q.

Definition retrying_template : string :=
  "    Attempt {attempt} failed (connection error). Retrying in {delay:.1f}s...".

Definition exhausted_template : string :=
  "    Attempt {attempt} failed. Max retries exhausted.".

(** The body of the loop for one [attempt]. [start] is read first; it is the
    first statement under [try] and cannot fail. In the handler of a
    connection error the power [2 ** (attempt - 1)] is converted to a double
    for the product before the jitter is drawn, and [time.sleep] can refuse
    the delay: either error is raised inside the handler and ends the
    call. *)
Definition retry_attempt (func : Py Dict) (max_retries : Z) (base_delay : Q)
    (attempt : Z) (audit_log : list Dict) : Py LoopStep :=
  start <- time_time ;;
  try_except
    (result <- func ;;
     now <- time_time ;;
     let elapsed := (now - start)%Q in
     ret (Return (RPair (Some result)
                        (audit_log ++ [success_entry attempt elapsed result]))))
    [ (APIConnectionError, fun e =>
         now <- time_time ;;
         let elapsed := (now - start)%Q in
         match float_of_int (2 ^ (attempt - 1)) with
         | inl f => ret (Return (RRaise f))
         | inr _ =>
             jitter <- random_uniform 0 (1 # 2) ;;
             let delay := backoff_delay base_delay attempt jitter in
             let audit_log :=
               audit_log ++ [connection_error_entry attempt elapsed delay e] in
             if attempt <? max_retries then
               print retrying_template [VInt attempt; VFloat delay] ;;;
               slept <- time_sleep delay ;;
               match slept with
               | inl f => ret (Return (RRaise f))
               | inr _ => ret (Next audit_log)
               end
             else
               print exhausted_template [VInt attempt] ;;;
               ret (Return (RPair None audit_log))
         end);
      (StripeError, fun e =>
         now <- time_time ;;
         let elapsed := (now - start)%Q in
         ret (Return (RPair None
                            (audit_log ++ [stripe_error_entry attempt elapsed e])))) ].

Fixpoint retry_loop (func : Py Dict) (max_retries : Z) (base_delay : Q)
    (attempts : list Z) (audit_log : list Dict) : Py RetryReturn :=
  match attempts with
  | [] => ret RNone
  | attempt :: rest =>
      step <- retry_attempt func max_retries base_delay attempt audit_log ;;
      match step with
      | Next audit_log' => retry_loop func max_retries base_delay rest audit_log'
      | Return r => ret r
      end
  end.

Definition retry_with_backoff (func : Py Dict) (max_retries : Z) (base_delay : Q)
    : Py RetryReturn :=
  retry_loop func max_retries base_delay (py_range 1 (max_retries + 1)) [].

(* ===================================================================== *)
(** ** Ticket 12: bulk refunds for a product recall                      *)
(* ===================================================================== *)

Definition RECALL_REFERENCE : string := "RECALL-2026-NB-PRO3000".
Definition PRODUCT_NAME : string := "NordBrew Pro 3000".
Definition PRODUCT_PRICE : Z := 34900.

(** The dict appended to [eligible]. *)
Record Eligible := mkEligible {
  e_pi_id : string;
  e_charge_id : option string;
  e_amount : Z;
  e_already_refunded : Z;
  e_refundable : Z;
  e_order_id : string;
  e_customer_email : string;
  e_description : string;
  e_created : Z
}.

(** The dict appended to [skipped]. *)
Record Skipped := mkSkipped { sk_pi_id : string; sk_reason : string }.

(** The dicts appended to [results["succeeded"]] and [results["failed"]]. *)
Record SucceededEntry := mkSucceeded {
  s_order_id : string;
  s_pi_id : string;
  s_refund_id : string;
  s_amount : Z;
  s_type : string;
  s_customer_email : string;
  s_status : string;
  s_timestamp : Q
}.

Record FailedEntry := mkFailed {
  f_order_id : string;
  f_pi_id : string;
  f_error : string;
  f_customer_email : string;
  f_timestamp : Q
}.

Record Results := mkResults {
  succeeded : list SucceededEntry;
  failed : list FailedEntry
}.

(** [sum(xs)] *)
Definition py_sum (xs : list Z) : Z := fold_left Z.add xs 0.

(** [x / 100] as shown in the reports. *)
Definition euros (cents : Z) : PyVal := VFloat (inject_Z cents / 100)%Q.

Definition py_len {A} (l : list A) : PyVal := VInt (Z.of_nat (length l)).

(** [enumerate(l, start)] *)
Definition enumerate {A} (l : list A) (start : Z) : list (Z * A) :=
  combine (py_range start (start + Z.of_nat (length l))) l.

Fixpoint for_each {A} (l : list A) (body : A -> Py unit) : Py unit :=
  match l with
  | [] => ret tt
  | x :: rest => body x ;;; for_each rest body
  end.

(** ["FULL" if payment["already_refunded"] == 0 else "PARTIAL"] *)
Definition refund_type_of (already_refunded : Z) : string :=
  if already_refunded =? 0 then "FULL" else "PARTIAL".

(** *** Part 2: discover eligible payments *)

Definition status_reason (status : string) : string :=
  ("Status is '" ++ status ++ "', not 'succeeded'")%string.

(** The loop over [test_pi_ids], with [eligible] and [skipped] as they
    stand. *)
Fixpoint discover_loop (test_pi_ids : list string)
    (eligible : list Eligible) (skipped : list Skipped)
    : Py (list Eligible * list Skipped) :=
  match test_pi_ids with
  | [] => ret (eligible, skipped)
  | id :: rest =>
      pi <- stripe_request stripe_pi (PaymentIntent_retrieve id ["latest_charge"]) ;;
      let charge := pi_latest_charge pi in
      if negb (String.eqb (pi_status pi) "succeeded") then
        discover_loop rest eligible
          (skipped ++ [mkSkipped (pi_id pi) (status_reason (pi_status pi))])
      else
        let already_refunded :=
          match charge with Some c => ch_amount_refunded c | None => 0 end in
        let refundable := pi_amount pi - already_refunded in
        if refundable <=? 0 then
          discover_loop rest eligible
            (skipped ++ [mkSkipped (pi_id pi) "Already fully refunded"])
        else
          discover_loop rest
            (eligible ++
               [mkEligible (pi_id pi)
                  (match charge with Some c => Some (ch_id c) | None => None end)
                  (pi_amount pi) already_refunded refundable
                  (default "N/A" (pi_metadata pi !! "order_id"))
                  (default "N/A" (pi_metadata pi !! "customer_email"))
                  (pi_description pi)
                  (pi_created pi)])
            skipped
  end.

Definition discover_eligible_payments (test_pi_ids : option (list string))
    : Py (list Eligible * list Skipped) :=
  print "\n======" [] ;;;
  print "PART 2: DISCOVERING ELIGIBLE PAYMENTS" [] ;;;
  print "======" [] ;;;
  print "\n  Searching for '{PRODUCT_NAME}' payments..." [VStr PRODUCT_NAME] ;;;
  print "  Filter: metadata[product] = 'nordbrew_pro_3000'" [] ;;;
  print "  Status: succeeded (only completed payments)\n" [] ;;;
  found <- match test_pi_ids with
           | Some (id :: rest) => discover_loop (id :: rest) [] []
           | _ => ret ([], [])
           end ;;
  let '(eligible, skipped) := found in
  print "  Found {len(eligible)} eligible payments:\n" [py_len eligible] ;;;
  for_each (enumerate eligible 1) (fun ip =>
    let '(i, p) := ip in
    let refund_type := refund_type_of (e_already_refunded p) in
    print "    {i}. {p['pi_id']}" [VInt i; VStr (e_pi_id p)] ;;;
    print "       Order: {p['order_id']} | {p['customer_email']}"
          [VStr (e_order_id p); VStr (e_customer_email p)] ;;;
    print "       Amount: {} | Already refunded: {} | Refundable: {} [{refund_type}]"
          [euros (e_amount p); euros (e_already_refunded p);
           euros (e_refundable p); VStr refund_type]) ;;;
  match skipped with
  | [] => ret tt
  | _ =>
      print "\n  Skipped {len(skipped)} payments:" [py_len skipped] ;;;
      for_each skipped (fun s =>
        print "    x {s['pi_id']} - {s['reason']}" [VStr (sk_pi_id s); VStr (sk_reason s)])
  end ;;;
  ret (eligible, skipped).

(** *** Part 3: dry run *)

Definition dry_run (eligible : list Eligible) : Py Z :=
  print "\n======" [] ;;;
  print "PART 3: DRY RUN - REFUND PREVIEW (no money moves)" [] ;;;
  print "======" [] ;;;
  let total_refund := py_sum (map e_refundable eligible) in
  let full_refunds := List.filter (fun p => e_already_refunded p =? 0) eligible in
  let partial_refunds := List.filter (fun p => e_already_refunded p >? 0) eligible in
  print "\n  Recall Reference: {RECALL_REFERENCE}" [VStr RECALL_REFERENCE] ;;;
  print "  Product: {PRODUCT_NAME}" [VStr PRODUCT_NAME] ;;;
  print "  Unit Price: {PRODUCT_PRICE / 100:.2f}" [euros PRODUCT_PRICE] ;;;
  print "\n  +---" [] ;;;
  print "  |  REFUND PREVIEW SUMMARY" [] ;;;
  print "  +---" [] ;;;
  print "  |  Total payments to refund:  {len(eligible):>3}" [py_len eligible] ;;;
  print "  |  Full refunds:    {len(full_refunds):>3}" [py_len full_refunds] ;;;
  print "  |  Partial refunds:           {len(partial_refunds):>3}" [py_len partial_refunds] ;;;
  print "  |  Total refund amount:       {total_refund / 100:>10,.2f}" [euros total_refund] ;;;
  print "  +---" [] ;;;
  match partial_refunds with
  | [] => ret tt
  | _ =>
      print "\n  ! Partial refunds (prior warranty claims detected):" [] ;;;
      for_each partial_refunds (fun p =>
        print "    {order_id}: {} charged, {} already refunded -> {} remaining to refund"
              [VStr (e_order_id p); euros (e_amount p);
               euros (e_already_refunded p); euros (e_refundable p)])
  end ;;;
  print "\n  -> This is a DRY RUN. No refunds have been issued." [] ;;;
  print "  -> Run in EXECUTE mode to process all {len(eligible)} refunds." [py_len eligible] ;;;
  ret total_refund.

(** *** Part 4: execute the refunds *)

Definition refund_metadata (payment : Eligible) (processed_at : Q)
    : list (string * PyVal) :=
  [("recall_reference", VStr RECALL_REFERENCE);
   ("product", VStr "nordbrew_pro_3000");
   ("order_id", VStr (e_order_id payment));
   ("customer_email", VStr (e_customer_email payment));
   ("refund_type", VStr (if e_already_refunded payment =? 0
                         then "full" else "partial_remainder"));
   ("processed_at", VFloat processed_at)].

Definition refund_request (payment : Eligible) (processed_at : Q) : Request :=
  Refund_create (e_pi_id payment) (e_refundable payment) "fraudulent"
                (refund_metadata payment processed_at).

Definition failed_entry (payment : Eligible) (e : Exception) (timestamp : Q)
    : FailedEntry :=
  mkFailed (e_order_id payment) (e_pi_id payment) (exc_str e)
           (e_customer_email payment) timestamp.

(** The body of the loop for item [i] of [n], with [results] as they
    stand. *)
Definition refund_one (n : nat) (i : Z) (payment : Eligible) (results : Results)
    : Py Results :=
  try_except
    (processed_at <- time_time ;;
     refund <- stripe_request stripe_refund (refund_request payment processed_at) ;;
     let refund_type := refund_type_of (e_already_refunded payment) in
     print "    [{i}/{len(eligible)}] ok {order_id} | {refundable / 100:.2f} | {refund_type} | Refund: {refund.id}"
           [VInt i; VInt (Z.of_nat n); VStr (e_order_id payment);
            euros (e_refundable payment); VStr refund_type; VStr (rf_id refund)] ;;;
     timestamp <- time_time ;;
     let results :=
       mkResults
         (succeeded results ++
            [mkSucceeded (e_order_id payment) (e_pi_id payment) (rf_id refund)
               (e_refundable payment) refund_type (e_customer_email payment)
               (rf_status refund) timestamp])
         (failed results) in
     (if i mod 20 =? 0 then
        print "    ... pausing briefly (rate limit safety) ..." [] ;;;
        time_sleep 1 ;;;   (* a length [time.sleep] accepts: it cannot raise *)
        ret tt
      else ret tt) ;;;
     ret results)
    [ (InvalidRequestError, fun e =>
         print "    [{i}/{len(eligible)}] x {order_id} | ERROR: {str(e)[:80]}"
               [VInt i; VInt (Z.of_nat n); VStr (e_order_id payment);
                VStr (chars_prefix 80 (exc_str e))] ;;;
         timestamp <- time_time ;;
         ret (mkResults (succeeded results)
                        (failed results ++ [failed_entry payment e timestamp])));
      (StripeError, fun e =>
         print "    [{i}/{len(eligible)}] x {order_id} | STRIPE ERROR: {str(e)[:80]}"
               [VInt i; VInt (Z.of_nat n); VStr (e_order_id payment);
                VStr (chars_prefix 80 (exc_str e))] ;;;
         timestamp <- time_time ;;
         ret (mkResults (succeeded results)
                        (failed results ++ [failed_entry payment e timestamp]))) ].

Fixpoint refund_loop (n : nat) (items : list (Z * Eligible)) (results : Results)
    : Py Results :=
  match items with
  | [] => ret results
  | (i, payment) :: rest =>
      results' <- refund_one n i payment results ;;
      refund_loop n rest results'
  end.

Definition execute_bulk_refunds (eligible : list Eligible) : Py Results :=
  print "\n======" [] ;;;
  print "PART 4: EXECUTING BULK REFUNDS" [] ;;;
  print "======" [] ;;;
  print "\n  Processing {len(eligible)} refunds..." [py_len eligible] ;;;
  print "  Recall Reference: {RECALL_REFERENCE}\n" [VStr RECALL_REFERENCE] ;;;
  refund_loop (length eligible) (enumerate eligible 1) (mkResults [] []).

(** *** Part 5: compliance report *)

(** [total_refunded = sum(r["amount"] for r in succeeded)] *)
Definition total_refunded (results : Results) : Z :=
  py_sum (map s_amount (succeeded results)).

(** The report's verification line, the local [match] of the source; the
    check mark and the cross are written [ok] and [x]. *)
Definition verification (results : Results) (total_preview : Z) : string :=
  if total_refunded results =? total_preview then "ok MATCH" else "x MISMATCH".

Definition generate_compliance_report (results : Results)
    (eligible : list Eligible) (skipped : list Skipped) (total_preview : Z)
    : Py unit :=
  print "\n======" [] ;;;
  print "PART 5: COMPLIANCE REPORT" [] ;;;
  print "======" [] ;;;
  let succeeded := succeeded results in
  let failed := failed results in
  let total_refunded := total_refunded results in
  print "\n  +---" [] ;;;
  print "  |  PRODUCT RECALL REFUND - COMPLIANCE REPORT" [] ;;;
  print "  |  Reference: {RECALL_REFERENCE}" [VStr RECALL_REFERENCE] ;;;
  generated <- time_time ;;
  print "  |  Generated: {datetime.now()}" [VFloat generated] ;;;
  print "  +---" [] ;;;
  print "  |  Product:          {PRODUCT_NAME:<37}" [VStr PRODUCT_NAME] ;;;
  print "  |  Unit Price:       {PRODUCT_PRICE / 100:<36.2f}" [euros PRODUCT_PRICE] ;;;
  print "  +---" [] ;;;
  print "  |  RESULTS" [] ;;;
  print "  |  Refunds succeeded:  {len(succeeded):>3}" [py_len succeeded] ;;;
  print "  |  Refunds failed:     {len(failed):>3}" [py_len failed] ;;;
  print "  |  Payments skipped:   {len(skipped):>3}" [py_len skipped] ;;;
  print "  |  Total refunded:     {total_refunded / 100:>10,.2f}" [euros total_refunded] ;;;
  print "  |  Expected total:     {total_preview / 100:>10,.2f}" [euros total_preview] ;;;
  let match_ := verification results total_preview in
  print "  |  Verification:       {match:<35}" [VStr match_] ;;;
  print "  +---" [] ;;;
  print "\n  --- Refund Detail Log ---\n" [] ;;;
  for_each (enumerate succeeded 1) (fun ir =>
    let '(i, r) := ir in
    print "    {i}. Order: {r['order_id']}" [VInt i; VStr (s_order_id r)] ;;;
    print "       PI:       {r['pi_id']}" [VStr (s_pi_id r)] ;;;
    print "       Refund:   {r['refund_id']}" [VStr (s_refund_id r)] ;;;
    print "       Amount:   {r['amount'] / 100:.2f} ({r['type']})"
          [euros (s_amount r); VStr (s_type r)] ;;;
    print "       Status:   {r['status']}" [VStr (s_status r)] ;;;
    print "       Customer: {r['customer_email']}" [VStr (s_customer_email r)] ;;;
    print "       Time:     {r['timestamp']}" [VFloat (s_timestamp r)] ;;;
    print "" []) ;;;
  match failed with
  | [] => ret tt
  | _ =>
      print "\n  --- Failed Refunds (requires manual review) ---\n" [] ;;;
      for_each failed (fun f_item =>
        print "    x Order: {f_item['order_id']}" [VStr (f_order_id f_item)] ;;;
        print "      PI:    {f_item['pi_id']}" [VStr (f_pi_id f_item)] ;;;
        print "      Error: {f_item['error'][:100]}" [VStr (chars_prefix 100 (f_error f_item))] ;;;
        print "" [])
  end ;;;
  match skipped with
  | [] => ret tt
  | _ =>
      print "  --- Skipped Payments ---\n" [] ;;;
      for_each skipped (fun s =>
        print "    - {s['pi_id']}: {s['reason']}" [VStr (sk_pi_id s); VStr (sk_reason s)])
  end.

(** The main program of ticket 12 from the discovery on: the plan is found
    once, previewed, executed and reported. *)
Definition recall_run (test_pi_ids : option (list string)) : Py unit :=
  found <- discover_eligible_payments test_pi_ids ;;
  let '(eligible, skipped) := found in
  total_preview <- dry_run eligible ;;
  results <- execute_bulk_refunds eligible ;;
  generate_compliance_report results eligible skipped total_preview.

(* ===================================================================== *)
(** ** Reading traces, and the inputs the statements speak about         *)
(* ===================================================================== *)

(** The calls of the wrapped callable in a trace. *)
Definition invocations (evs : list Event) : nat :=
  length (List.filter (fun ev => match ev with EvCall _ => true | _ => false end) evs).

(** The requests sent to Stripe, oldest first. *)
Definition stripe_requests (evs : list Event) : list Request :=
  flat_map (fun ev => match ev with EvStripe r => [r] | _ => [] end) evs.

(** The arguments of [time.sleep], oldest first. *)
Definition sleeps (evs : list Event) : list Q :=
  flat_map (fun ev => match ev with EvSleep d => [d] | _ => [] end) evs.

(** The lines printed, oldest first. *)
Definition printed (evs : list Event) : list Line :=
  flat_map (fun ev => match ev with EvPrint l => [l] | _ => [] end) evs.

(** A trace without its printed lines: what was called, sent and slept, in
    order. *)
Definition actions (evs : list Event) : list Event :=
  List.filter (fun ev => match ev with EvPrint _ => false | _ => true end) evs.

(** A booking to be paid, as the demos of ticket 11 hold it: the key is
    derived from [agency_id], [booking_id] and the action, and the payment is
    created from the amount, the currency and the description. *)
Record Booking := mkBooking {
  agency_id : string;
  booking_id : string;
  action : string;
  b_amount : Z;
  b_currency : string;
  b_description : string
}.

Definition identity (b : Booking) : string * string * string :=
  (agency_id b, booking_id b, action b).

Definition booking_raw (b : Booking) : string :=
  composite_raw (agency_id b) (booking_id b) (action b).

Definition booking_key (b : Booking) : string :=
  generate_composite_key (agency_id b) (booking_id b) (action b).

(** No [":"] occurs in [s]. *)
Fixpoint colon_free (s : string) : bool :=
  match s with
  | EmptyString => true
  | String c s' => negb (Ascii.eqb c ":"%char) && colon_free s'
  end.

Definition booking_a : Booking :=
  mkBooking "agency_042" "booking_7891" "create_payment" 240000 "eur" "TravelBook: booking_7891".

(** The same booking, with another amount, currency and description. *)
Definition booking_a_retry : Booking :=
  mkBooking "agency_042" "booking_7891" "create_payment" 185000 "usd" "retry at 12:00:01".

Definition booking_b : Booking :=
  mkBooking "agency_042" "booking_7892" "create_payment" 240000 "eur" "TravelBook: booking_7892".

(** Two bookings whose fields differ and whose joined strings agree. *)
Definition booking_colon_1 : Booking :=
  mkBooking "agency:042" "7891" "create_payment" 100 "eur" "".

Definition booking_colon_2 : Booking :=
  mkBooking "agency" "042:7891" "create_payment" 100 "eur" "".

(** The world after one request to Stripe. *)
Definition after_request (req : Request) (w : World) : World :=
  mkWorld (trace w ++ [EvStripe req]) (n_calls w) (S (n_requests w))
          (n_clock w) (n_random w).

(** *** What the retrier is expected to do with a script of failures *)

Definition is_transient (r : Res Dict) : bool :=
  match r with
  | Raise e => issubclass (exc_class e) APIConnectionError
  | Ret _ => false
  end.

(** The exception of an answer that raises. *)
Definition raised (r : Res Dict) : Exception :=
  match r with
  | Raise e => e
  | Ret _ => mkExc StripeError ""
  end.

(** The jitter of the draw numbered [r]: [random.uniform(0, 0.5)]. *)
Definition jitter_at (env : Env) (r : nat) : Q :=
  (0 + ((1 # 2) - 0) * random_random env r)%Q.

Definition delay_at (env : Env) (base_delay : Q) (attempt : Z) (r : nat) : Q :=
  backoff_delay base_delay attempt (jitter_at env r).

(** The events of [j] attempts in a row that fail with a connection error
    and are retried, the first numbered [attempt] and drawing jitter [r]. *)
Fixpoint retried_events (env : Env) (kwargs : list (string * PyVal))
    (base_delay : Q) (j : nat) (attempt : Z) (r : nat) : list Event :=
  match j with
  | O => []
  | S j' =>
      let delay := delay_at env base_delay attempt r in
      EvCall kwargs
        :: EvPrint (mkLine retrying_template [VInt attempt; VFloat delay])
        :: EvSleep delay
        :: retried_events env kwargs base_delay j' (attempt + 1) (S r)
  end.

(** Their entries in the audit log; [c], [t] and [r] number the call, the
    clock reading and the draw the first of them starts at. *)
Fixpoint retried_entries (env : Env) (base_delay : Q) (j : nat) (attempt : Z)
    (c t r : nat) : list Dict :=
  match j with
  | O => []
  | S j' =>
      connection_error_entry attempt (clock env (S t) - clock env t)%Q
        (delay_at env base_delay attempt r) (raised (func_script env c))
        :: retried_entries env base_delay j' (attempt + 1) (S c) (S (S t)) (S r)
  end.

(** The arguments the schedule of the retrier can be carried out with: the
    base delay is not negative, the largest power of two it is multiplied
    by, [2 ^ (max_retries - 1)], is one a double holds, and the longest
    delay slept, after attempt [max_retries - 1], is at most [9 * 10 ^ 9]
    seconds whatever the jitter, which is below what [time.sleep] refuses,
    [2 ^ 63] nanoseconds, by more than the rounding of a double. *)
Definition schedule_fits (max_retries : Z) (base_delay : Q) : Prop :=
  (0 <= base_delay)%Q /\
  max_retries <= 1024 /\
  (base_delay * inject_Z (2 ^ (max_retries - 2)) + (1 # 2) <= inject_Z (9 * 10 ^ 9))%Q.

(** An attempt the retrier goes on from, by the [answer] to its call and
    the number [r] of its draw: the call fails with a connection error, the
    power of two is one a double holds, and the delay is one [time.sleep]
    accepts. *)
Definition retried (env : Env) (base_delay : Q) (answer : Res Dict)
    (attempt : Z) (r : nat) : bool :=
  is_transient answer
  && match float_of_int (2 ^ (attempt - 1)) with
     | inr _ => true
     | inl _ => false
     end
  && sleepable (delay_at env base_delay attempt r).

(** Attempt [i + 1] of a run that starts in a world with [c] calls and [r]
    draws made is one the retrier goes on from. *)
Definition retried_at (env : Env) (base_delay : Q) (c r i : nat) : bool :=
  retried env base_delay (func_script env (c + i)) (1 + Z.of_nat i) (r + i).

(** A script for the retrier: the first call fails with a connection
    error, [random.random()] gives 0.8, the clock advances one second per
    reading. *)
Definition env_flaky : Env :=
  mkEnv (fun k => match k with
                  | O => Raise (mkExc APIConnectionError "Connection reset by peer")
                  | _ => Ret (dict [("payment_intent_id", VStr "pi_1")])
                  end)
        (fun _ _ => Raise (mkExc APIConnectionError "Connection reset by peer"))
        (fun _ _ => Raise (mkExc APIConnectionError "Connection reset by peer"))
        (fun k => inject_Z (Z.of_nat k))
        (fun _ => 4 # 5).

(** A script where no call gets through. *)
Definition env_offline : Env :=
  mkEnv (fun _ => Raise (mkExc APIConnectionError "Network is unreachable"))
        (fun _ _ => Raise (mkExc APIConnectionError "Network is unreachable"))
        (fun _ _ => Raise (mkExc APIConnectionError "Network is unreachable"))
        (fun k => inject_Z (Z.of_nat k))
        (fun _ => 1 # 4).

(** A script where the card is declined, and where Stripe reports a key
    reused with other parameters. *)
Definition env_declined : Env :=
  mkEnv (fun _ => Raise (mkExc CardError "Your card was declined."))
        (fun _ _ => Raise (mkExc CardError "Your card was declined."))
        (fun _ _ => Raise (mkExc InvalidRequestError "Charge already refunded."))
        (fun k => inject_Z (Z.of_nat k))
        (fun _ => 1 # 4).


Definition env_collision : Env :=
  mkEnv (fun _ => Raise (mkExc IdempotencyError "Keys for idempotent requests can only be used with the same parameters."))
        (fun _ _ => Raise (mkExc IdempotencyError "Keys for idempotent requests can only be used with the same parameters."))
        (fun _ _ => Raise (mkExc IdempotencyError "Keys for idempotent requests can only be used with the same parameters."))
        (fun k => inject_Z (Z.of_nat k))
        (fun _ => 1 # 4).

(** *** Computations that only print *)

(** The world after [lines] have been printed and nothing else done. *)
Definition with_lines (lines : list Line) (w : World) : World :=
  mkWorld (trace w ++ map EvPrint lines) (n_calls w) (n_requests w)
          (n_clock w) (n_random w).

(** [m] returns [a], from every world and under every script, and its only
    effect is to print. *)
Definition only_prints {A} (m : Py A) (a : A) : Prop :=
  forall env w, exists lines, m env w = (Ret a, with_lines lines w).

(** [n] calls of [m] in a row, with what each returned. *)
Fixpoint call_times {A} (n : nat) (m : Py A) : Py (list A) :=
  match n with
  | O => ret []
  | S n' => a <- m ;; rest <- call_times n' m ;; ret (a :: rest)
  end.

(** A plan of three machines, the second with a warranty refund of 50.00
    behind it. *)
Definition plan_three : list Eligible :=
  [ mkEligible "pi_1" (Some "ch_1") 34900 0 34900 "NB-10001" "customer1@example.com"
               "NordBrew Pro 3000 - Order NB-10001" 1767225600;
    mkEligible "pi_2" (Some "ch_2") 34900 5000 29900 "NB-10002" "customer2@example.com"
               "NordBrew Pro 3000 - Order NB-10002" 1767225601;
    mkEligible "pi_3" (Some "ch_3") 34900 0 34900 "NB-10003" "customer3@example.com"
               "NordBrew Pro 3000 - Order NB-10003" 1767225602 ].

(** *** Candidates and how they are routed *)

(** What a payment intent has been refunded so far:
    [charge.amount_refunded if charge else 0]. *)
Definition refunded_of (pi : PaymentIntent) : Z :=
  match pi_latest_charge pi with
  | Some c => ch_amount_refunded c
  | None => 0
  end.

(** The answers of Stripe to the retrievals of [ids], the first being its
    request number [q]. *)
Fixpoint retrieved (env : Env) (q : nat) (ids : list string) : list (Res PaymentIntent) :=
  match ids with
  | [] => []
  | id :: rest =>
      stripe_pi env q (PaymentIntent_retrieve id ["latest_charge"])
        :: retrieved env (S q) rest
  end.

(** Where a retrieved payment intent goes: into the plan, or to the skip
    list. *)
Definition route (pi : PaymentIntent) : Eligible + Skipped :=
  if negb (String.eqb (pi_status pi) "succeeded") then
    inr (mkSkipped (pi_id pi) (status_reason (pi_status pi)))
  else if pi_amount pi - refunded_of pi <=? 0 then
    inr (mkSkipped (pi_id pi) "Already fully refunded")
  else
    inl (mkEligible (pi_id pi)
           (match pi_latest_charge pi with Some c => Some (ch_id c) | None => None end)
           (pi_amount pi) (refunded_of pi) (pi_amount pi - refunded_of pi)
           (default "N/A" (pi_metadata pi !! "order_id"))
           (default "N/A" (pi_metadata pi !! "customer_email"))
           (pi_description pi) (pi_created pi)).

Fixpoint lefts {A B} (l : list (A + B)) : list A :=
  match l with
  | [] => []
  | inl a :: rest => a :: lefts rest
  | inr _ :: rest => lefts rest
  end.

Fixpoint rights {A B} (l : list (A + B)) : list B :=
  match l with
  | [] => []
  | inl _ :: rest => rights rest
  | inr b :: rest => b :: rights rest
  end.

(** A payment that was authorised and then cancelled: Stripe shows its
    charge refunded in full, and the intent [canceled]. *)
Definition pi_canceled : PaymentIntent :=
  mkPI "pi_9" 34900 "canceled" "NordBrew Pro 3000 - Order NB-10009" ∅ 1767225609
       (Some (mkCharge "ch_9" 34900)).

(** A paid machine with a warranty refund of 50.00, and one refunded in
    full. *)
Definition pi_partial : PaymentIntent :=
  mkPI "pi_2" 34900 "succeeded" "NordBrew Pro 3000 - Order NB-10002"
       (list_to_map [("order_id", "NB-10002"); ("customer_email", "customer2@example.com")])
       1767225601 (Some (mkCharge "ch_2" 5000)).

Definition pi_refunded : PaymentIntent :=
  mkPI "pi_4" 34900 "succeeded" "NordBrew Pro 3000 - Order NB-10004" ∅ 1767225604
       (Some (mkCharge "ch_4" 34900)).

(** Stripe as the discovery sees it in the examples: it knows the three
    payment intents above by their ids. *)
Definition env_recall : Env :=
  mkEnv (fun _ => Ret ∅)
        (fun _ req =>
           match req with
           | PaymentIntent_retrieve id _ =>
               if String.eqb id "pi_9" then Ret pi_canceled
               else if String.eqb id "pi_2" then Ret pi_partial
               else if String.eqb id "pi_4" then Ret pi_refunded
               else Raise (mkExc InvalidRequestError "No such payment_intent")
           | _ => Raise (mkExc InvalidRequestError "Invalid request")
           end)
        (fun _ _ => Ret (mkRefund "re_1" "succeeded"))
        (fun k => inject_Z (Z.of_nat k))
        (fun _ => 1 # 4).

(** *** The submissions of a bulk run *)

(** One refund submitted: its place in the plan (from 1), the target, the
    request sent, what Stripe answered, and the clock when the outcome was
    recorded. *)
Record Submission := mkSubmission {
  sub_index : Z;
  sub_target : Eligible;
  sub_request : Request;
  sub_answer : Res Refund;
  sub_recorded : Q
}.

(** The submissions of the targets [ps] in order, the first being item [i],
    request number [q] and reading the clock from reading [t] on: each item
    reads the clock once for the request and once for its record. *)
Fixpoint submissions (env : Env) (i : Z) (q t : nat) (ps : list Eligible)
    : list Submission :=
  match ps with
  | [] => []
  | p :: rest =>
      let req := refund_request p (clock env t) in
      mkSubmission i p req (stripe_refund env q req) (clock env (S t))
        :: submissions env (i + 1) (S q) (S (S t)) rest
  end.

Definition succeeded_of (subs : list Submission) : list SucceededEntry :=
  flat_map (fun s =>
    match sub_answer s with
    | Ret refund =>
        let p := sub_target s in
        [mkSucceeded (e_order_id p) (e_pi_id p) (rf_id refund) (e_refundable p)
           (refund_type_of (e_already_refunded p)) (e_customer_email p)
           (rf_status refund) (sub_recorded s)]
    | Raise _ => []
    end) subs.

Definition failed_of (subs : list Submission) : list FailedEntry :=
  flat_map (fun s =>
    match sub_answer s with
    | Ret _ => []
    | Raise e => [failed_entry (sub_target s) e (sub_recorded s)]
    end) subs.

(** The targets whose refund was rejected. *)
Definition failed_targets (subs : list Submission) : list Eligible :=
  flat_map (fun s =>
    match sub_answer s with
    | Ret _ => []
    | Raise _ => [sub_target s]
    end) subs.

(** The pause that follows a submission: one second after item 20, 40, ...
    when its refund went through, none otherwise. *)
Definition pause_after (s : Submission) : list Q :=
  match sub_answer s with
  | Ret _ => if sub_index s mod 20 =? 0 then [1%Q] else []
  | Raise _ => []
  end.

(** What a run does besides printing: each request, then its pause. *)
Definition submission_actions (subs : list Submission) : list Event :=
  flat_map (fun s => EvStripe (sub_request s) :: map EvSleep (pause_after s)) subs.

(** The world after one reading of the clock. *)
Definition tick (w : World) : World :=
  mkWorld (trace w) (n_calls w) (n_requests w) (S (n_clock w)) (n_random w).

(** The line of the report that shows the verification. *)
Definition verification_line (results : Results) (total_preview : Z) : Line :=
  mkLine "  |  Verification:       {match:<35}" [VStr (verification results total_preview)].

(** Twenty machines to refund. *)
Definition plan_twenty : list Eligible :=
  map (fun k => mkEligible ("pi_" ++ k) (Some ("ch_" ++ k)) 34900 0 34900 ("NB-100" ++ k)
                           ("customer" ++ k ++ "@example.com") "NordBrew Pro 3000"
                           1767225600)%string
      ["01"; "02"; "03"; "04"; "05"; "06"; "07"; "08"; "09"; "10";
       "11"; "12"; "13"; "14"; "15"; "16"; "17"; "18"; "19"; "20"].

(** Stripe refunds every payment but the one of request number [k], which it
    rejects as an invalid request. *)
Definition env_rejecting (k : nat) : Env :=
  mkEnv (fun _ => Ret ∅)
        (fun _ _ => Raise (mkExc InvalidRequestError "No such payment_intent"))
        (fun j _ => if (j =? k)%nat
                    then Raise (mkExc InvalidRequestError "Charge has already been refunded.")
                    else Ret (mkRefund "re_1" "succeeded"))
        (fun j => inject_Z (Z.of_nat j))
        (fun _ => 1 # 4).

(** A plan of 1000 in two targets, of 800 and of 200. *)
Definition plan_thousand : list Eligible :=
  [ mkEligible "pi_a" (Some "ch_a") 800 0 800 "NB-1" "a@example.com" "" 1767225600;
    mkEligible "pi_b" (Some "ch_b") 200 0 200 "NB-2" "b@example.com" "" 1767225601 ].


(* ===================================================================== *)
(** ** The rest of the two scripts                                       *)
(* ===================================================================== *)

From Stdlib Require Import Sorted.

Local Open Scope string_scope.
Local Open Scope list_scope.
Local Open Scope Z_scope.

(** The total of a list of durations. *)
Definition q_sum (l : list Q) : Q := fold_right Qplus 0%Q l.

(** A retrieved payment intent can still be refunded: it succeeded and
    something of its amount is left. *)
Definition refundable_now (pi : PaymentIntent) : bool :=
  String.eqb (pi_status pi) "succeeded" && (0 <? pi_amount pi - refunded_of pi).

(** The payment intent and the amount of a refund request. *)
Definition refund_target (req : Request) : option (string * Z) :=
  match req with
  | Refund_create payment_intent amount _ _ => Some (payment_intent, amount)
  | _ => None
  end.

(** The request that retrieves a candidate. *)
Definition retrieval (id : string) : Request :=
  PaymentIntent_retrieve id ["latest_charge"].

(** An id Stripe does not know, between two it knows. *)
Definition ids_with_unknown : list string := ["pi_2"; "pi_404"; "pi_4"].

(* ===================================================================== *)
(** ** Ticket 11: the demos                                              *)
(* ===================================================================== *)

From stdpp Require Import pretty.

Local Open Scope string_scope.
Local Open Scope list_scope.
Local Open Scope Z_scope.

(** [d[k]] *)
Definition getitem (d : Dict) (k : string) : Failure + PyVal :=
  match d !! k with
  | Some v => inr v
  | None => inl (KeyError k)
  end.

(** [d.get(k, otherwise)] *)
Definition dict_get_or (d : Dict) (k : string) (otherwise : PyVal) : PyVal :=
  default otherwise (d !! k).

(** [v[:n]], which the demos apply to a message. *)
Definition slice_to (n : nat) (v : PyVal) : Failure + PyVal :=
  match v with
  | VStr s => inr (VStr (chars_prefix n s))
  | _ => inl TypeError
  end.

(** The truth value of [v] under [if] and [not]. *)
Definition truthy (v : PyVal) : bool :=
  match v with
  | VNone => false
  | VBool b => b
  | VInt z => negb (z =? 0)
  | VFloat q => negb (Qeq_bool q 0)
  | VStr s => negb (String.eqb s "")
  end.

(** The number a value stands for under [==], where it stands for one:
    [True == 1 == 1.0]. *)
Definition number_of (v : PyVal) : option Q :=
  match v with
  | VBool b => Some (if b then 1%Q else 0%Q)
  | VInt z => Some (inject_Z z)
  | VFloat q => Some q
  | _ => None
  end.

(** [a == b] *)
Definition py_eq (a b : PyVal) : bool :=
  match a, b with
  | VNone, VNone => true
  | VStr s, VStr t => String.eqb s t
  | _, _ =>
      match number_of a, number_of b with
      | Some x, Some y => Qeq_bool x y
      | _, _ => false
      end
  end.

(** [set(l)], as the list of its elements in the order they came in. *)
Definition py_set (l : list PyVal) : list PyVal :=
  fold_left (fun s v => if existsb (py_eq v) s then s else s ++ [v]) l [].

(** A step that can end the demo with a [Failure]. *)
Definition need {A B} (x : Failure + A) (k : A -> Py (Failure + B))
    : Py (Failure + B) :=
  match x with
  | inl f => ret (inl f)
  | inr a => k a
  end.

Notation "x <-! e ;; k" := (need e (fun x => k))
  (at level 100, e at next level, right associativity).

(** [result['status'] if result['success'] else otherwise] *)
Definition status_or (result : Dict) (otherwise : string) : Failure + PyVal :=
  match getitem result "success" with
  | inl f => inl f
  | inr success => if truthy success then getitem result "status"
                   else inr (VStr otherwise)
  end.

(** *** Part 2: the same request twice *)

(** [drawn] is the number [random.randint(10000, 99999)] returns. *)
Definition demo_safe_payment (drawn : Z) : Py (Failure + (Dict * Dict)) :=
  print "\n======" [] ;;;
  print "PART 2: SAFE PAYMENT CREATION WITH IDEMPOTENCY KEYS" [] ;;;
  print "======" [] ;;;
  let agency_id := "agency_042" in
  let booking_id := ("booking_" ++ pretty drawn)%string in
  let amount := 240000 in
  let idempotency_key :=
    generate_composite_key agency_id booking_id "create_payment" in
  print "\n  Booking: {booking_id} (Agency: {agency_id})"
        [VStr booking_id; VStr agency_id] ;;;
  print "  Amount:  {amount / 100:,.2f}" [euros amount] ;;;
  print "  Key:     {idempotency_key}" [VStr idempotency_key] ;;;
  print "\n--- Attempt 1: Original request ---" [] ;;;
  result1 <- create_payment_safely amount "eur"
               ("TravelBook: " ++ booking_id ++ " for " ++ agency_id)%string
               idempotency_key None ;;
  shown1 <-! status_or result1 "FAILED" ;;
  print "  Result: {}" [shown1] ;;;
  print "  PI ID:  {}" [dict_get_or result1 "payment_intent_id" (VStr "N/A")] ;;;
  print "\n--- Attempt 2: Duplicate request (simulating retry) ---" [] ;;;
  result2 <- create_payment_safely amount "eur"
               ("TravelBook: " ++ booking_id ++ " for " ++ agency_id)%string
               idempotency_key None ;;
  shown2 <-! status_or result2 "FAILED" ;;
  print "  Result: {}" [shown2] ;;;
  print "  PI ID:  {}" [dict_get_or result2 "payment_intent_id" (VStr "N/A")] ;;;
  let same := py_eq (dict_get result1 "payment_intent_id")
                    (dict_get result2 "payment_intent_id") in
  print "\n  ok Same PaymentIntent returned: {same}" [VBool same] ;;;
  (if same then
     print "  ok No duplicate charge created - idempotency key worked!" []
   else
     print "  x WARNING: Different PaymentIntents - check implementation" []) ;;;
  ret (inr (result1, result2)).

(** *** Part 3: the same request three times *)

(** The loop of [demo_retry_logic] over the values of [i] still to come. *)
Fixpoint request_loop (request : Py Dict) (todo : list Z) (results : list Dict)
    : Py (Failure + list Dict) :=
  match todo with
  | [] => ret (inr results)
  | i :: rest =>
      print "  --- Request {i + 1} (same idempotency key) ---" [VInt (i + 1)] ;;;
      result <- request ;;
      let results := results ++ [result] in
      let pi_id := dict_get_or result "payment_intent_id" (VStr "N/A") in
      print "    PI ID:  {pi_id}" [pi_id] ;;;
      shown <-! status_or result "ERROR" ;;
      print "    Status: {}" [shown] ;;;
      request_loop request rest results
  end.

Definition demo_retry_logic (drawn : Z) : Py (Failure + unit) :=
  print "\n======" [] ;;;
  print "PART 3: RETRY SIMULATION WITH EXPONENTIAL BACKOFF" [] ;;;
  print "======" [] ;;;
  let booking_id := ("booking_" ++ pretty drawn)%string in
  let idempotency_key :=
    generate_composite_key "agency_099" booking_id "create_payment" in
  print "\n  Booking: {booking_id}" [VStr booking_id] ;;;
  print "  Key:     {idempotency_key}" [VStr idempotency_key] ;;;
  print "  Strategy: Exponential backoff (1s -> 2s -> 4s) + jitter" [] ;;;
  print "" [] ;;;
  looped <- request_loop
              (create_payment_safely 185000 "eur"
                 ("TravelBook: " ++ booking_id ++ " for agency_099")%string
                 idempotency_key None)
              (py_range 0 3) [] ;;
  results <-! looped ;;
  let pi_ids := map (fun r => dict_get r "payment_intent_id")
                    (List.filter (fun r => truthy (dict_get r "success")) results) in
  let unique_pis := py_set pi_ids in
  print "\n  Total API calls: {len(results)}" [py_len results] ;;;
  print "  Unique PaymentIntents created: {len(unique_pis)}" [py_len unique_pis] ;;;
  (if (length unique_pis =? 1)%nat then
     print "  ok All 3 requests returned the SAME PaymentIntent" [] ;;;
     print "  ok Customer charged exactly once - idempotency works!" []
   else
     print "  x Multiple PaymentIntents - idempotency key mismatch" []) ;;;
  ret (inr tt).

(** *** Part 4: one key, two amounts *)

Definition demo_key_collision : Py (Failure + unit) :=
  print "\n======" [] ;;;
  print "PART 4: KEY COLLISION DETECTION" [] ;;;
  print "======" [] ;;;
  let collision_key :=
    generate_composite_key "agency_test" "collision_demo" "create_payment" in
  print "\n  Testing key reuse with different parameters..." [] ;;;
  print "  Key: {collision_key}" [VStr collision_key] ;;;
  print "\n  --- Call 1: 100.00 ---" [] ;;;
  result1 <- create_payment_safely 10000 "eur"
               ("Collision test " ++ em_dash ++ " first call")%string
               collision_key None ;;
  success1 <-! getitem result1 "success" ;;
  print "    Success: {result1['success']}" [success1] ;;;
  print "    PI ID:   {}" [dict_get_or result1 "payment_intent_id" (VStr "N/A")] ;;;
  print "\n  --- Call 2: 200.00 (same key, different amount!) ---" [] ;;;
  result2 <- create_payment_safely 20000 "eur"
               ("Collision test " ++ em_dash ++ " second call")%string
               collision_key None ;;
  success2 <-! getitem result2 "success" ;;
  print "    Success: {result2['success']}" [success2] ;;;
  success2' <-! getitem result2 "success" ;;
  if negb (truthy success2') then
    error_type <-! getitem result2 "error_type" ;;
    print "    Error:   {result2['error_type']}" [error_type] ;;;
    message <-! getitem result2 "message" ;;
    cut <-! slice_to 120 message ;;
    print "    Message: {result2['message'][:120]}" [cut] ;;;
    print "\n  ok Stripe detected the key collision and rejected the request" [] ;;;
    print "  ok This prevents accidental parameter changes on retries" [] ;;;
    ret (inr tt)
  else
    print "    PI ID:   {}" [dict_get_or result2 "payment_intent_id" (VStr "N/A")] ;;;
    let same := py_eq (dict_get result1 "payment_intent_id")
                      (dict_get result2 "payment_intent_id") in
    (if same then
       print "\n  -> Stripe returned original result (params matched)" []
     else
       print "\n  -> Different result - check parameters" []) ;;;
    ret (inr tt).

(** What [create_payment_safely] returns for an answer of Stripe. *)
Definition result_of (idempotency_key : string) (answer : Res PaymentIntent) : Dict :=
  match answer with
  | Ret payment_intent =>
      dict [("success", VBool true);
            ("payment_intent_id", VStr (pi_id payment_intent));
            ("amount", VInt (pi_amount payment_intent));
            ("status", VStr (pi_status payment_intent));
            ("idempotency_key", VStr idempotency_key)]
  | Raise e =>
      dict [("success", VBool false);
            ("error_type",
             VStr (if decide (exc_class e = IdempotencyError)
                   then "idempotency_collision" else class_name (exc_class e)));
            ("message", VStr (exc_str e));
            ("idempotency_key", VStr idempotency_key)]
  end.

(** The request of [demo_safe_payment] for the number it drew. *)
Definition safe_payment_request (drawn : Z) : Request :=
  let booking_id := ("booking_" ++ pretty drawn)%string in
  payment_request 240000 "eur" ("TravelBook: " ++ booking_id ++ " for agency_042")%string
    (generate_composite_key "agency_042" booking_id "create_payment").

(** The request of [demo_retry_logic] for the number it drew. *)
Definition retry_logic_request (drawn : Z) : Request :=
  let booking_id := ("booking_" ++ pretty drawn)%string in
  payment_request 185000 "eur" ("TravelBook: " ++ booking_id ++ " for agency_099")%string
    (generate_composite_key "agency_099" booking_id "create_payment").

(** The ids of the payment intents among the answers of Stripe. *)
Definition created_ids (answers : list (Res PaymentIntent)) : list string :=
  flat_map (fun a => match a with Ret p => [pi_id p] | Raise _ => [] end) answers.

(** The two calls ended alike: with the same payment intent, or both with
    an error. *)
Definition alike (a1 a2 : Res PaymentIntent) : bool :=
  match a1, a2 with
  | Ret p1, Ret p2 => String.eqb (pi_id p1) (pi_id p2)
  | Raise _, Raise _ => true
  | _, _ => false
  end.

(** At least one payment intent was created, and every one created has
    the same id. *)
Definition one_payment_intent (ids : list string) : bool :=
  match ids with
  | [] => false
  | id :: rest => forallb (String.eqb id) rest
  end.
(* ===================================================================== *)
(** * Properties                                                         *)
(* ===================================================================== *)

(** ** SHA-256 against the published test vectors *)

Example sha256_empty :
  Sha256.hexdigest "" = "e3b0c44298fc1c149afbf4c8996fb92427ae41e4649b934ca495991b7852b855".
Proof. vm_compute. reflexivity. Qed.

Example sha256_abc :
  Sha256.hexdigest "abc" = "ba7816bf8f01cfea414140de5dae2223b00361a396177a9cb410ff61f20015ad".
Proof. vm_compute. reflexivity. Qed.

Example sha256_two_blocks :
  Sha256.hexdigest "aaaaaaaaaaaaaaaaaaaaaaaaaaaaaaaaaaaaaaaaaaaaaaaaaaaaaaaa" =
  "b35439a4ac6f0948b6d6f9e3c6af0f5f590ce20f1bde7090ef7970686ec6738a".
Proof. vm_compute. reflexivity. Qed.

Example composite_key_booking :
  generate_composite_key "agency_042" "booking_7891" "create_payment" =
  "4a1e910345c8b7615f2fa599d9a225b3".
Proof. vm_compute. reflexivity. Qed.

(** ** Key derivation *)

Section KeyDerivation.

Lemma colon_free_cons c s :
  colon_free (String c s) = true -> c <> ":"%char /\ colon_free s = true.
Proof.
  simpl. intros H. apply andb_prop in H as [Hc Hs]. split; [|exact Hs].
  intros ->. discriminate Hc.
Qed.

(** A string without [":"] is recovered from what it is joined to. *)
Lemma join_inj (s1 s2 t1 t2 : string) :
  colon_free s1 = true -> colon_free s2 = true ->
  (s1 ++ ":" ++ t1 = s2 ++ ":" ++ t2)%string ->
  s1 = s2 /\ t1 = t2.
Proof.
  revert s2. induction s1 as [|c s1 IH]; intros [|d s2] H1 H2 E; simpl in E.
  - injection E as E. auto.
  - injection E as Ec _. apply colon_free_cons in H2 as [Hd _]. congruence.
  - injection E as Ec _. apply colon_free_cons in H1 as [Hc _]. congruence.
  - injection E as Ec E. apply colon_free_cons in H1 as [_ H1].
    apply colon_free_cons in H2 as [_ H2].
    destruct (IH s2 H1 H2 E) as [-> ->]. subst. auto.
Qed.

Lemma composite_raw_inj (m1 o1 a1 m2 o2 a2 : string) :
  colon_free m1 = true -> colon_free o1 = true ->
  colon_free m2 = true -> colon_free o2 = true ->
  composite_raw m1 o1 a1 = composite_raw m2 o2 a2 ->
  (m1, o1, a1) = (m2, o2, a2).
Proof.
  unfold composite_raw. intros Hm1 Ho1 Hm2 Ho2 E.
  apply join_inj in E as [-> E]; [|assumption..].
  apply join_inj in E as [-> ->]; [|assumption..].
  reflexivity.
Qed.

End KeyDerivation.

(** C2, as the code has it. Equal identities always derive equal keys. The
    converse holds for the string that is digested, and only when neither
    the merchant nor the order id contains the separator [":"]: then that
    string is the same exactly when the identities are. What the key adds is
    the first 32 hex digits of its SHA-256. *)
Theorem C2_equal_identity_equal_key (b1 b2 : Booking) :
  (identity b1 = identity b2 -> booking_key b1 = booking_key b2) /\
  (colon_free (agency_id b1) = true -> colon_free (booking_id b1) = true ->
   colon_free (agency_id b2) = true -> colon_free (booking_id b2) = true ->
   (booking_raw b1 = booking_raw b2 <-> identity b1 = identity b2)) /\
  booking_key b1 = str_prefix 32 (Sha256.hexdigest (booking_raw b1)).
Proof.
  split; [|split].
  - unfold identity, booking_key. intros E. injection E as -> -> ->. reflexivity.
  - intros H1 H2 H3 H4. unfold booking_raw, identity. split.
    + intros E. apply composite_raw_inj; assumption.
    + intros E. injection E as -> -> ->. reflexivity.
  - reflexivity.
Qed.

Lemma C2_equal_identity_equal_key_witness :
  booking_key booking_a = booking_key booking_a_retry /\
  (booking_raw booking_a = booking_raw booking_b <-> identity booking_a = identity booking_b).
Proof.
  split.
  - apply (proj1 (C2_equal_identity_equal_key booking_a booking_a_retry)). reflexivity.
  - apply (proj1 (proj2 (C2_equal_identity_equal_key booking_a booking_b))); reflexivity.
Defined.

(** C2 as stated fails from right to left of the separator: two bookings
    with different identities are joined to the same string, and so get the
    same key. *)
Lemma C2_distinct_identities_same_key :
  booking_key booking_colon_1 = booking_key booking_colon_2 /\
  identity booking_colon_1 <> identity booking_colon_2 /\
  booking_raw booking_colon_1 = "agency:042:7891:create_payment" /\
  booking_raw booking_colon_2 = "agency:042:7891:create_payment".
Proof.
  split; [|split; [|split]]; try reflexivity.
  intros E. discriminate E.
Qed.

(** C3: the key is a function of the identity triple alone. Two bookings
    with the same merchant, order and action derive the same key, whatever
    their amounts, currencies and descriptions; the derivation takes no
    environment and no world, so neither the process nor the clock enters. *)
Theorem C3_key_ignores_parameters (b1 b2 : Booking) :
  agency_id b1 = agency_id b2 ->
  booking_id b1 = booking_id b2 ->
  action b1 = action b2 ->
  booking_key b1 = booking_key b2.
Proof.
  unfold booking_key. intros -> -> ->. reflexivity.
Qed.

Lemma C3_key_ignores_parameters_witness :
  b_amount booking_a <> b_amount booking_a_retry /\
  b_currency booking_a <> b_currency booking_a_retry /\
  b_description booking_a <> b_description booking_a_retry /\
  booking_key booking_a = booking_key booking_a_retry.
Proof.
  split; [discriminate|]. split; [discriminate|]. split; [discriminate|].
  apply (C3_key_ignores_parameters booking_a booking_a_retry); reflexivity.
Defined.

(** ** The exception classes *)

Lemma issubclass_StripeError (c : ExcClass) : issubclass c StripeError = true.
Proof. destruct c; reflexivity. Qed.

Lemma issubclass_IdempotencyError (c : ExcClass) :
  issubclass c IdempotencyError = true <-> c = IdempotencyError.
Proof. destruct c; split; intros H; try reflexivity; discriminate H. Qed.

Lemma issubclass_APIConnectionError (c : ExcClass) :
  issubclass c APIConnectionError = true <-> c = APIConnectionError.
Proof. destruct c; split; intros H; try reflexivity; discriminate H. Qed.

Lemma class_name_not_collision (c : ExcClass) :
  class_name c <> "idempotency_collision".
Proof. destruct c; discriminate. Qed.

(** ** Safe payment creation *)

Section CreatePaymentSafely.

Variables (env : Env) (w : World).
Variables (amount : Z) (currency description idempotency_key : string).
Variable customer_email : option string.

Let req := payment_request amount currency description idempotency_key.

Lemma create_payment_safely_created (payment_intent : PaymentIntent) :
  stripe_pi env (n_requests w) req = Ret payment_intent ->
  create_payment_safely amount currency description idempotency_key customer_email env w =
  (Ret (dict [("success", VBool true);
              ("payment_intent_id", VStr (pi_id payment_intent));
              ("amount", VInt (pi_amount payment_intent));
              ("status", VStr (pi_status payment_intent));
              ("idempotency_key", VStr idempotency_key)]),
   after_request req w).
Proof.
  intros H. unfold create_payment_safely, try_except, bind, stripe_request.
  fold req. rewrite H. reflexivity.
Qed.

Lemma create_payment_safely_collision (e : Exception) :
  stripe_pi env (n_requests w) req = Raise e ->
  exc_class e = IdempotencyError ->
  create_payment_safely amount currency description idempotency_key customer_email env w =
  (Ret (dict [("success", VBool false);
              ("error_type", VStr "idempotency_collision");
              ("message", VStr (exc_str e));
              ("idempotency_key", VStr idempotency_key)]),
   after_request req w).
Proof.
  intros H Hc. unfold create_payment_safely, try_except, bind, stripe_request.
  fold req. rewrite H. simpl. rewrite Hc. reflexivity.
Qed.

Lemma create_payment_safely_rejected (e : Exception) :
  stripe_pi env (n_requests w) req = Raise e ->
  exc_class e <> IdempotencyError ->
  create_payment_safely amount currency description idempotency_key customer_email env w =
  (Ret (dict [("success", VBool false);
              ("error_type", VStr (class_name (exc_class e)));
              ("message", VStr (exc_str e));
              ("idempotency_key", VStr idempotency_key)]),
   after_request req w).
Proof.
  intros H Hc. unfold create_payment_safely, try_except, bind, stripe_request.
  fold req. rewrite H. simpl.
  destruct (issubclass (exc_class e) IdempotencyError) eqn:Hi.
  - apply issubclass_IdempotencyError in Hi. contradiction.
  - rewrite issubclass_StripeError. reflexivity.
Qed.

End CreatePaymentSafely.

(** C10: [create_payment_safely] always returns a dict, whatever Stripe
    answers, and sends exactly one request. The dict holds the key it was
    given; ["success"] is [True] exactly when Stripe returned a payment
    intent, whose id is then under ["payment_intent_id"]; and after a
    rejection ["success"] is [False] and ["error_type"] is
    ["idempotency_collision"] exactly when the rejection was an
    [IdempotencyError]. *)
Theorem C10_create_payment_safely_total (env : Env) (w : World)
    (amount : Z) (currency description idempotency_key : string)
    (customer_email : option string) :
  let req := payment_request amount currency description idempotency_key in
  let answer := stripe_pi env (n_requests w) req in
  exists d : Dict,
    create_payment_safely amount currency description idempotency_key customer_email env w
      = (Ret d, after_request req w) /\
    d !! "idempotency_key" = Some (VStr idempotency_key) /\
    (d !! "success" = Some (VBool true) <-> exists payment_intent, answer = Ret payment_intent) /\
    (forall payment_intent, answer = Ret payment_intent ->
       d !! "payment_intent_id" = Some (VStr (pi_id payment_intent))) /\
    (forall e, answer = Raise e ->
       d !! "success" = Some (VBool false) /\
       (d !! "error_type" = Some (VStr "idempotency_collision")
        <-> exc_class e = IdempotencyError)).
Proof.
  intros req answer. destruct answer as [payment_intent|e] eqn:Ha.
  - eexists. split; [apply create_payment_safely_created; exact Ha|].
    split; [reflexivity|]. split; [|split].
    + split; [eauto | reflexivity].
    + intros p E. injection E as <-. reflexivity.
    + intros e E. discriminate E.
  - destruct (decide (exc_class e = IdempotencyError)) as [Hc|Hc].
    + eexists. split; [apply create_payment_safely_collision; [exact Ha|exact Hc]|].
      split; [reflexivity|]. split; [|split].
      * split; [intros E; discriminate E | intros [p E]; discriminate E].
      * intros p E. discriminate E.
      * intros e' E. injection E as <-. split; [reflexivity|]. tauto.
    + eexists. split; [apply create_payment_safely_rejected; [exact Ha|exact Hc]|].
      split; [reflexivity|]. split; [|split].
      * split; [intros E; discriminate E | intros [p E]; discriminate E].
      * intros p E. discriminate E.
      * intros e' E. injection E as <-. split; [reflexivity|]. split.
        -- intros E. exfalso. apply (class_name_not_collision (exc_class e)).
           change (dict [("success", VBool false);
                         ("error_type", VStr (class_name (exc_class e)));
                         ("message", VStr (exc_str e));
                         ("idempotency_key", VStr idempotency_key)] !! "error_type")
             with (Some (VStr (class_name (exc_class e)))) in E.
           congruence.
        -- intros E. contradiction.
Qed.

(** ** Retry with backoff *)

Lemma py_range_nil (a b : Z) : b <= a -> py_range a b = [].
Proof.
  intros H. unfold py_range. replace (Z.to_nat (b - a)) with O by lia. reflexivity.
Qed.

Lemma py_range_cons (a b : Z) : a < b -> py_range a b = a :: py_range (a + 1) b.
Proof.
  intros H. unfold py_range.
  replace (Z.to_nat (b - a)) with (S (Z.to_nat (b - (a + 1)))) by lia.
  simpl. f_equal; [lia|].
  rewrite <- seq_shift, map_map. apply map_ext. intros i. lia.
Qed.

Lemma py_range_length (a b : Z) : length (py_range a b) = Z.to_nat (b - a).
Proof. unfold py_range. rewrite length_map, length_seq. reflexivity. Qed.

(** *** What [time.sleep] and the conversion to a double accept *)

Lemma time_sleep_sleepable (seconds : Q) (env : Env) (w : World) :
  sleepable seconds = true ->
  time_sleep seconds env w = (Ret (inr tt), emit (EvSleep seconds) w).
Proof.
  unfold sleepable, time_sleep. intros H. apply andb_prop in H as [H0 H1].
  apply negb_true_iff in H1. cbv zeta. rewrite H1, H0.
  assert (Hneg : Qle_bool (inject_Z (- 2 ^ 63)) (seconds * inject_Z (10 ^ 9)) = true).
  { apply Qle_bool_iff. apply Qle_bool_iff in H0.
    apply Qle_trans with 0%Q; [vm_compute; discriminate|].
    apply Qmult_le_0_compat; [exact H0|vm_compute; discriminate]. }
  rewrite Hneg. reflexivity.
Qed.

Lemma time_sleep_refused (seconds : Q) (env : Env) (w : World) :
  sleepable seconds = false ->
  exists f, time_sleep seconds env w = (Ret (inl f), w).
Proof.
  unfold sleepable, time_sleep. intros H. cbv zeta.
  destruct (Qle_bool (inject_Z (2 ^ 63)) (seconds * inject_Z (10 ^ 9))); cbn [orb];
    [eauto|].
  destruct (negb (Qle_bool (inject_Z (- 2 ^ 63)) (seconds * inject_Z (10 ^ 9))));
    [eauto|].
  destruct (Qle_bool 0 seconds); [discriminate H|eauto].
Qed.

(** A negative length that fits the clock is refused with [ValueError]. *)
Lemma time_sleep_negative (seconds : Q) (env : Env) (w : World) :
  (seconds < 0)%Q ->
  (inject_Z (- 2 ^ 63) <= seconds * inject_Z (10 ^ 9))%Q ->
  time_sleep seconds env w = (Ret (inl ValueError), w).
Proof.
  intros Hneg Hfit. unfold time_sleep. cbv zeta.
  assert (H1 : Qle_bool (inject_Z (2 ^ 63)) (seconds * inject_Z (10 ^ 9)) = false).
  { apply not_true_iff_false. intros H. apply Qle_bool_iff in H.
    assert (Hp : (0 < inject_Z (2 ^ 63))%Q) by (vm_compute; reflexivity).
    assert (Hq : (0 < inject_Z (10 ^ 9))%Q) by (vm_compute; reflexivity).
    set (x := inject_Z (2 ^ 63)) in *. set (y := inject_Z (10 ^ 9)) in *. nra. }
  assert (H2 : Qle_bool (inject_Z (- 2 ^ 63)) (seconds * inject_Z (10 ^ 9)) = true)
    by (apply Qle_bool_iff; exact Hfit).
  assert (H3 : Qle_bool 0 seconds = false).
  { apply not_true_iff_false. intros H. apply Qle_bool_iff in H. lra. }
  rewrite H1, H2, H3. reflexivity.
Qed.

Lemma double_holds_power (a : Z) :
  1 <= a <= 1024 -> float_of_int (2 ^ (a - 1)) = inr (inject_Z (2 ^ (a - 1))).
Proof.
  intros H. unfold float_of_int.
  assert (Hb : 2 ^ 1023 < 2 ^ 1024 - 2 ^ 970) by (vm_compute; reflexivity).
  assert (Hp : 2 ^ (a - 1) <= 2 ^ 1023) by (apply Z.pow_le_mono_r; lia).
  assert (H0 : 0 <= 2 ^ (a - 1)) by (apply Z.pow_nonneg; lia).
  rewrite Z.abs_eq by exact H0.
  destruct (2 ^ 1024 - 2 ^ 970 <=? 2 ^ (a - 1)) eqn:E; [|reflexivity].
  apply Z.leb_le in E. lia.
Qed.

Section RetrySteps.

Variables (env : Env) (kwargs : list (string * PyVal)).
Variables (max_retries : Z) (base_delay : Q).

Let func := call_func kwargs.

(** One attempt, by what the call does. [tr], [c], [q], [t] and [r] are
    the fields of the world it starts in. *)
Lemma retry_attempt_success tr c q t r attempt audit_log result :
  func_script env c = Ret result ->
  retry_attempt func max_retries base_delay attempt audit_log env (mkWorld tr c q t r) =
  (Ret (Return (RPair (Some result)
          (audit_log ++ [success_entry attempt (clock env (S t) - clock env t)%Q result]))),
   mkWorld (tr ++ [EvCall kwargs]) (S c) q (S (S t)) r).
Proof.
  intros H. unfold retry_attempt, try_except, bind, func, call_func, time_time.
  cbn [trace n_calls n_requests n_clock n_random]. rewrite H. reflexivity.
Qed.

(** The handler of a connection error, up to the conversion of the power. *)
Lemma retry_attempt_transient tr c q t r attempt audit_log e :
  func_script env c = Raise e ->
  issubclass (exc_class e) APIConnectionError = true ->
  retry_attempt func max_retries base_delay attempt audit_log env (mkWorld tr c q t r) =
  match float_of_int (2 ^ (attempt - 1)) with
  | inl f => (Ret (Return (RRaise f)),
              mkWorld (tr ++ [EvCall kwargs]) (S c) q (S (S t)) r)
  | inr _ =>
      let delay := delay_at env base_delay attempt r in
      let audit_log' :=
        audit_log ++ [connection_error_entry attempt (clock env (S t) - clock env t)%Q
                        delay e] in
      if attempt <? max_retries then
        match time_sleep delay env
                (mkWorld (tr ++ [EvCall kwargs;
                                 EvPrint (mkLine retrying_template
                                            [VInt attempt; VFloat delay])])
                         (S c) q (S (S t)) (S r)) with
        | (Ret (inl f), w') => (Ret (Return (RRaise f)), w')
        | (Ret (inr _), w') => (Ret (Next audit_log'), w')
        | (Raise e', w') => (Raise e', w')
        end
      else
        (Ret (Return (RPair None audit_log')),
         mkWorld (tr ++ [EvCall kwargs;
                         EvPrint (mkLine exhausted_template [VInt attempt])])
                 (S c) q (S (S t)) (S r))
  end.
Proof.
  intros H Hc. unfold retry_attempt, try_except, bind, func, call_func, time_time.
  cbn [trace n_calls n_requests n_clock n_random]. rewrite H.
  cbn [find_handler exc_class]. rewrite Hc.
  destruct (float_of_int (2 ^ (attempt - 1))) as [f|x]; [reflexivity|].
  unfold random_uniform. cbn [trace n_calls n_requests n_clock n_random].
  cbv zeta. fold (jitter_at env r). fold (delay_at env base_delay attempt r).
  destruct (attempt <? max_retries).
  - unfold print, emit. cbn [trace n_calls n_requests n_clock n_random].
    rewrite <- app_assoc. cbn [app].
    destruct (time_sleep _ _ _) as [[[f|u]|e'] w']; reflexivity.
  - unfold print, emit, ret. cbn [trace n_calls n_requests n_clock n_random].
    rewrite <- app_assoc. reflexivity.
Qed.

Lemma retry_attempt_retried tr c q t r attempt audit_log :
  retried env base_delay (func_script env c) attempt r = true ->
  attempt < max_retries ->
  retry_attempt func max_retries base_delay attempt audit_log env (mkWorld tr c q t r) =
  (Ret (Next (audit_log ++ retried_entries env base_delay 1 attempt c t r)),
   mkWorld (tr ++ retried_events env kwargs base_delay 1 attempt r)
           (S c) q (S (S t)) (S r)).
Proof.
  unfold retried. intros H Hlt.
  apply andb_prop in H as [H Hs]. apply andb_prop in H as [Ht Hf].
  destruct (func_script env c) as [d|e] eqn:Hans; [discriminate Ht|].
  cbn [is_transient] in Ht.
  rewrite (retry_attempt_transient _ _ _ _ _ _ _ e Hans Ht).
  destruct (float_of_int (2 ^ (attempt - 1))) as [f|x]; [discriminate Hf|].
  cbv zeta. apply Z.ltb_lt in Hlt. rewrite Hlt.
  rewrite (time_sleep_sleepable _ _ _ Hs). unfold emit.
  cbn [trace n_calls n_requests n_clock n_random retried_entries retried_events].
  rewrite Hans, <- app_assoc. reflexivity.
Qed.

Lemma retry_attempt_exhausted tr c q t r attempt audit_log :
  is_transient (func_script env c) = true ->
  max_retries <= attempt ->
  1 <= attempt <= 1024 ->
  retry_attempt func max_retries base_delay attempt audit_log env (mkWorld tr c q t r) =
  (Ret (Return (RPair None
          (audit_log ++ retried_entries env base_delay 1 attempt c t r))),
   mkWorld (tr ++ [EvCall kwargs; EvPrint (mkLine exhausted_template [VInt attempt])])
           (S c) q (S (S t)) (S r)).
Proof.
  intros Ht Hge Ha.
  destruct (func_script env c) as [d|e] eqn:Hans; [discriminate Ht|].
  cbn [is_transient] in Ht.
  rewrite (retry_attempt_transient _ _ _ _ _ _ _ e Hans Ht).
  rewrite (double_holds_power attempt Ha). cbv zeta.
  apply Z.ltb_ge in Hge. rewrite Hge. cbn [retried_entries]. rewrite Hans. reflexivity.
Qed.

Lemma retry_attempt_permanent tr c q t r attempt audit_log e :
  func_script env c = Raise e ->
  issubclass (exc_class e) APIConnectionError = false ->
  retry_attempt func max_retries base_delay attempt audit_log env (mkWorld tr c q t r) =
  (Ret (Return (RPair None
          (audit_log ++ [stripe_error_entry attempt (clock env (S t) - clock env t)%Q e]))),
   mkWorld (tr ++ [EvCall kwargs]) (S c) q (S (S t)) r).
Proof.
  intros H Hc. unfold retry_attempt, try_except, bind, func, call_func, time_time.
  cbn [trace n_calls n_requests n_clock n_random]. rewrite H.
  cbn [find_handler exc_class]. rewrite Hc, issubclass_StripeError. reflexivity.
Qed.

(** An attempt that fails with a connection error and is not gone on from,
    though attempts are left: an error is raised inside the handler, after
    the call and perhaps the line that announces the sleep, and nothing
    else. *)
Lemma retry_attempt_refused tr c q t r attempt audit_log :
  is_transient (func_script env c) = true ->
  retried env base_delay (func_script env c) attempt r = false ->
  attempt < max_retries ->
  exists f tail r',
    retry_attempt func max_retries base_delay attempt audit_log env (mkWorld tr c q t r) =
    (Ret (Return (RRaise f)),
     mkWorld (tr ++ EvCall kwargs :: tail) (S c) q (S (S t)) r') /\
    actions tail = [].
Proof.
  unfold retried. intros Ht H Hlt. rewrite Ht in H. cbn [andb] in H.
  destruct (func_script env c) as [d|e] eqn:Hans; [discriminate Ht|].
  cbn [is_transient] in Ht.
  rewrite (retry_attempt_transient _ _ _ _ _ _ _ e Hans Ht).
  destruct (float_of_int (2 ^ (attempt - 1))) as [f|x].
  - exists f, [], r. split; reflexivity.
  - cbn [andb] in H. cbv zeta. apply Z.ltb_lt in Hlt. rewrite Hlt.
    destruct (time_sleep_refused _ env
                (mkWorld (tr ++ [EvCall kwargs;
                                 EvPrint (mkLine retrying_template
                                            [VInt attempt;
                                             VFloat (delay_at env base_delay attempt r)])])
                         (S c) q (S (S t)) (S r)) H) as [f Hf].
    rewrite Hf. eexists f, [_], (S r). split; reflexivity.
Qed.

(** On the last attempt allowed no sleep follows: what can be raised there
    is the error of the conversion. *)
Lemma retry_attempt_last_overflow tr c q t r attempt audit_log :
  is_transient (func_script env c) = true ->
  max_retries <= attempt ->
  1024 < attempt ->
  retry_attempt func max_retries base_delay attempt audit_log env (mkWorld tr c q t r) =
  (Ret (Return (RRaise OverflowError)),
   mkWorld (tr ++ [EvCall kwargs]) (S c) q (S (S t)) r).
Proof.
  intros Ht Hge Ha.
  destruct (func_script env c) as [d|e] eqn:Hans; [discriminate Ht|].
  cbn [is_transient] in Ht.
  rewrite (retry_attempt_transient _ _ _ _ _ _ _ e Hans Ht).
  unfold float_of_int.
  assert (Hp : 2 ^ 1024 <= 2 ^ (attempt - 1)) by (apply Z.pow_le_mono_r; lia).
  assert (Hb : 2 ^ 1024 - 2 ^ 970 < 2 ^ 1024) by (vm_compute; reflexivity).
  rewrite Z.abs_eq by (apply Z.pow_nonneg; lia).
  destruct (2 ^ 1024 - 2 ^ 970 <=? 2 ^ (attempt - 1)) eqn:E; [reflexivity|].
  apply Z.leb_gt in E. lia.
Qed.

(** [j] attempts that are gone on from, while attempts are left, bring the
    loop to attempt [attempt + j]. *)
Lemma retry_loop_retried (j : nat) :
  forall tr c q t r attempt audit_log,
    (forall i, (i < j)%nat ->
       retried env base_delay (func_script env (c + i)) (attempt + Z.of_nat i) (r + i)
       = true) ->
    attempt + Z.of_nat j <= max_retries ->
    retry_loop func max_retries base_delay (py_range attempt (max_retries + 1))
               audit_log env (mkWorld tr c q t r) =
    retry_loop func max_retries base_delay
               (py_range (attempt + Z.of_nat j) (max_retries + 1))
               (audit_log ++ retried_entries env base_delay j attempt c t r) env
               (mkWorld (tr ++ retried_events env kwargs base_delay j attempt r)
                        (c + j) q (t + 2 * j) (r + j)).
Proof.
  induction j as [|j IH]; intros tr c q t r attempt audit_log Hs Hle.
  - simpl. rewrite !app_nil_r, Z.add_0_r, !Nat.add_0_r. reflexivity.
  - rewrite (py_range_cons attempt) by lia.
    cbn [retry_loop]. unfold bind at 1.
    rewrite retry_attempt_retried; [| |lia].
    2:{ specialize (Hs O ltac:(lia)). rewrite Nat.add_0_r, Z.add_0_r, Nat.add_0_r in Hs.
        exact Hs. }
    rewrite IH.
    + replace (attempt + 1 + Z.of_nat j) with (attempt + Z.of_nat (S j)) by lia.
      replace (S c + j)%nat with (c + S j)%nat by lia.
      replace (S (S t) + 2 * j)%nat with (t + 2 * S j)%nat by lia.
      replace (S r + j)%nat with (r + S j)%nat by lia.
      cbn [retried_entries retried_events].
      rewrite <- !app_assoc. reflexivity.
    + intros i Hi. specialize (Hs (S i) ltac:(lia)).
      replace (S c + i)%nat with (c + S i)%nat by lia.
      replace (attempt + 1 + Z.of_nat i) with (attempt + Z.of_nat (S i)) by lia.
      replace (S r + i)%nat with (r + S i)%nat by lia. exact Hs.
    + lia.
Qed.

End RetrySteps.

(** *** Reading the expected events and entries *)

Lemma invocations_app (l1 l2 : list Event) :
  invocations (l1 ++ l2) = (invocations l1 + invocations l2)%nat.
Proof. unfold invocations. rewrite List.filter_app, List.length_app. reflexivity. Qed.

Lemma sleeps_app (l1 l2 : list Event) : sleeps (l1 ++ l2) = sleeps l1 ++ sleeps l2.
Proof. unfold sleeps. apply flat_map_app. Qed.

Lemma actions_app (l1 l2 : list Event) : actions (l1 ++ l2) = actions l1 ++ actions l2.
Proof. unfold actions. apply List.filter_app. Qed.

Lemma stripe_requests_app (l1 l2 : list Event) :
  stripe_requests (l1 ++ l2) = stripe_requests l1 ++ stripe_requests l2.
Proof. unfold stripe_requests. apply flat_map_app. Qed.

Lemma printed_app (l1 l2 : list Event) : printed (l1 ++ l2) = printed l1 ++ printed l2.
Proof. unfold printed. apply flat_map_app. Qed.


Section RetriedScript.

Variables (env : Env) (kwargs : list (string * PyVal)) (base_delay : Q).

Lemma invocations_retried j attempt r :
  invocations (retried_events env kwargs base_delay j attempt r) = j.
Proof.
  revert attempt r. induction j as [|j IH]; intros attempt r; [reflexivity|].
  cbn [retried_events]. change (S j) with (1 + j)%nat. rewrite <- (IH (attempt + 1) (S r)) at 2.
  reflexivity.
Qed.

Lemma sleeps_retried_length j attempt r :
  length (sleeps (retried_events env kwargs base_delay j attempt r)) = j.
Proof.
  revert attempt r. induction j as [|j IH]; intros attempt r; [reflexivity|].
  cbn [retried_events]. simpl. rewrite IH. reflexivity.
Qed.

Lemma stripe_requests_retried j attempt r :
  stripe_requests (retried_events env kwargs base_delay j attempt r) = [].
Proof.
  revert attempt r. induction j as [|j IH]; intros attempt r; [reflexivity|].
  cbn [retried_events]. simpl. apply IH.
Qed.


Lemma retried_entries_length j attempt c t r :
  length (retried_entries env base_delay j attempt c t r) = j.
Proof.
  revert attempt c t r. induction j as [|j IH]; intros; [reflexivity|].
  cbn [retried_entries]. simpl. rewrite IH. reflexivity.
Qed.

Lemma retried_entries_app j k attempt c t r :
  retried_entries env base_delay (j + k) attempt c t r =
  retried_entries env base_delay j attempt c t r ++
  retried_entries env base_delay k (attempt + Z.of_nat j) (c + j) (t + 2 * j) (r + j).
Proof.
  revert attempt c t r. induction j as [|j IH]; intros attempt c t r.
  - simpl. rewrite Z.add_0_r, !Nat.add_0_r. reflexivity.
  - cbn [Nat.add retried_entries]. rewrite IH. cbn [app]. do 2 f_equal.
    f_equal; lia.
Qed.


End RetriedScript.

Lemma py_range_snoc (a : Z) (j : nat) :
  py_range a (a + Z.of_nat (S j)) = py_range a (a + Z.of_nat j) ++ [a + Z.of_nat j].
Proof.
  unfold py_range.
  replace (Z.to_nat (a + Z.of_nat (S j) - a)) with (S j) by lia.
  replace (Z.to_nat (a + Z.of_nat j - a)) with j by lia.
  rewrite seq_S, map_app. reflexivity.
Qed.

(** The leading answers of a script are all of one kind, or there is a
    first one that is not. *)
Lemma leading_prefix (p : nat -> bool) (n : nat) :
  (forall i, (i < n)%nat -> p i = true) \/
  (exists j, (j < n)%nat /\ (forall i, (i < j)%nat -> p i = true) /\ p j = false).
Proof.
  induction n as [|n [IH|[j [Hj [Hp Hf]]]]].
  - left. intros i Hi. lia.
  - destruct (p n) eqn:Hn.
    + left. intros i Hi. destruct (decide (i = n)) as [->|]; [exact Hn|apply IH; lia].
    + right. exists n. auto.
  - right. exists j. split; [lia|auto].
Qed.


(** *** When the schedule can be carried out *)

Lemma delay_at_sleepable (env : Env) (max_retries : Z) (base_delay : Q)
    (a : Z) (r : nat) :
  schedule_fits max_retries base_delay ->
  (forall k, 0 <= random_random env k /\ random_random env k < 1)%Q ->
  1 <= a < max_retries ->
  sleepable (delay_at env base_delay a r) = true.
Proof.
  intros (Hbase & _ & Hfit) Hrand Ha.
  destruct (Hrand r) as [Hr0 Hr1].
  assert (H1 : 1 <= 2 ^ (a - 1)) by (apply (Z.pow_le_mono_r 2 0 (a - 1)); lia).
  assert (H2 : 2 ^ (a - 1) <= 2 ^ (max_retries - 2)) by (apply Z.pow_le_mono_r; lia).
  rewrite Zle_Qle in H1. rewrite Zle_Qle in H2.
  change (inject_Z 1) with 1%Q in H1.
  assert (Hn : (0 < inject_Z (10 ^ 9))%Q) by (vm_compute; reflexivity).
  assert (Hlim : (inject_Z (9 * 10 ^ 9) * inject_Z (10 ^ 9) < inject_Z (2 ^ 63))%Q)
    by (vm_compute; reflexivity).
  unfold sleepable, delay_at, backoff_delay, jitter_at.
  set (x := inject_Z (2 ^ (a - 1))) in *.
  set (y := inject_Z (2 ^ (max_retries - 2))) in *.
  set (n := inject_Z (10 ^ 9)) in *. set (m := inject_Z (2 ^ 63)) in *.
  set (l := inject_Z (9 * 10 ^ 9)) in *.
  set (u := random_random env r) in *.
  apply andb_true_intro. split.
  - apply Qle_bool_iff. nra.
  - apply negb_true_iff, not_true_iff_false. intros H. apply Qle_bool_iff in H.
    assert (Hd : (base_delay * x + (0 + ((1 # 2) - 0) * u) <= l)%Q) by nra.
    assert (Hm : ((base_delay * x + (0 + ((1 # 2) - 0) * u)) * n <= l * n)%Q).
    { apply Qmult_le_compat_r; [exact Hd|lra]. }
    lra.
Qed.

Lemma schedule_fits_retried (env : Env) (max_retries : Z) (base_delay : Q)
    (c r i : nat) :
  schedule_fits max_retries base_delay ->
  (forall k, 0 <= random_random env k /\ random_random env k < 1)%Q ->
  Z.of_nat (S i) < max_retries ->
  is_transient (func_script env (c + i)) = true ->
  retried_at env base_delay c r i = true.
Proof.
  intros Hfit Hrand Hi Ht. unfold retried_at, retried. rewrite Ht.
  rewrite double_holds_power by (destruct Hfit as (_ & Hm & _); lia).
  rewrite (delay_at_sleepable env max_retries) by (auto; lia). reflexivity.
Qed.

Section RetryRuns.

Variables (env : Env) (kwargs : list (string * PyVal)).
Variables (max_retries : Z) (base_delay : Q).
Variables (tr : list Event) (c q t r : nat).

Let func := call_func kwargs.
Let w := mkWorld tr c q t r.

(** The ways a run ends. After [j] attempts that were gone on from, the
    next one returns, or fails for good, or is the last one allowed and
    fails with a connection error, or raises inside its handler. *)
Lemma retry_run_success (j : nat) (result : Dict) :
  Z.of_nat j < max_retries ->
  (forall i, (i < j)%nat -> retried_at env base_delay c r i = true) ->
  func_script env (c + j) = Ret result ->
  retry_with_backoff func max_retries base_delay env w =
  (Ret (RPair (Some result)
          (retried_entries env base_delay j 1 c t r ++
           [success_entry (1 + Z.of_nat j)
              (clock env (S (t + 2 * j)) - clock env (t + 2 * j))%Q result])),
   mkWorld (tr ++ retried_events env kwargs base_delay j 1 r ++ [EvCall kwargs])
           (S (c + j)) q (S (S (t + 2 * j))) (r + j)).
Proof.
  intros Hj Hs Hr. unfold retry_with_backoff, w.
  rewrite (retry_loop_retried env kwargs max_retries base_delay j) by (auto; lia).
  rewrite py_range_cons by lia. cbn [retry_loop]. unfold bind.
  fold func. unfold func. rewrite (retry_attempt_success _ _ _ _ _ _ _ _ _ _ _ result Hr).
  unfold ret. rewrite <- !app_assoc. reflexivity.
Qed.

Lemma retry_run_permanent (j : nat) (e : Exception) :
  Z.of_nat j < max_retries ->
  (forall i, (i < j)%nat -> retried_at env base_delay c r i = true) ->
  func_script env (c + j) = Raise e ->
  issubclass (exc_class e) APIConnectionError = false ->
  retry_with_backoff func max_retries base_delay env w =
  (Ret (RPair None
          (retried_entries env base_delay j 1 c t r ++
           [stripe_error_entry (1 + Z.of_nat j)
              (clock env (S (t + 2 * j)) - clock env (t + 2 * j))%Q e])),
   mkWorld (tr ++ retried_events env kwargs base_delay j 1 r ++ [EvCall kwargs])
           (S (c + j)) q (S (S (t + 2 * j))) (r + j)).
Proof.
  intros Hj Hs Hr Hc. unfold retry_with_backoff, w.
  rewrite (retry_loop_retried env kwargs max_retries base_delay j) by (auto; lia).
  rewrite py_range_cons by lia. cbn [retry_loop]. unfold bind.
  rewrite (retry_attempt_permanent _ _ _ _ _ _ _ _ _ _ _ e Hr Hc).
  unfold ret. rewrite <- !app_assoc. reflexivity.
Qed.

Lemma retry_run_exhausted (j : nat) :
  Z.of_nat (S j) = max_retries ->
  max_retries <= 1024 ->
  (forall i, (i < j)%nat -> retried_at env base_delay c r i = true) ->
  is_transient (func_script env (c + j)) = true ->
  retry_with_backoff func max_retries base_delay env w =
  (Ret (RPair None (retried_entries env base_delay (S j) 1 c t r)),
   mkWorld (tr ++ retried_events env kwargs base_delay j 1 r ++
              [EvCall kwargs; EvPrint (mkLine exhausted_template [VInt max_retries])])
           (S (c + j)) q (S (S (t + 2 * j))) (S (r + j))).
Proof.
  intros Hj Hmax Hs Ht. unfold retry_with_backoff, w.
  rewrite (retry_loop_retried env kwargs max_retries base_delay j) by (auto; lia).
  rewrite py_range_cons by lia. cbn [retry_loop]. unfold bind.
  rewrite retry_attempt_exhausted by (auto; lia).
  unfold ret. replace (S j) with (j + 1)%nat by lia.
  rewrite retried_entries_app, <- !app_assoc.
  replace (1 + Z.of_nat j) with max_retries by lia. reflexivity.
Qed.

Lemma retry_run_refused (j : nat) :
  Z.of_nat (S j) < max_retries ->
  (forall i, (i < j)%nat -> retried_at env base_delay c r i = true) ->
  is_transient (func_script env (c + j)) = true ->
  retried_at env base_delay c r j = false ->
  exists f tail w',
    retry_with_backoff func max_retries base_delay env w = (Ret (RRaise f), w') /\
    trace w' = tr ++ retried_events env kwargs base_delay j 1 r ++ EvCall kwargs :: tail /\
    actions tail = [].
Proof.
  intros Hj Hs Ht Hno. unfold retry_with_backoff, w.
  rewrite (retry_loop_retried env kwargs max_retries base_delay j) by (auto; lia).
  rewrite py_range_cons by lia. cbn [retry_loop]. unfold bind.
  destruct (retry_attempt_refused env kwargs max_retries base_delay
              (tr ++ retried_events env kwargs base_delay j 1 r) (c + j) q (t + 2 * j)
              (r + j) (1 + Z.of_nat j)
              ([] ++ retried_entries env base_delay j 1 c t r) Ht Hno ltac:(lia))
    as (f & tail & r' & Hrun & Htail).
  unfold func. rewrite Hrun. eexists f, tail, _.
  split; [reflexivity|]. cbn [trace]. rewrite <- app_assoc. split; [reflexivity|exact Htail].
Qed.

Lemma retry_run_last_overflow (j : nat) :
  Z.of_nat (S j) = max_retries ->
  1024 < max_retries ->
  (forall i, (i < j)%nat -> retried_at env base_delay c r i = true) ->
  is_transient (func_script env (c + j)) = true ->
  retry_with_backoff func max_retries base_delay env w =
  (Ret (RRaise OverflowError),
   mkWorld (tr ++ retried_events env kwargs base_delay j 1 r ++ [EvCall kwargs])
           (S (c + j)) q (S (S (t + 2 * j))) (r + j)).
Proof.
  intros Hj Hmax Hs Ht. unfold retry_with_backoff, w.
  rewrite (retry_loop_retried env kwargs max_retries base_delay j) by (auto; lia).
  rewrite py_range_cons by lia. cbn [retry_loop]. unfold bind.
  rewrite retry_attempt_last_overflow by (auto; lia).
  unfold ret. rewrite <- !app_assoc. reflexivity.
Qed.

(** Every run with a positive number of attempts, whatever its arguments:
    some attempts are gone on from, then one more call is made, after which
    nothing is called and nothing slept. That attempt was not one to go on
    from, or it was the last one allowed. *)
Lemma retry_run_ends :
  1 <= max_retries ->
  exists j tail ending w',
    retry_with_backoff func max_retries base_delay env w = (Ret ending, w') /\
    trace w' = tr ++ retried_events env kwargs base_delay j 1 r
                  ++ EvCall kwargs :: tail /\
    Z.of_nat j < max_retries /\
    actions tail = [] /\
    (forall i, (i < j)%nat -> retried_at env base_delay c r i = true) /\
    (retried_at env base_delay c r j = false \/ Z.of_nat (S j) = max_retries).
Proof.
  intros Hmax.
  destruct (leading_prefix (fun i => retried_at env base_delay c r i)
                           (Z.to_nat max_retries - 1))
    as [Hall | (j & Hj & Hpre & Hstop)].
  - (* every attempt but the last is gone on from *)
    destruct (Z.to_nat max_retries) as [|j] eqn:HN; [lia|].
    replace (S j - 1)%nat with j in Hall by lia.
    assert (Hmj : Z.of_nat (S j) = max_retries) by lia.
    exists j. destruct (func_script env (c + j)) as [result|e] eqn:Hans.
    + eexists _, _, _.
      split; [apply (retry_run_success j result ltac:(lia) Hall Hans)|].
      cbn [trace]. split; [reflexivity|]. split; [lia|]. split; [reflexivity|].
      split; [exact Hall|]. right. exact Hmj.
    + destruct (issubclass (exc_class e) APIConnectionError) eqn:Hc.
      * assert (Ht : is_transient (func_script env (c + j)) = true)
          by (rewrite Hans; exact Hc).
        destruct (Z_le_gt_dec max_retries 1024) as [Hsmall|Hbig].
        -- eexists _, _, _.
           split; [apply (retry_run_exhausted j Hmj Hsmall Hall Ht)|].
           cbn [trace]. split; [reflexivity|]. split; [lia|]. split; [reflexivity|].
           split; [exact Hall|]. right. exact Hmj.
        -- eexists _, _, _.
           split; [apply (retry_run_last_overflow j Hmj ltac:(lia) Hall Ht)|].
           cbn [trace]. split; [reflexivity|]. split; [lia|]. split; [reflexivity|].
           split; [exact Hall|]. right. exact Hmj.
      * eexists _, _, _.
        split; [apply (retry_run_permanent j e ltac:(lia) Hall Hans Hc)|].
        cbn [trace]. split; [reflexivity|]. split; [lia|]. split; [reflexivity|].
        split; [exact Hall|]. right. exact Hmj.
  - (* attempt [j + 1] is the first not gone on from, and is not the last *)
    assert (Hjm : Z.of_nat (S j) < max_retries) by lia.
    exists j. destruct (func_script env (c + j)) as [result|e] eqn:Hans.
    + eexists _, _, _.
      split; [apply (retry_run_success j result ltac:(lia) Hpre Hans)|].
      cbn [trace]. split; [reflexivity|]. split; [lia|]. split; [reflexivity|].
      split; [exact Hpre|]. left. exact Hstop.
    + destruct (issubclass (exc_class e) APIConnectionError) eqn:Hc.
      * assert (Ht : is_transient (func_script env (c + j)) = true)
          by (rewrite Hans; exact Hc).
        destruct (retry_run_refused j Hjm Hpre Ht Hstop)
          as (f & tail & w' & Hrun & Htr & Htail).
        exists tail, (RRaise f), w'.
        split; [exact Hrun|]. split; [exact Htr|]. split; [lia|].
        split; [exact Htail|]. split; [exact Hpre|]. left. exact Hstop.
      * eexists _, _, _.
        split; [apply (retry_run_permanent j e ltac:(lia) Hpre Hans Hc)|].
        cbn [trace]. split; [reflexivity|]. split; [lia|]. split; [reflexivity|].
        split; [exact Hpre|]. left. exact Hstop.
Qed.

End RetryRuns.



Section RetryShape.

Variables (env : Env) (kwargs : list (string * PyVal)).
Variables (max_retries : Z) (base_delay : Q).



End RetryShape.



Lemma schedule_fits_default : schedule_fits 3 1.
Proof.
  split; [discriminate|]. split; [lia|]. vm_compute. discriminate.
Qed.



(** C5: an error that is not a connection error is never retried, and a key
    collision is told apart from any other rejection.

    In [create_payment_safely], a rejection by Stripe costs exactly one
    request and comes back at once as a dict with ["success"] [False], whose
    ["error_type"] is ["idempotency_collision"] for an [IdempotencyError] and
    the class name otherwise, and no class has that name.

    In [retry_with_backoff], when the call of attempt [j + 1] raises such an
    error, the [j] attempts before it having failed with a connection error,
    that call is the last event of the run: no sleep and no further call
    follow, whatever [max_retries] still allows, the result is [None], and
    the error is the last entry of the log. With [j = 0], the first call
    raising it, exactly one call is made, whatever the base delay; with
    attempts before it, the schedule must be one that can be carried out, a
    sleep that is refused ending the run before that call. *)
Theorem C5_permanent_errors_are_not_retried (env : Env) (w : World)
    (kwargs : list (string * PyVal)) (max_retries : Z) (base_delay : Q)
    (amount : Z) (currency description idempotency_key : string)
    (customer_email : option string) (e : Exception) (j : nat) :
  issubclass (exc_class e) APIConnectionError = false ->
  Z.of_nat j < max_retries ->
  (forall i, (i < j)%nat -> is_transient (func_script env (n_calls w + i)) = true) ->
  ((0 < j)%nat ->
   schedule_fits max_retries base_delay /\
   (forall k, 0 <= random_random env k /\ random_random env k < 1)%Q) ->
  let req := payment_request amount currency description idempotency_key in
  (stripe_pi env (n_requests w) req = Raise e ->
   exists d,
     create_payment_safely amount currency description idempotency_key customer_email env w
       = (Ret d, after_request req w) /\
     d !! "success" = Some (VBool false) /\
     d !! "message" = Some (VStr (exc_str e)) /\
     d !! "error_type" =
       Some (VStr (if decide (exc_class e = IdempotencyError)
                   then "idempotency_collision" else class_name (exc_class e))) /\
     class_name (exc_class e) <> "idempotency_collision") /\
  (func_script env (n_calls w + j) = Raise e ->
   exists audit_log d w',
     retry_with_backoff (call_func kwargs) max_retries base_delay env w
       = (Ret (RPair None audit_log), w') /\
     trace w' = trace w ++ retried_events env kwargs base_delay j 1 (n_random w)
                        ++ [EvCall kwargs] /\
     invocations (retried_events env kwargs base_delay j 1 (n_random w) ++ [EvCall kwargs])
       = S j /\
     length (sleeps (retried_events env kwargs base_delay j 1 (n_random w) ++ [EvCall kwargs]))
       = j /\
     last audit_log = Some d /\
     d !! "attempt" = Some (VInt (1 + Z.of_nat j)) /\
     d !! "status" = Some (VStr "stripe_error") /\
     d !! "error" = Some (VStr (exc_str e))).
Proof.
  intros Hperm Hj Hpre Hsched req. split.
  - intros Hans. destruct (decide (exc_class e = IdempotencyError)) as [Hc|Hc].
    + eexists. split; [apply create_payment_safely_collision; [exact Hans|exact Hc]|].
      repeat split; try reflexivity. apply class_name_not_collision.
    + eexists. split; [apply create_payment_safely_rejected; [exact Hans|exact Hc]|].
      repeat split; try reflexivity. apply class_name_not_collision.
  - intros Hans. destruct w as [tr c q t r]. cbn [n_calls n_random trace] in *.
    assert (Hretried : forall i, (i < j)%nat -> retried_at env base_delay c r i = true).
    { intros i Hi. destruct Hsched as [Hfit Hrand]; [lia|].
      apply (schedule_fits_retried env max_retries); auto; lia. }
    eexists _, _, _.
    split; [apply (retry_run_permanent _ _ _ _ _ _ _ _ _ j e Hj Hretried Hans Hperm)|].
    cbn [trace]. split; [reflexivity|].
    split; [rewrite invocations_app, invocations_retried; unfold invocations; simpl; lia|].
    split; [rewrite sleeps_app, List.length_app, sleeps_retried_length; simpl; lia|].
    split; [apply last_snoc|]. repeat split; reflexivity.
Qed.

Lemma C5_permanent_errors_are_not_retried_witness :
  (exists d,
     create_payment_safely 20000 "eur" "Collision test" "k1" None env_collision world0
       = (Ret d, after_request (payment_request 20000 "eur" "Collision test" "k1") world0) /\
     d !! "error_type" = Some (VStr "idempotency_collision")) /\
  (exists audit_log w',
     retry_with_backoff (call_func []) 3 (-1) env_declined world0
       = (Ret (RPair None audit_log), w') /\
     trace w' = [EvCall []]).
Proof.
  pose proof (C5_permanent_errors_are_not_retried env_collision world0 [] 3 1
                20000 "eur" "Collision test" "k1" None
                (mkExc IdempotencyError "Keys for idempotent requests can only be used with the same parameters.")
                0 eq_refl eq_refl) as Hc.
  pose proof (C5_permanent_errors_are_not_retried env_declined world0 [] 3 (-1)
                20000 "eur" "Collision test" "k1" None
                (mkExc CardError "Your card was declined.")
                0 eq_refl eq_refl) as Hd.
  split.
  - destruct Hc as [(d & Hrun & _ & _ & Hty & _) _];
      [intros i Hi; lia|intros H; lia|reflexivity|].
    exists d. split; [exact Hrun|exact Hty].
  - destruct Hd as [_ (audit_log & d & w' & Hrun & Htr & _ & _ & _)];
      [intros i Hi; lia|intros H; lia|reflexivity|].
    exists audit_log, w'. split; [exact Hrun|exact Htr].
Defined.


(** ** Printing *)

Lemma with_lines_nil (w : World) : with_lines [] w = w.
Proof. destruct w. unfold with_lines. simpl. rewrite app_nil_r. reflexivity. Qed.

Lemma with_lines_app (l1 l2 : list Line) (w : World) :
  with_lines l2 (with_lines l1 w) = with_lines (l1 ++ l2) w.
Proof. unfold with_lines. simpl. rewrite map_app, app_assoc. reflexivity. Qed.

Lemma only_prints_ret {A} (a : A) : only_prints (ret a) a.
Proof. intros env w. exists []. rewrite with_lines_nil. reflexivity. Qed.

Lemma only_prints_print (t : string) (vs : list PyVal) : only_prints (print t vs) tt.
Proof. intros env w. exists [mkLine t vs]. reflexivity. Qed.

Lemma only_prints_bind {A B} (m : Py A) (k : A -> Py B) (a : A) (b : B) :
  only_prints m a -> only_prints (k a) b -> only_prints (bind m k) b.
Proof.
  intros Hm Hk env w. destruct (Hm env w) as [l1 H1].
  destruct (Hk env (with_lines l1 w)) as [l2 H2].
  exists (l1 ++ l2). unfold bind. rewrite H1, H2, with_lines_app. reflexivity.
Qed.

Lemma only_prints_for_each {A} (l : list A) (body : A -> Py unit) :
  (forall x, only_prints (body x) tt) -> only_prints (for_each l body) tt.
Proof.
  intros Hbody. induction l as [|x l IH]; cbn [for_each].
  - apply only_prints_ret.
  - eapply only_prints_bind; [apply Hbody | exact IH].
Qed.

(** What is left of a computation once the lines it starts with are
    printed. *)
Lemma bind_only_prints {A B} (m : Py A) (k : A -> Py B) (a : A) :
  only_prints m a ->
  forall env w, exists lines, bind m k env w = k a env (with_lines lines w).
Proof.
  intros Hm env w. destruct (Hm env w) as [l H]. exists l.
  unfold bind. rewrite H. reflexivity.
Qed.

Ltac prints :=
  repeat first
    [ apply only_prints_ret
    | apply only_prints_print
    | apply only_prints_for_each; intros
    | eapply only_prints_bind; [apply only_prints_print|]
    | match goal with |- only_prints (let '(_, _) := ?p in _) _ => destruct p end
    | match goal with |- only_prints (match ?l with [] => _ | _ :: _ => _ end) _ =>
        destruct l end
    | eapply only_prints_bind ].

Lemma stripe_requests_with_lines (lines : list Line) (w : World) :
  stripe_requests (trace (with_lines lines w)) = stripe_requests (trace w).
Proof.
  unfold with_lines. cbn [trace]. unfold stripe_requests. rewrite flat_map_app.
  induction lines as [|l lines IH]; simpl in *; [apply app_nil_r|exact IH].
Qed.

Lemma sleeps_with_lines (lines : list Line) (w : World) :
  sleeps (trace (with_lines lines w)) = sleeps (trace w).
Proof.
  unfold with_lines. cbn [trace]. unfold sleeps. rewrite flat_map_app.
  induction lines as [|l lines IH]; simpl in *; [apply app_nil_r|exact IH].
Qed.

Lemma actions_with_lines (lines : list Line) (w : World) :
  actions (trace (with_lines lines w)) = actions (trace w).
Proof.
  unfold with_lines. cbn [trace]. unfold actions. rewrite List.filter_app.
  induction lines as [|l lines IH]; simpl in *; [apply app_nil_r|exact IH].
Qed.

(** ** The dry run *)

Lemma dry_run_only_prints (eligible : list Eligible) :
  only_prints (dry_run eligible) (py_sum (map e_refundable eligible)).
Proof. unfold dry_run. prints. Qed.

Lemma call_times_only_prints {A} (n : nat) (m : Py A) (a : A) :
  only_prints m a -> only_prints (call_times n m) (repeat a n).
Proof.
  intros Hm. induction n as [|n IH]; cbn [call_times repeat].
  - apply only_prints_ret.
  - eapply only_prints_bind; [exact Hm|].
    eapply only_prints_bind; [exact IH|]. apply only_prints_ret.
Qed.

(** C8: the preview only reads the plan. Called [n] times in a row on a
    plan, from any world and under any script, it returns each time the sum
    of the refundable amounts of the plan's targets, and leaves the world as
    it was but for the lines of the preview it printed: no request is sent to
    Stripe, nothing is slept, no clock or random generator is read. The plan
    is a value the preview has no statement to assign to. *)
Theorem C8_dry_run_is_a_pure_read (eligible : list Eligible) (n : nat)
    (env : Env) (w : World) :
  exists lines w',
    call_times n (dry_run eligible) env w
      = (Ret (repeat (py_sum (map e_refundable eligible)) n), w') /\
    w' = mkWorld (trace w ++ map EvPrint lines) (n_calls w) (n_requests w)
                 (n_clock w) (n_random w) /\
    actions (trace w') = actions (trace w) /\
    stripe_requests (trace w') = stripe_requests (trace w) /\
    sleeps (trace w') = sleeps (trace w).
Proof.
  destruct (call_times_only_prints n _ _ (dry_run_only_prints eligible) env w)
    as [lines H].
  exists lines, (with_lines lines w). split; [exact H|]. split; [reflexivity|].
  split; [apply actions_with_lines|].
  split; [apply stripe_requests_with_lines | apply sleeps_with_lines].
Qed.

Example dry_run_plan_three (env : Env) (w : World) :
  fst (dry_run plan_three env w) = Ret 99700.
Proof. reflexivity. Qed.

(** ** Discovery of the eligible payments *)

Lemma lefts_app {A B} (l1 l2 : list (A + B)) : lefts (l1 ++ l2) = lefts l1 ++ lefts l2.
Proof.
  induction l1 as [|[a|b] l1 IH]; simpl; [reflexivity| |exact IH].
  rewrite IH. reflexivity.
Qed.

Lemma rights_app {A B} (l1 l2 : list (A + B)) : rights (l1 ++ l2) = rights l1 ++ rights l2.
Proof.
  induction l1 as [|[a|b] l1 IH]; simpl; [reflexivity|exact IH|].
  rewrite IH. reflexivity.
Qed.

Lemma lefts_rights_length {A B} (l : list (A + B)) :
  (length (lefts l) + length (rights l) = length l)%nat.
Proof. induction l as [|[a|b] l IH]; simpl; lia. Qed.

Lemma in_lefts {A B} (a : A) (l : list (A + B)) : In a (lefts l) <-> In (inl a) l.
Proof.
  induction l as [|[a'|b] l IH]; simpl; [tauto| |].
  - rewrite IH. split; intros [H|H]; auto; left; congruence.
  - rewrite IH. split; [auto|]. intros [H|H]; [discriminate H|exact H].
Qed.

Lemma in_rights {A B} (b : B) (l : list (A + B)) : In b (rights l) <-> In (inr b) l.
Proof.
  induction l as [|[a|b'] l IH]; simpl; [tauto| |].
  - rewrite IH. split; [auto|]. intros [H|H]; [discriminate H|exact H].
  - rewrite IH. split; intros [H|H]; auto; left; congruence.
Qed.

(** The loop sends one request per id, in order, and routes each answer. *)
Lemma discover_loop_routes (env : Env) (ids : list string) :
  forall (pis : list PaymentIntent) eligible skipped tr c q t r,
    retrieved env q ids = map Ret pis ->
    discover_loop ids eligible skipped env (mkWorld tr c q t r) =
    (Ret (eligible ++ lefts (map route pis), skipped ++ rights (map route pis)),
     mkWorld (tr ++ map (fun id => EvStripe (PaymentIntent_retrieve id ["latest_charge"])) ids)
             c (q + length ids) t r).
Proof.
  induction ids as [|id ids IH]; intros pis eligible skipped tr c q t r Hans.
  - destruct pis; [|discriminate Hans]. simpl.
    rewrite !app_nil_r, Nat.add_0_r. reflexivity.
  - destruct pis as [|pi pis]; [discriminate Hans|].
    cbn [retrieved map] in Hans. injection Hans as Hpi Hrest.
    cbn [discover_loop]. unfold bind at 1, stripe_request at 1. cbn [n_requests trace n_calls n_clock n_random].
    rewrite Hpi. cbn [map lefts rights length].
    unfold route. fold (refunded_of pi).
    destruct (negb (String.eqb (pi_status pi) "succeeded")).
    + rewrite (IH pis _ _ _ _ _ _ _ Hrest). cbn [lefts rights].
      rewrite <- !app_assoc. cbn [app].
      replace (S q + length ids)%nat with (q + S (length ids))%nat by lia. reflexivity.
    + destruct (pi_amount pi - refunded_of pi <=? 0).
      * rewrite (IH pis _ _ _ _ _ _ _ Hrest). cbn [lefts rights].
        rewrite <- !app_assoc. cbn [app].
        replace (S q + length ids)%nat with (q + S (length ids))%nat by lia. reflexivity.
      * rewrite (IH pis _ _ _ _ _ _ _ Hrest). cbn [lefts rights].
        rewrite <- !app_assoc. cbn [app].
        replace (S q + length ids)%nat with (q + S (length ids))%nat by lia. reflexivity.
Qed.

Lemma bind_print {B} (t : string) (vs : list PyVal) (k : unit -> Py B)
    (env : Env) (w : World) :
  bind (print t vs) k env w = k tt env (with_lines [mkLine t vs] w).
Proof. reflexivity. Qed.

Lemma stripe_requests_retrievals (ids : list string) :
  stripe_requests
    (map (fun id => EvStripe (PaymentIntent_retrieve id ["latest_charge"])) ids)
  = map (fun id => PaymentIntent_retrieve id ["latest_charge"]) ids.
Proof. induction ids as [|id ids IH]; simpl; [reflexivity|]. rewrite <- IH. reflexivity. Qed.

Lemma sleeps_retrievals (ids : list string) :
  sleeps (map (fun id => EvStripe (PaymentIntent_retrieve id ["latest_charge"])) ids) = [].
Proof. induction ids as [|id ids IH]; simpl; [reflexivity|exact IH]. Qed.

(** The whole function: when Stripe answers every retrieval, it returns
    the routed candidates, having sent one retrieval per id and nothing
    else. *)
Lemma discover_eligible_payments_routes (env : Env) (w : World)
    (ids : list string) (pis : list PaymentIntent) :
  retrieved env (n_requests w) ids = map Ret pis ->
  exists w',
    discover_eligible_payments (Some ids) env w
      = (Ret (lefts (map route pis), rights (map route pis)), w') /\
    stripe_requests (trace w') =
      stripe_requests (trace w)
      ++ map (fun id => PaymentIntent_retrieve id ["latest_charge"]) ids /\
    sleeps (trace w') = sleeps (trace w).
Proof.
  intros Hans. unfold discover_eligible_payments.
  do 6 (rewrite bind_print; cbv beta). rewrite !with_lines_app.
  set (lines := (_ ++ _)%list).
  replace (match Some ids with
           | Some (id :: rest) => discover_loop (id :: rest) [] []
           | _ => ret ([], [])
           end) with (discover_loop ids [] []) by (destruct ids; reflexivity).
  unfold bind at 1. unfold with_lines at 1.
  rewrite (discover_loop_routes env ids pis [] [] _ _ _ _ _ Hans). cbn [app].
  match goal with
  | |- ex (fun w' => ?m env ?w1 = _ /\ @?Q w') =>
      assert (Hp : only_prints m (lefts (map route pis), rights (map route pis)))
        by prints;
      destruct (Hp env w1) as [lines2 Hrun]
  end.
  eexists. split; [exact Hrun|].
  rewrite stripe_requests_with_lines, sleeps_with_lines. cbn [trace].
  rewrite !stripe_requests_app, !sleeps_app, stripe_requests_retrievals, sleeps_retrievals.
  pose proof (stripe_requests_with_lines lines w) as H1.
  pose proof (sleeps_with_lines lines w) as H2.
  unfold with_lines in H1, H2. cbn [trace] in H1, H2.
  rewrite stripe_requests_app in H1. rewrite sleeps_app in H2.
  rewrite H1, H2, app_nil_r. split; reflexivity.
Qed.

Lemma route_eligible (pi : PaymentIntent) (t : Eligible) :
  route pi = inl t ->
  e_refundable t = e_amount t - e_already_refunded t /\
  0 < e_refundable t /\
  e_pi_id t = pi_id pi /\
  e_amount t = pi_amount pi /\
  e_already_refunded t = refunded_of pi /\
  pi_status pi = "succeeded".
Proof.
  unfold route. destruct (String.eqb (pi_status pi) "succeeded") eqn:Hs; simpl;
    [|discriminate].
  destruct (pi_amount pi - refunded_of pi <=? 0) eqn:Hr; [discriminate|].
  intros E. injection E as <-. simpl. apply Z.leb_gt in Hr.
  apply String.eqb_eq in Hs. repeat split; auto; lia.
Qed.

Lemma route_fully_refunded (pi : PaymentIntent) :
  pi_amount pi - refunded_of pi <= 0 ->
  route pi =
  inr (mkSkipped (pi_id pi)
         (if String.eqb (pi_status pi) "succeeded"
          then "Already fully refunded" else status_reason (pi_status pi))).
Proof.
  intros H. unfold route. destruct (String.eqb (pi_status pi) "succeeded"); simpl;
    [|reflexivity].
  apply Z.leb_le in H. rewrite H. reflexivity.
Qed.

(** C7, as the code has it. When Stripe answers the retrievals of the
    candidates with the payment intents [pis], the discovery returns a plan
    and a skip list that together hold one entry per candidate. Every target
    of the plan comes from a candidate with status [succeeded], and its
    refundable amount is its amount less what was already refunded, and is
    positive. Every candidate that is already refunded in full is on the skip
    list and not in the plan; its reason is ["Already fully refunded"] when
    its status is [succeeded], and names the status otherwise, the status
    being looked at first. *)
Theorem C7_plan_holds_refundable_targets_only (env : Env) (w : World)
    (ids : list string) (pis : list PaymentIntent) :
  retrieved env (n_requests w) ids = map Ret pis ->
  exists eligible skipped w',
    discover_eligible_payments (Some ids) env w = (Ret (eligible, skipped), w') /\
    Forall (fun t => e_refundable t = e_amount t - e_already_refunded t /\
                     0 < e_refundable t) eligible /\
    (forall t, In t eligible ->
       exists pi, In pi pis /\ e_pi_id t = pi_id pi /\ e_amount t = pi_amount pi /\
                  e_already_refunded t = refunded_of pi /\
                  pi_status pi = "succeeded" /\ 0 < pi_amount pi - refunded_of pi) /\
    (forall pi, In pi pis -> pi_amount pi - refunded_of pi <= 0 ->
       In (mkSkipped (pi_id pi)
             (if String.eqb (pi_status pi) "succeeded"
              then "Already fully refunded" else status_reason (pi_status pi)))
          skipped) /\
    (length eligible + length skipped = length pis)%nat.
Proof.
  intros Hans.
  destruct (discover_eligible_payments_routes env w ids pis Hans) as (w' & Hrun & _).
  exists (lefts (map route pis)), (rights (map route pis)), w'.
  split; [exact Hrun|].
  assert (Horigin : forall t, In t (lefts (map route pis)) ->
            exists pi, In pi pis /\ route pi = inl t).
  { intros t Ht. apply in_lefts, in_map_iff in Ht as (pi & Hr & Hin). eauto. }
  split; [|split; [|split]].
  - apply List.Forall_forall. intros t Ht.
    destruct (Horigin t Ht) as (pi & _ & Hr). apply route_eligible in Hr. tauto.
  - intros t Ht. destruct (Horigin t Ht) as (pi & Hin & Hr).
    apply route_eligible in Hr as (H1 & H2 & H3 & H4 & H5 & H6).
    exists pi. repeat split; auto. lia.
  - intros pi Hin Hfull. apply in_rights, in_map_iff. exists pi.
    split; [apply route_fully_refunded; exact Hfull | exact Hin].
  - rewrite lefts_rights_length, length_map. reflexivity.
Qed.

Lemma C7_plan_holds_refundable_targets_only_witness :
  exists eligible skipped w',
    discover_eligible_payments (Some ["pi_2"; "pi_4"]) env_recall world0
      = (Ret (eligible, skipped), w') /\
    Forall (fun t => e_refundable t = e_amount t - e_already_refunded t /\
                     0 < e_refundable t) eligible /\
    In (mkSkipped "pi_4" "Already fully refunded") skipped /\
    (length eligible + length skipped = 2)%nat.
Proof.
  destruct (C7_plan_holds_refundable_targets_only env_recall world0 ["pi_2"; "pi_4"]
              [pi_partial; pi_refunded] eq_refl)
    as (eligible & skipped & w' & Hrun & Hinv & _ & Hskip & Hlen).
  exists eligible, skipped, w'. split; [exact Hrun|]. split; [exact Hinv|].
  split; [|exact Hlen].
  apply (Hskip pi_refunded); [right; left; reflexivity | discriminate].
Defined.

(** C7 as stated fails for the reason given: a candidate that is refunded
    in full and whose status is not [succeeded] is skipped for its status,
    not as already refunded. *)
Lemma C7_canceled_target_skipped_for_its_status :
  exists w',
    discover_eligible_payments (Some ["pi_9"]) env_recall world0
      = (Ret ([], [mkSkipped "pi_9" "Status is 'canceled', not 'succeeded'"]), w') /\
    retrieved env_recall 0 ["pi_9"] = [Ret pi_canceled] /\
    pi_amount pi_canceled - refunded_of pi_canceled = 0 /\
    "Status is 'canceled', not 'succeeded'" <> "Already fully refunded".
Proof.
  eexists. split; [vm_compute; reflexivity|].
  split; [reflexivity|]. split; [reflexivity|]. discriminate.
Qed.

(** ** Execution of the refunds *)

Lemma enumerate_cons {A} (x : A) (l : list A) (i : Z) :
  enumerate (x :: l) i = (i, x) :: enumerate l (i + 1).
Proof.
  unfold enumerate. cbn [length]. rewrite py_range_cons by lia. cbn [combine].
  do 2 f_equal. f_equal. lia.
Qed.

Lemma enumerate_nil {A} (i : Z) : enumerate (@nil A) i = [].
Proof. unfold enumerate. cbn [length]. rewrite py_range_nil by lia. reflexivity. Qed.

Lemma succeeded_of_cons (s : Submission) (l : list Submission) :
  succeeded_of (s :: l) = succeeded_of [s] ++ succeeded_of l.
Proof. unfold succeeded_of. cbn [flat_map]. rewrite app_nil_r. reflexivity. Qed.

Lemma failed_of_cons (s : Submission) (l : list Submission) :
  failed_of (s :: l) = failed_of [s] ++ failed_of l.
Proof. unfold failed_of. cbn [flat_map]. rewrite app_nil_r. reflexivity. Qed.

Lemma failed_targets_cons (s : Submission) (l : list Submission) :
  failed_targets (s :: l) = failed_targets [s] ++ failed_targets l.
Proof. unfold failed_targets. cbn [flat_map]. rewrite app_nil_r. reflexivity. Qed.

Lemma submission_actions_cons (s : Submission) (l : list Submission) :
  submission_actions (s :: l) = submission_actions [s] ++ submission_actions l.
Proof. unfold submission_actions. cbn [flat_map]. rewrite app_nil_r. reflexivity. Qed.

Section RefundOne.

Variables (env : Env) (n : nat).

(** One item: whatever Stripe answers, the item is recorded in one of the
    two lists, one request has been sent, and the only sleep is the
    pause. *)
Lemma refund_one_records i payment results tr c q t r :
  let s := mkSubmission i payment (refund_request payment (clock env t))
             (stripe_refund env q (refund_request payment (clock env t)))
             (clock env (S t)) in
  exists evs,
    refund_one n i payment results env (mkWorld tr c q t r) =
    (Ret (mkResults (succeeded results ++ succeeded_of [s])
                    (failed results ++ failed_of [s])),
     mkWorld (tr ++ evs) c (S q) (S (S t)) r) /\
    actions evs = submission_actions [s].
Proof.
  intros s. unfold refund_one, try_except, bind, time_time, stripe_request.
  cbn [n_clock n_requests trace n_calls n_random].
  unfold succeeded_of, failed_of, submission_actions, pause_after.
  cbn [flat_map app sub_answer sub_target sub_recorded sub_index sub_request s].
  destruct (stripe_refund env q (refund_request payment (clock env t)))
    as [refund|e] eqn:Hans.
  - unfold print, emit, ret. cbn [trace n_calls n_requests n_clock n_random].
    destruct (i mod 20 =? 0).
    + unfold bind, print, time_sleep, emit.
      cbn [trace n_calls n_requests n_clock n_random].
      rewrite <- ?app_assoc, ?app_nil_r. eexists. split; reflexivity.
    + rewrite <- ?app_assoc, ?app_nil_r. eexists. split; reflexivity.
  - cbn [find_handler]. destruct (issubclass (exc_class e) InvalidRequestError).
    + unfold bind, print, emit, time_time, ret.
      cbn [trace n_calls n_requests n_clock n_random].
      rewrite <- ?app_assoc, ?app_nil_r. eexists. split; reflexivity.
    + rewrite issubclass_StripeError.
      unfold bind, print, emit, time_time, ret.
      cbn [trace n_calls n_requests n_clock n_random].
      rewrite <- ?app_assoc, ?app_nil_r. eexists. split; reflexivity.
Qed.

Lemma refund_loop_records (ps : list Eligible) :
  forall i results tr c q t r,
  exists evs,
    refund_loop n (enumerate ps i) results env (mkWorld tr c q t r) =
    (Ret (mkResults (succeeded results ++ succeeded_of (submissions env i q t ps))
                    (failed results ++ failed_of (submissions env i q t ps))),
     mkWorld (tr ++ evs) c (q + length ps) (t + 2 * length ps) r) /\
    actions evs = submission_actions (submissions env i q t ps).
Proof.
  induction ps as [|p ps IH]; intros i results tr c q t r.
  - exists []. rewrite enumerate_nil. cbn [refund_loop submissions length].
    unfold succeeded_of, failed_of. cbn [flat_map].
    rewrite !app_nil_r, Nat.mul_0_r, !Nat.add_0_r. destruct results. split; reflexivity.
  - rewrite enumerate_cons. cbn [refund_loop]. unfold bind at 1.
    destruct (refund_one_records i p results tr c q t r) as (evs1 & Hone & Hact1).
    rewrite Hone.
    destruct (IH (i + 1)
                 (mkResults
                    (succeeded results ++
                     succeeded_of [mkSubmission i p (refund_request p (clock env t))
                                     (stripe_refund env q (refund_request p (clock env t)))
                                     (clock env (S t))])
                    (failed results ++
                     failed_of [mkSubmission i p (refund_request p (clock env t))
                                  (stripe_refund env q (refund_request p (clock env t)))
                                  (clock env (S t))]))
                 (tr ++ evs1) c (S q) (S (S t)) r) as (evs2 & Hloop & Hact2).
    rewrite Hloop. exists (evs1 ++ evs2). split.
    + cbn [succeeded failed submissions length].
      rewrite (succeeded_of_cons _ (submissions env (i + 1) (S q) (S (S t)) ps)).
      rewrite (failed_of_cons _ (submissions env (i + 1) (S q) (S (S t)) ps)).
      rewrite <- !app_assoc.
      replace (S q + length ps)%nat with (q + S (length ps))%nat by lia.
      replace (S (S t) + 2 * length ps)%nat with (t + 2 * S (length ps))%nat by lia.
      reflexivity.
    + rewrite actions_app, Hact1, Hact2. cbn [submissions].
      rewrite (submission_actions_cons _ (submissions env (i + 1) (S q) (S (S t)) ps)).
      reflexivity.
Qed.

End RefundOne.

Lemma stripe_requests_actions (l : list Event) :
  stripe_requests (actions l) = stripe_requests l.
Proof.
  induction l as [|[kw|req|d|line] l IH]; simpl; try rewrite IH; reflexivity.
Qed.

Lemma sleeps_actions (l : list Event) : sleeps (actions l) = sleeps l.
Proof.
  induction l as [|[kw|req|d|line] l IH]; simpl; try rewrite IH; reflexivity.
Qed.

Lemma stripe_requests_submissions (subs : list Submission) :
  stripe_requests (submission_actions subs) = map sub_request subs.
Proof.
  induction subs as [|s subs IH]; [reflexivity|].
  rewrite submission_actions_cons, stripe_requests_app, IH.
  unfold submission_actions. cbn [flat_map map]. rewrite app_nil_r.
  cbn [stripe_requests flat_map app]. f_equal.
  induction (pause_after s) as [|d ds IHd]; [reflexivity|exact IHd].
Qed.

Lemma sleeps_submissions (subs : list Submission) :
  sleeps (submission_actions subs) = flat_map pause_after subs.
Proof.
  induction subs as [|s subs IH]; [reflexivity|].
  rewrite submission_actions_cons, sleeps_app, IH.
  unfold submission_actions. cbn [flat_map]. rewrite app_nil_r.
  cbn [sleeps flat_map app]. f_equal.
  induction (pause_after s) as [|d ds IHd]; [reflexivity|].
  cbn [map flat_map app]. rewrite IHd. reflexivity.
Qed.

Section Submissions.

Variable env : Env.

Lemma submissions_targets ps : forall i q t,
  map sub_target (submissions env i q t ps) = ps.
Proof.
  induction ps as [|p ps IH]; intros i q t; [reflexivity|].
  cbn [submissions map sub_target]. rewrite IH. reflexivity.
Qed.

Lemma submissions_indices ps : forall i q t,
  map sub_index (submissions env i q t ps) = py_range i (i + Z.of_nat (length ps)).
Proof.
  induction ps as [|p ps IH]; intros i q t.
  - cbn [length]. rewrite py_range_nil by lia. reflexivity.
  - cbn [submissions map sub_index length]. rewrite IH, (py_range_cons i) by lia.
    do 2 f_equal. lia.
Qed.

Lemma submissions_requests ps : forall i q t s,
  In s (submissions env i q t ps) ->
  exists k, sub_request s = refund_request (sub_target s) (clock env k) /\
            sub_recorded s = clock env (S k) /\
            exists j, sub_answer s = stripe_refund env j (sub_request s).
Proof.
  induction ps as [|p ps IH]; intros i q t s Hin; [destruct Hin|].
  destruct Hin as [<-|Hin]; [|exact (IH _ _ _ _ Hin)].
  exists t. cbn. eauto.
Qed.

Lemma succeeded_failed_length (subs : list Submission) :
  (length (succeeded_of subs) + length (failed_of subs) = length subs)%nat.
Proof.
  induction subs as [|s subs IH]; [reflexivity|].
  rewrite succeeded_of_cons, failed_of_cons, !List.length_app. cbn [length].
  unfold succeeded_of, failed_of. cbn [flat_map].
  destruct (sub_answer s); cbn [app length]; unfold succeeded_of, failed_of in IH; lia.
Qed.

(** The whole function: it cannot fail, and what it does besides
    printing is to submit the targets in order. *)
Lemma execute_bulk_refunds_records (eligible : list Eligible) (w : World) :
  let subs := submissions env 1 (n_requests w) (n_clock w) eligible in
  exists w',
    execute_bulk_refunds eligible env w
      = (Ret (mkResults (succeeded_of subs) (failed_of subs)), w') /\
    actions (trace w') = actions (trace w) ++ submission_actions subs /\
    n_requests w' = (n_requests w + length eligible)%nat /\
    n_clock w' = (n_clock w + 2 * length eligible)%nat.
Proof.
  intros subs. unfold execute_bulk_refunds.
  do 5 (rewrite bind_print; cbv beta). rewrite !with_lines_app.
  set (lines := (_ ++ _)%list). unfold with_lines.
  destruct (refund_loop_records env (length eligible) eligible 1 (mkResults [] [])
              (trace w ++ map EvPrint lines) (n_calls w) (n_requests w)
              (n_clock w) (n_random w)) as (evs & Hrun & Hact).
  rewrite Hrun. eexists. split; [reflexivity|]. cbn [trace n_requests n_clock].
  split; [|split; reflexivity].
  rewrite !actions_app, Hact.
  pose proof (actions_with_lines lines w) as Hl. unfold with_lines in Hl.
  cbn [trace] in Hl. rewrite actions_app in Hl. rewrite Hl. reflexivity.
Qed.

End Submissions.

(** X1: bulk execution, in general. It cannot fail; it sends one refund request
    per target of the plan, in the order of the plan, each for the target's
    refundable amount; each target ends in exactly one of the two result
    lists, by what Stripe answered to its request; and the only sleeps are
    the pauses of one second that follow the items numbered 20, 40, ... when
    their refund went through. The requests and the pauses come in this
    order: what the run does besides printing is each request followed at
    once by its pause, if it has one, before the next request is sent. *)
Theorem execute_submits_each_target_once (env : Env) (eligible : list Eligible)
    (w : World) :
  let subs := submissions env 1 (n_requests w) (n_clock w) eligible in
  exists results w',
    execute_bulk_refunds eligible env w = (Ret results, w') /\
    map sub_target subs = eligible /\
    map sub_index subs = py_range 1 (1 + Z.of_nat (length eligible)) /\
    stripe_requests (trace w') = stripe_requests (trace w) ++ map sub_request subs /\
    Forall (fun s => exists k,
              sub_request s =
                Refund_create (e_pi_id (sub_target s)) (e_refundable (sub_target s))
                  "fraudulent" (refund_metadata (sub_target s) (clock env k))) subs /\
    succeeded results = succeeded_of subs /\
    failed results = failed_of subs /\
    Forall (fun s => (length (succeeded_of [s]) + length (failed_of [s]) = 1)%nat) subs /\
    (length (succeeded results) + length (failed results) = length eligible)%nat /\
    sleeps (trace w') = sleeps (trace w) ++ flat_map pause_after subs /\
    actions (trace w') =
      actions (trace w)
      ++ flat_map (fun s => EvStripe (sub_request s) :: map EvSleep (pause_after s)) subs.
Proof.
  intros subs.
  destruct (execute_bulk_refunds_records env eligible w) as (w' & Hrun & Hact & _).
  fold subs in Hrun, Hact.
  eexists _, w'. split; [exact Hrun|].
  split; [apply submissions_targets|].
  split; [apply submissions_indices|].
  split; [rewrite <- (stripe_requests_actions (trace w')), Hact, stripe_requests_app,
            stripe_requests_actions, stripe_requests_submissions; reflexivity|].
  split.
  { apply List.Forall_forall. intros s Hs.
    destruct (submissions_requests env _ _ _ _ _ Hs) as (k & Hk & _).
    exists k. exact Hk. }
  split; [reflexivity|]. split; [reflexivity|].
  split.
  { apply List.Forall_forall. intros s _. apply (succeeded_failed_length [s]). }
  split.
  { cbn [succeeded failed]. rewrite succeeded_failed_length. unfold subs.
    rewrite <- (submissions_targets env eligible 1 (n_requests w) (n_clock w)) at 2.
    rewrite length_map. reflexivity. }
  split; [|exact Hact].
  rewrite <- (sleeps_actions (trace w')), Hact, sleeps_app, sleeps_actions,
    sleeps_submissions. reflexivity.
Qed.

(** C9 at twenty targets whose twentieth refund Stripe rejects: the twenty
    requests are sent and no pause is made, while the same plan with every
    refund accepted pauses one second after the twentieth. *)
Theorem C9_no_pause_after_rejected_twentieth :
  exists results w',
    execute_bulk_refunds plan_twenty (env_rejecting 19) world0 = (Ret results, w') /\
    length (stripe_requests (trace w')) = 20%nat /\
    length (succeeded results) = 19%nat /\
    length (failed results) = 1%nat /\
    sleeps (trace w') = [] /\
    sleeps (trace (snd (execute_bulk_refunds plan_twenty (env_rejecting 20) world0)))
      = [1%Q].
Proof.
  eexists _, _. split; [vm_compute; reflexivity|].
  repeat split; vm_compute; reflexivity.
Qed.

(** ** Reconciliation *)

Lemma py_sum_acc (xs : list Z) (a : Z) : fold_left Z.add xs a = a + py_sum xs.
Proof.
  unfold py_sum. revert a. induction xs as [|x xs IH]; intros a; cbn [fold_left].
  - lia.
  - rewrite (IH (a + x)), (IH (0 + x)). lia.
Qed.

Lemma py_sum_cons (x : Z) (xs : list Z) : py_sum (x :: xs) = x + py_sum xs.
Proof. unfold py_sum at 1. cbn [fold_left]. rewrite py_sum_acc. lia. Qed.

Lemma py_sum_app (xs ys : list Z) : py_sum (xs ++ ys) = py_sum xs + py_sum ys.
Proof.
  induction xs as [|x xs IH]; [reflexivity|].
  cbn [app]. rewrite !py_sum_cons, IH. lia.
Qed.

Lemma refundable_of_one (s : Submission) :
  e_refundable (sub_target s) =
  py_sum (map s_amount (succeeded_of [s]))
  + py_sum (map e_refundable (failed_targets [s])).
Proof.
  unfold succeeded_of, failed_targets. cbn [flat_map].
  destruct (sub_answer s); cbn [app map s_amount]; rewrite py_sum_cons;
    change (py_sum []) with 0; lia.
Qed.

(** What was planned is what went through plus what was rejected. *)
Lemma refundable_is_conserved (env : Env) (ps : list Eligible) :
  forall i q t,
    py_sum (map e_refundable ps) =
    py_sum (map s_amount (succeeded_of (submissions env i q t ps)))
    + py_sum (map e_refundable (failed_targets (submissions env i q t ps))).
Proof.
  induction ps as [|p ps IH]; intros i q t; [reflexivity|].
  cbn [submissions map]. rewrite succeeded_of_cons, failed_targets_cons.
  rewrite !map_app, !py_sum_app, py_sum_cons, (IH (i + 1) (S q) (S (S t))).
  match goal with
  | |- context [succeeded_of [?s]] => pose proof (refundable_of_one s) as Hone
  end.
  cbn [sub_target] in Hone. lia.
Qed.

Lemma verification_match (results : Results) (total_preview : Z) :
  verification results total_preview = "ok MATCH"
  <-> total_refunded results = total_preview.
Proof.
  unfold verification. destruct (total_refunded results =? total_preview) eqn:E.
  - apply Z.eqb_eq in E. tauto.
  - apply Z.eqb_neq in E. split; [discriminate|contradiction].
Qed.

Lemma bind_time_time {B} (k : Q -> Py B) (env : Env) (w : World) :
  bind time_time k env w = k (clock env (n_clock w)) env (tick w).
Proof. reflexivity. Qed.

Lemma printed_with_lines (lines : list Line) (w : World) :
  printed (trace (with_lines lines w)) = printed (trace w) ++ lines.
Proof.
  unfold with_lines. cbn [trace]. rewrite printed_app. f_equal.
  induction lines as [|l lines IH]; [reflexivity|]. cbn. f_equal. exact IH.
Qed.

(** The report cannot fail, sends nothing, sleeps nothing, and prints the
    verification line. *)
Lemma generate_compliance_report_prints (results : Results)
    (eligible : list Eligible) (skipped : list Skipped) (total_preview : Z)
    (env : Env) (w : World) :
  exists w',
    generate_compliance_report results eligible skipped total_preview env w
      = (Ret tt, w') /\
    In (verification_line results total_preview) (printed (trace w')) /\
    actions (trace w') = actions (trace w).
Proof.
  unfold generate_compliance_report.
  do 6 (rewrite bind_print; cbv beta zeta).
  rewrite bind_time_time.
  do 12 (rewrite bind_print; cbv beta zeta).
  match goal with
  | |- ex (fun w' => ?m env ?w1 = _ /\ @?Q w') =>
      assert (Hp : only_prints m tt) by prints;
      destruct (Hp env w1) as [lines Hrun]
  end.
  eexists. split; [exact Hrun|]. split.
  - rewrite !printed_with_lines. apply in_or_app. left. apply in_or_app. right.
    left. reflexivity.
  - rewrite !actions_with_lines. unfold tick. cbn [trace].
    rewrite !actions_with_lines. reflexivity.
Qed.

(** C1, as the code has it. On every plan and under every script the
    preview, the execution and the report return, and the total previewed is
    the total refunded plus the refundable amounts of the targets whose
    refund was rejected. The verification the report prints is a match
    exactly when the total refunded equals the total previewed, that is,
    when the rejected targets' amounts add up to nothing. *)
Theorem C1_verification_compares_refunded_with_preview (env : Env)
    (eligible : list Eligible) (skipped : list Skipped) (w : World) :
  let rejected :=
    failed_targets (submissions env 1 (n_requests w) (n_clock w) eligible) in
  exists total_preview results w1 w2 w3,
    dry_run eligible env w = (Ret total_preview, w1) /\
    execute_bulk_refunds eligible env w1 = (Ret results, w2) /\
    generate_compliance_report results eligible skipped total_preview env w2
      = (Ret tt, w3) /\
    In (verification_line results total_preview) (printed (trace w3)) /\
    total_preview = py_sum (map e_refundable eligible) /\
    total_refunded results = py_sum (map s_amount (succeeded results)) /\
    total_preview = total_refunded results + py_sum (map e_refundable rejected) /\
    (verification results total_preview = "ok MATCH"
     <-> total_refunded results = total_preview) /\
    (verification results total_preview = "ok MATCH"
     <-> py_sum (map e_refundable rejected) = 0).
Proof.
  intros rejected.
  destruct (dry_run_only_prints eligible env w) as [lines Hdry].
  destruct (execute_bulk_refunds_records env eligible (with_lines lines w))
    as (w2 & Hexec & _).
  cbn [with_lines n_requests n_clock] in Hexec.
  set (subs := submissions env 1 (n_requests w) (n_clock w) eligible) in *.
  destruct (generate_compliance_report_prints
              (mkResults (succeeded_of subs) (failed_of subs)) eligible skipped
              (py_sum (map e_refundable eligible)) env w2) as (w3 & Hrep & Hin & _).
  assert (Hcons : py_sum (map e_refundable eligible) =
                  total_refunded (mkResults (succeeded_of subs) (failed_of subs))
                  + py_sum (map e_refundable rejected)).
  { unfold total_refunded. cbn [succeeded]. apply refundable_is_conserved. }
  eexists _, _, _, _, _. split; [exact Hdry|]. split; [exact Hexec|].
  split; [exact Hrep|]. split; [exact Hin|]. split; [reflexivity|].
  split; [reflexivity|]. split; [exact Hcons|]. split; [apply verification_match|].
  rewrite verification_match. split; intros H; lia.
Qed.

(** C1 as stated fails on its own example: with 1000 planned and the target
    of 200 rejected, 800 is refunded, so planned = refunded + rejected, and
    the report shows a mismatch. *)
Lemma C1_partial_failure_is_a_mismatch :
  exists results w1 w2 w3,
    dry_run plan_thousand (env_rejecting 1) world0 = (Ret 1000, w1) /\
    execute_bulk_refunds plan_thousand (env_rejecting 1) w1 = (Ret results, w2) /\
    generate_compliance_report results plan_thousand [] 1000 (env_rejecting 1) w2
      = (Ret tt, w3) /\
    map s_amount (succeeded results) = [800] /\
    map f_pi_id (failed results) = ["pi_b"] /\
    map e_refundable
        (failed_targets (submissions (env_rejecting 1) 1 0 0 plan_thousand)) = [200] /\
    total_refunded results = 800 /\
    1000 = 800 + 200 /\
    verification results 1000 = "x MISMATCH" /\
    In (mkLine "  |  Verification:       {match:<35}" [VStr "x MISMATCH"])
       (printed (trace w3)).
Proof.
  eexists _, _, _, _.
  split; [vm_compute; reflexivity|].
  split; [vm_compute; reflexivity|].
  split; [vm_compute; reflexivity|].
  do 6 (split; [vm_compute; reflexivity|]).
  vm_compute. repeat first [left; reflexivity | right].
Qed.

(** The scenario of three machines at 349.00, the second with 50.00
    already refunded, and its refund rejected: 997.00 is previewed, two
    refunds go through for 698.00, and the report shows a mismatch. *)
Example recall_three_second_rejected :
  exists results w1 w2,
    dry_run plan_three (env_rejecting 1) world0 = (Ret 99700, w1) /\
    execute_bulk_refunds plan_three (env_rejecting 1) w1 = (Ret results, w2) /\
    map s_amount (succeeded results) = [34900; 34900] /\
    map f_pi_id (failed results) = ["pi_2"] /\
    total_refunded results = 69800 /\
    verification results 99700 = "x MISMATCH".
Proof.
  eexists _, _, _. split; [vm_compute; reflexivity|].
  split; [vm_compute; reflexivity|]. repeat split; vm_compute; reflexivity.
Qed.

(** ** Further properties *)

Lemma compress_length (h block : list Z) :
  length h = 8%nat -> length (Sha256.compress h block) = 8%nat.
Proof.
  intros Hh. unfold Sha256.compress.
  rewrite length_map, length_combine, Hh. reflexivity.
Qed.

Lemma blocks_length (n : nat) : forall h bs,
  length h = 8%nat -> length (Sha256.blocks n h bs) = 8%nat.
Proof.
  induction n as [|n IH]; intros h bs Hh; cbn [Sha256.blocks]; [exact Hh|].
  apply IH, compress_length, Hh.
Qed.

Lemma hexdigest_length (data : string) :
  String.length (Sha256.hexdigest data) = 64%nat.
Proof.
  unfold Sha256.hexdigest, Sha256.digest_words.
  assert (H : length (Sha256.blocks (length (Sha256.pad (Sha256.bytes_of data)) / 64)
                        Sha256.H0 (Sha256.pad (Sha256.bytes_of data))) = 8%nat)
    by (apply blocks_length; reflexivity).
  destruct (Sha256.blocks _ _ _) as [|a [|b [|c [|d [|e [|f [|g [|h [|]]]]]]]]];
    try discriminate H.
  reflexivity.
Qed.

Lemma length_list_ascii (s : string) :
  length (list_ascii_of_string s) = String.length s.
Proof. induction s as [|c s IH]; [reflexivity|]. cbn. rewrite IH. reflexivity. Qed.

Lemma length_string_of_list (l : list ascii) :
  String.length (string_of_list_ascii l) = length l.
Proof. induction l as [|c l IH]; [reflexivity|]. cbn. rewrite IH. reflexivity. Qed.

(** X2: the key has a fixed length: 32 characters, whatever the merchant,
    the order and the action are. *)
Theorem composite_key_has_32_characters (merchant_id order_id action : string) :
  String.length (generate_composite_key merchant_id order_id action) = 32%nat.
Proof.
  unfold generate_composite_key, str_prefix.
  rewrite length_string_of_list, length_firstn, length_list_ascii, hexdigest_length.
  reflexivity.
Qed.

Lemma retried_events_same_kwargs (env : Env) (kwargs : list (string * PyVal))
    (base_delay : Q) (j : nat) : forall attempt r,
  List.Forall (fun ev => forall kw, ev = EvCall kw -> kw = kwargs)
              (retried_events env kwargs base_delay j attempt r).
Proof.
  induction j as [|j IH]; intros attempt r; cbn [retried_events]; [constructor|].
  constructor; [intros kw E; congruence|].
  constructor; [intros kw E; discriminate E|].
  constructor; [intros kw E; discriminate E|apply IH].
Qed.

(** X3: retry safety. With a schedule that can be carried out (a base
    delay that is not negative, delays that [time.sleep] accepts), when the
    wrapped call fails [j] times with a connection error and then returns,
    within the attempts allowed, the retrier returns what that call returned.
    It has made [j + 1] calls, every one with the same keyword arguments, and
    slept [j] times; the log has [j + 1] entries, the last of them the
    success. *)
Theorem retry_returns_first_success (env : Env) (kwargs : list (string * PyVal))
    (max_retries : Z) (base_delay : Q) (w : World) (j : nat) (result : Dict) :
  schedule_fits max_retries base_delay ->
  (forall k, 0 <= random_random env k /\ random_random env k < 1)%Q ->
  Z.of_nat j < max_retries ->
  (forall i, (i < j)%nat -> is_transient (func_script env (n_calls w + i)) = true) ->
  func_script env (n_calls w + j) = Ret result ->
  exists audit_log evs w',
    retry_with_backoff (call_func kwargs) max_retries base_delay env w
      = (Ret (RPair (Some result) audit_log), w') /\
    trace w' = trace w ++ evs /\
    invocations evs = S j /\
    List.Forall (fun ev => forall kw, ev = EvCall kw -> kw = kwargs) evs /\
    length (sleeps evs) = j /\
    length audit_log = S j /\
    exists d, last audit_log = Some d /\
              d !! "status" = Some (VStr "success") /\
              d !! "attempt" = Some (VInt (1 + Z.of_nat j)) /\
              d !! "payment_intent_id" = Some (dict_get result "payment_intent_id").
Proof.
  intros Hfit Hrand Hj Hpre Hans. destruct w as [tr c q t r]. cbn [n_calls trace] in *.
  assert (Hretried : forall i, (i < j)%nat -> retried_at env base_delay c r i = true).
  { intros i Hi. apply (schedule_fits_retried env max_retries); auto; lia. }
  eexists _, _, _.
  split; [apply (retry_run_success _ _ _ _ _ _ _ _ _ j result Hj Hretried Hans)|].
  cbn [trace]. split; [reflexivity|].
  split; [rewrite invocations_app, invocations_retried; unfold invocations; simpl; lia|].
  split.
  { apply List.Forall_app. split; [apply retried_events_same_kwargs|].
    constructor; [intros kw E; congruence|constructor]. }
  split; [rewrite sleeps_app, List.length_app, sleeps_retried_length; simpl; lia|].
  split; [rewrite List.length_app, retried_entries_length; simpl; lia|].
  eexists. split; [apply last_snoc|]. repeat split; reflexivity.
Qed.

Lemma retry_returns_first_success_witness :
  exists audit_log w',
    retry_with_backoff (call_func []) 3 1 env_flaky world0
      = (Ret (RPair (Some (dict [("payment_intent_id", VStr "pi_1")])) audit_log), w') /\
    invocations (trace w') = 2%nat /\
    length audit_log = 2%nat.
Proof.
  destruct (retry_returns_first_success env_flaky [] 3 1 world0 1
              (dict [("payment_intent_id", VStr "pi_1")]))
    as (audit_log & evs & w' & Hrun & Htr & Hinv & _ & _ & Hlen & _).
  - exact schedule_fits_default.
  - intros k. split; [discriminate|reflexivity].
  - lia.
  - intros i Hi. replace i with O by lia. reflexivity.
  - reflexivity.
  - exists audit_log, w'. split; [exact Hrun|]. rewrite Htr. split; assumption.
Defined.

(** ** The retrier at its edges *)

(** X4: with [max_retries <= 0] the loop has no turn: whatever the wrapped
    function is, it is not called, nothing is slept or read, and the
    function ends without reaching a [return]: the caller gets [None], not a
    pair. *)
Theorem retry_without_attempts_returns_None (func : Py Dict) (max_retries : Z)
    (base_delay : Q) (env : Env) (w : World) :
  max_retries <= 0 ->
  retry_with_backoff func max_retries base_delay env w = (Ret RNone, w).
Proof.
  intros H. unfold retry_with_backoff. rewrite py_range_nil by lia. reflexivity.
Qed.

Lemma retry_without_attempts_returns_None_witness :
  retry_with_backoff (call_func []) 0 1 env_flaky world0 = (Ret RNone, world0).
Proof.
  apply (retry_without_attempts_returns_None (call_func []) 0 1 env_flaky world0). lia.
Defined.

(** One attempt of any wrapped function that returns. *)
Lemma retry_attempt_returned (func : Py Dict) (max_retries : Z) (base_delay : Q)
    (env : Env) (attempt : Z) (audit_log : list Dict) (w w2 : World) (result : Dict) :
  func env (tick w) = (Ret result, w2) ->
  retry_attempt func max_retries base_delay attempt audit_log env w =
  (Ret (Return (RPair (Some result)
          (audit_log ++ [success_entry attempt
                           (clock env (n_clock w2) - clock env (n_clock w))%Q result]))),
   tick w2).
Proof.
  intros H. unfold retry_attempt, try_except, bind, time_time.
  change (mkWorld (trace w) (n_calls w) (n_requests w) (S (n_clock w)) (n_random w))
    with (tick w).
  rewrite H. reflexivity.
Qed.

(** X5: the retrier around [create_payment_safely] never retries. The
    submitter turns every Stripe error, a connection error included, into a
    returned dict, so the first attempt always counts as returned: exactly one
    request is sent, nothing is slept, the result is the submitter's dict, and
    the only entry of the log has status ["success"], with no payment intent
    id when Stripe raised. *)
Theorem retry_of_create_payment_safely_never_retries (env : Env) (w : World)
    (max_retries : Z) (base_delay : Q) (amount : Z)
    (currency description idempotency_key : string) (customer_email : option string) :
  1 <= max_retries ->
  let req := payment_request amount currency description idempotency_key in
  exists result entry w',
    retry_with_backoff
      (create_payment_safely amount currency description idempotency_key customer_email)
      max_retries base_delay env w
      = (Ret (RPair (Some result) [entry]), w') /\
    trace w' = trace w ++ [EvStripe req] /\
    result !! "idempotency_key" = Some (VStr idempotency_key) /\
    entry !! "attempt" = Some (VInt 1) /\
    entry !! "status" = Some (VStr "success") /\
    (forall e, stripe_pi env (n_requests w) req = Raise e ->
       result !! "success" = Some (VBool false) /\
       result !! "message" = Some (VStr (exc_str e)) /\
       entry !! "payment_intent_id" = Some VNone) /\
    (forall payment_intent, stripe_pi env (n_requests w) req = Ret payment_intent ->
       result !! "success" = Some (VBool true) /\
       entry !! "payment_intent_id" = Some (VStr (pi_id payment_intent))).
Proof.
  intros Hmax req. unfold retry_with_backoff.
  rewrite py_range_cons by lia. cbn [retry_loop]. unfold bind at 1.
  destruct (stripe_pi env (n_requests w) req) as [payment_intent|e] eqn:Hans.
  - rewrite (retry_attempt_returned _ _ _ _ _ _ _ _ _
               (create_payment_safely_created env (tick w) amount currency description
                  idempotency_key customer_email payment_intent Hans)).
    eexists _, _, _. split; [reflexivity|]. split; [reflexivity|].
    split; [reflexivity|]. split; [reflexivity|]. split; [reflexivity|]. split.
    + intros e E. discriminate E.
    + intros p E. injection E as <-. split; reflexivity.
  - destruct (decide (exc_class e = IdempotencyError)) as [Hc|Hc].
    + rewrite (retry_attempt_returned _ _ _ _ _ _ _ _ _
                 (create_payment_safely_collision env (tick w) amount currency description
                    idempotency_key customer_email e Hans Hc)).
      eexists _, _, _. split; [reflexivity|]. split; [reflexivity|].
      split; [reflexivity|]. split; [reflexivity|]. split; [reflexivity|]. split.
      * intros e' E. injection E as <-. repeat split; reflexivity.
      * intros p E. discriminate E.
    + rewrite (retry_attempt_returned _ _ _ _ _ _ _ _ _
                 (create_payment_safely_rejected env (tick w) amount currency description
                    idempotency_key customer_email e Hans Hc)).
      eexists _, _, _. split; [reflexivity|]. split; [reflexivity|].
      split; [reflexivity|]. split; [reflexivity|]. split; [reflexivity|]. split.
      * intros e' E. injection E as <-. repeat split; reflexivity.
      * intros p E. discriminate E.
Qed.

Lemma retry_of_create_payment_safely_never_retries_witness :
  exists result entry w',
    retry_with_backoff (create_payment_safely 185000 "eur" "TravelBook" "k1" None)
                       3 1 env_offline world0
      = (Ret (RPair (Some result) [entry]), w') /\
    trace w' = [EvStripe (payment_request 185000 "eur" "TravelBook" "k1")] /\
    result !! "error_type" = Some (VStr "APIConnectionError") /\
    entry !! "status" = Some (VStr "success").
Proof.
  destruct (retry_of_create_payment_safely_never_retries env_offline world0 3 1
              185000 "eur" "TravelBook" "k1" None)
    as (result & entry & w' & Hrun & Htr & _ & _ & Hst & _); [lia|].
  exists result, entry, w'. split; [exact Hrun|]. split; [exact Htr|].
  split; [|exact Hst].
  vm_compute in Hrun. injection Hrun as <- _ _. reflexivity.
Defined.

(** ** How the delays grow *)

Lemma jitter_at_below (env : Env) (r : nat) :
  (0 <= random_random env r /\ random_random env r < 1)%Q ->
  (0 <= jitter_at env r /\ jitter_at env r < 1 # 2)%Q.
Proof. unfold jitter_at. intros [H0 H1]. split; lra. Qed.

(** The delay after an attempt lies between the base delay scaled for that
    attempt and, once the base delay is at least the width of the jitter,
    the base delay scaled for the next one. *)
Lemma delay_at_between (env : Env) (base_delay : Q) (a : Z) (r : nat) :
  (forall k, 0 <= random_random env k /\ random_random env k < 1)%Q ->
  (1 # 2 <= base_delay)%Q ->
  1 <= a ->
  (base_delay * inject_Z (2 ^ (a - 1)) <= delay_at env base_delay a r /\
   delay_at env base_delay a r <= base_delay * inject_Z (2 ^ a))%Q.
Proof.
  intros Hrand Hbase Ha. unfold delay_at, backoff_delay.
  destruct (jitter_at_below env r (Hrand r)) as [Hj0 Hj1].
  assert (H1 : 1 <= 2 ^ (a - 1)) by (apply (Z.pow_le_mono_r 2 0 (a - 1)); lia).
  assert (H2 : 2 ^ a = 2 * 2 ^ (a - 1)).
  { replace a with (Z.succ (a - 1)) at 1 by lia. apply Z.pow_succ_r. lia. }
  rewrite H2, inject_Z_mult. rewrite Zle_Qle in H1.
  set (x := inject_Z (2 ^ (a - 1))) in *.
  change (inject_Z 1) with 1%Q in H1. change (inject_Z 2) with 2%Q.
  split; nra.
Qed.

Lemma sleeps_retried (env : Env) (kwargs : list (string * PyVal)) (base_delay : Q)
    (j : nat) : forall attempt r,
  sleeps (retried_events env kwargs base_delay j attempt r) =
  map (fun i => delay_at env base_delay (attempt + Z.of_nat i) (r + i)) (seq 0 j).
Proof.
  induction j as [|j IH]; intros attempt r; [reflexivity|].
  cbn [retried_events]. cbn [sleeps flat_map app seq map].
  rewrite Z.add_0_r, Nat.add_0_r. f_equal.
  change (flat_map _ ?l) with (sleeps l).
  rewrite IH, <- seq_shift, map_map. apply map_ext. intros i.
  f_equal; lia.
Qed.

(** The sleeps of a run are the delays of the attempts that were gone on
    from, and fewer than [max_retries]. *)
Lemma retry_run_sleeps (env : Env) (kwargs : list (string * PyVal))
    (max_retries : Z) (base_delay : Q) (tr : list Event) (c q t r : nat) :
  1 <= max_retries ->
  exists j evs,
    trace (snd (retry_with_backoff (call_func kwargs) max_retries base_delay env
                  (mkWorld tr c q t r)))
      = tr ++ evs /\
    sleeps evs
      = map (fun i => delay_at env base_delay (1 + Z.of_nat i) (r + i)) (seq 0 j) /\
    Z.of_nat j < max_retries.
Proof.
  intros Hmax.
  destruct (retry_run_ends env kwargs max_retries base_delay tr c q t r Hmax)
    as (j & tail & ending & w' & Hrun & Htr & Hj & Htail & _).
  rewrite Hrun. cbn [snd]. rewrite Htr. exists j. eexists. split; [reflexivity|].
  split; [|exact Hj].
  rewrite sleeps_app, sleeps_retried.
  change (sleeps (EvCall kwargs :: tail)) with (sleeps tail).
  rewrite <- (sleeps_actions tail), Htail. apply app_nil_r.
Qed.

Lemma StronglySorted_map_seq {A} (R : A -> A -> Prop) (f : nat -> A) (j : nat) :
  forall s, (forall i k, (s <= i < k)%nat -> (k < s + j)%nat -> R (f i) (f k)) ->
  StronglySorted R (map f (seq s j)).
Proof.
  induction j as [|j IH]; intros s H; cbn [seq map]; constructor.
  - apply IH. intros i k Hik Hk. apply H; lia.
  - apply List.Forall_forall. intros x Hx. apply in_map_iff in Hx as (k & <- & Hk).
    apply in_seq in Hk. apply H; lia.
Qed.

(** X6: exponential backoff in a run. With a base delay of at least half a
    second (the width of the jitter) and [max_retries >= 1], the sleep
    numbered [k], from 0, of a run lasts at least [base_delay * 2 ^ k] and at
    most [base_delay * 2 ^ (k + 1)]: each sleep is at least the base delay,
    no sleep is shorter than the one before it, and there are fewer of them
    than [max_retries]. The two bounds are doubles when the base delay is,
    so they hold of the rounded delays as well. *)
Theorem retry_sleeps_grow (env : Env) (kwargs : list (string * PyVal))
    (max_retries : Z) (base_delay : Q) (w : World) :
  1 <= max_retries ->
  (1 # 2 <= base_delay)%Q ->
  (forall k, 0 <= random_random env k /\ random_random env k < 1)%Q ->
  exists evs,
    trace (snd (retry_with_backoff (call_func kwargs) max_retries base_delay env w))
      = trace w ++ evs /\
    (forall k d, sleeps evs !! k = Some d ->
       (base_delay * inject_Z (2 ^ Z.of_nat k) <= d /\
        d <= base_delay * inject_Z (2 ^ (Z.of_nat k + 1)))%Q) /\
    StronglySorted Qle (sleeps evs) /\
    List.Forall (fun d => base_delay <= d)%Q (sleeps evs) /\
    Z.of_nat (length (sleeps evs)) < max_retries.
Proof.
  intros Hmax Hbase Hrand. destruct w as [tr c q t r].
  destruct (retry_run_sleeps env kwargs max_retries base_delay tr c q t r Hmax)
    as (j & evs & Htr & Hs & Hj).
  exists evs. split; [exact Htr|]. rewrite Hs.
  assert (Hbetween : forall i,
            (base_delay * inject_Z (2 ^ Z.of_nat i)
               <= delay_at env base_delay (1 + Z.of_nat i) (r + i) /\
             delay_at env base_delay (1 + Z.of_nat i) (r + i)
               <= base_delay * inject_Z (2 ^ (Z.of_nat i + 1)))%Q).
  { intros i.
    destruct (delay_at_between env base_delay (1 + Z.of_nat i) (r + i) Hrand Hbase
                ltac:(lia)) as [Hlo Hhi].
    replace (1 + Z.of_nat i - 1) with (Z.of_nat i) in Hlo by lia.
    replace (1 + Z.of_nat i) with (Z.of_nat i + 1) in Hhi at 2 by lia.
    split; assumption. }
  split; [|split; [|split]].
  - intros k d Hk. apply list_lookup_fmap_Some in Hk as (i & -> & Hi).
    apply lookup_seq in Hi as [-> _]. apply Hbetween.
  - apply StronglySorted_map_seq. intros i k Hik Hk.
    destruct (Hbetween i) as [_ Hhi]. destruct (Hbetween k) as [Hlo _].
    assert (Hp : 2 ^ (Z.of_nat i + 1) <= 2 ^ Z.of_nat k) by (apply Z.pow_le_mono_r; lia).
    rewrite Zle_Qle in Hp.
    set (x := inject_Z (2 ^ (Z.of_nat i + 1))) in *.
    set (y := inject_Z (2 ^ Z.of_nat k)) in *. nra.
  - apply List.Forall_forall. intros d Hd. apply in_map_iff in Hd as (i & <- & _).
    destruct (Hbetween i) as [Hlo _].
    assert (Hp : 1 <= 2 ^ Z.of_nat i) by (apply (Z.pow_le_mono_r 2 0); lia).
    rewrite Zle_Qle in Hp. change (inject_Z 1) with 1%Q in Hp.
    set (x := inject_Z (2 ^ Z.of_nat i)) in *. nra.
  - rewrite length_map, length_seq. exact Hj.
Qed.

Lemma retry_sleeps_grow_witness :
  exists evs,
    trace (snd (retry_with_backoff (call_func []) 3 1 env_offline world0)) = evs /\
    StronglySorted Qle (sleeps evs) /\
    length (sleeps evs) = 2%nat.
Proof.
  destruct (retry_sleeps_grow env_offline [] 3 1 world0) as (evs & Htr & _ & Hs & _ & _).
  - lia.
  - discriminate.
  - intros k. split; [discriminate|reflexivity].
  - exists evs. split; [exact Htr|]. split; [exact Hs|].
    cbn [trace world0 app] in Htr. rewrite <- Htr. reflexivity.
Defined.

Lemma delay_at_most (env : Env) (base_delay : Q) (a : Z) (r : nat) :
  (forall k, 0 <= random_random env k /\ random_random env k < 1)%Q ->
  (delay_at env base_delay a r <= base_delay * inject_Z (2 ^ (a - 1)) + (1 # 2))%Q.
Proof.
  intros Hrand. unfold delay_at, backoff_delay.
  destruct (jitter_at_below env r (Hrand r)) as [_ Hj]. lra.
Qed.

(** [j] delays in a row, from attempt [a] on, add up to at most the
    geometric sum of the base delays plus half a second each. *)
Lemma delays_total (env : Env) (base_delay : Q) (j : nat) :
  (forall k, 0 <= random_random env k /\ random_random env k < 1)%Q ->
  forall a r, 1 <= a ->
  (q_sum (map (fun i => delay_at env base_delay (a + Z.of_nat i) (r + i)) (seq 0 j))
   <= base_delay * inject_Z (2 ^ (a - 1) * (2 ^ Z.of_nat j - 1))
      + inject_Z (Z.of_nat j) * (1 # 2))%Q.
Proof.
  intros Hrand. induction j as [|j IH]; intros a r Ha.
  - unfold q_sum. cbn [seq map fold_right].
    change (2 ^ Z.of_nat 0 - 1) with 0. rewrite Z.mul_0_r.
    change (inject_Z (Z.of_nat 0)) with 0%Q. change (inject_Z 0) with 0%Q. lra.
  - unfold q_sum. cbn [seq map fold_right]. rewrite <- seq_shift, map_map.
    rewrite Z.add_0_r, Nat.add_0_r.
    pose proof (delay_at_most env base_delay a r Hrand) as Hd.
    pose proof (IH (a + 1) (S r) ltac:(lia)) as Hrest. unfold q_sum in Hrest.
    erewrite map_ext in Hrest.
    2:{ intros i. replace (a + 1 + Z.of_nat i) with (a + Z.of_nat (S i)) by lia.
        replace (S r + i)%nat with (r + S i)%nat by lia. reflexivity. }
    assert (Hz : 2 ^ (a - 1) * (2 ^ Z.of_nat (S j) - 1)
                 = 2 ^ (a - 1) + 2 ^ (a + 1 - 1) * (2 ^ Z.of_nat j - 1)).
    { replace (a + 1 - 1) with (Z.succ (a - 1)) by lia.
      rewrite Nat2Z.inj_succ, !Z.pow_succ_r by lia. ring. }
    rewrite Hz, inject_Z_plus, Nat2Z.inj_succ.
    replace (Z.succ (Z.of_nat j)) with (Z.of_nat j + 1) by lia.
    rewrite (inject_Z_plus (Z.of_nat j) 1).
    set (s := fold_right Qplus 0%Q _) in *.
    set (x := inject_Z (2 ^ (a - 1))) in *.
    set (y := inject_Z (2 ^ (a + 1 - 1) * (2 ^ Z.of_nat j - 1))) in *.
    set (z := inject_Z (Z.of_nat j)) in *.
    change (inject_Z 1) with 1%Q. lra.
Qed.

(** X7: the time a run can spend asleep. With a base delay that is not
    negative and [max_retries >= 1], the sleeps of a run add up to at most
    [base_delay * (2 ^ (max_retries - 1) - 1)] plus half a second for each of
    the [max_retries - 1] sleeps there can be. *)
Theorem retry_total_sleep_is_bounded (env : Env) (kwargs : list (string * PyVal))
    (max_retries : Z) (base_delay : Q) (w : World) :
  1 <= max_retries ->
  (0 <= base_delay)%Q ->
  (forall k, 0 <= random_random env k /\ random_random env k < 1)%Q ->
  exists evs,
    trace (snd (retry_with_backoff (call_func kwargs) max_retries base_delay env w))
      = trace w ++ evs /\
    (q_sum (sleeps evs)
     <= base_delay * inject_Z (2 ^ (max_retries - 1) - 1)
        + inject_Z (max_retries - 1) * (1 # 2))%Q.
Proof.
  intros Hmax Hbase Hrand. destruct w as [tr c q t r].
  destruct (retry_run_sleeps env kwargs max_retries base_delay tr c q t r Hmax)
    as (j & evs & Htr & Hs & Hj).
  exists evs. split; [exact Htr|]. rewrite Hs.
  pose proof (delays_total env base_delay j Hrand 1 r ltac:(lia)) as Hsum.
  change (2 ^ (1 - 1)) with 1 in Hsum. rewrite Z.mul_1_l in Hsum.
  assert (Hp : 2 ^ Z.of_nat j - 1 <= 2 ^ (max_retries - 1) - 1).
  { apply Z.sub_le_mono_r, Z.pow_le_mono_r; lia. }
  assert (Hn : Z.of_nat j <= max_retries - 1) by lia.
  rewrite Zle_Qle in Hp. rewrite Zle_Qle in Hn.
  set (s := q_sum _) in *.
  set (x := inject_Z (2 ^ Z.of_nat j - 1)) in *.
  set (y := inject_Z (2 ^ (max_retries - 1) - 1)) in *.
  set (u := inject_Z (Z.of_nat j)) in *.
  set (v := inject_Z (max_retries - 1)) in *.
  nra.
Qed.

Lemma retry_total_sleep_is_bounded_witness :
  exists evs,
    trace (snd (retry_with_backoff (call_func []) 3 1 env_offline world0)) = evs /\
    (q_sum (sleeps evs) <= 1 * inject_Z (2 ^ (3 - 1) - 1) + inject_Z (3 - 1) * (1 # 2))%Q.
Proof.
  destruct (retry_total_sleep_is_bounded env_offline [] 3 1 world0) as (evs & Htr & Hs).
  - lia.
  - discriminate.
  - intros k. split; [discriminate|reflexivity].
  - exists evs. split; [exact Htr|exact Hs].
Defined.

(** ** Discovery: errors, order and completeness *)

(** The loop stops at the first retrieval that raises. *)
Lemma discover_loop_raises (env : Env) (pre : list string) :
  forall (pis : list PaymentIntent) id post e eligible skipped tr c q t r,
    retrieved env q pre = map Ret pis ->
    stripe_pi env (q + length pre) (retrieval id) = Raise e ->
    discover_loop (pre ++ id :: post) eligible skipped env (mkWorld tr c q t r) =
    (Raise e,
     mkWorld (tr ++ map (fun i => EvStripe (retrieval i)) (pre ++ [id]))
             c (q + S (length pre)) t r).
Proof.
  induction pre as [|p pre IH]; intros pis id post e eligible skipped tr c q t r Hans He.
  - cbn [app length] in *. rewrite Nat.add_0_r in He.
    cbn [discover_loop]. unfold bind, stripe_request.
    cbn [n_requests trace n_calls n_clock n_random]. fold (retrieval id).
    rewrite He. cbn [map]. f_equal. f_equal. lia.
  - destruct pis as [|pi pis]; [discriminate Hans|].
    cbn [retrieved map] in Hans. injection Hans as Hpi Hrest.
    cbn [app length] in *. cbn [discover_loop]. unfold bind at 1, stripe_request at 1.
    cbn [n_requests trace n_calls n_clock n_random]. rewrite Hpi.
    assert (He' : stripe_pi env (S q + length pre) (retrieval id) = Raise e).
    { rewrite <- He. f_equal. lia. }
    destruct (negb (String.eqb (pi_status pi) "succeeded"));
      [|destruct (pi_amount pi - _ <=? 0)];
      rewrite (IH pis id post e _ _ _ _ _ _ _ Hrest He'); cbn [map];
      rewrite <- app_assoc; cbn [app]; do 2 f_equal; lia.
Qed.

(** X8: a retrieval that raises ends the discovery. When Stripe answers
    the retrievals of the first candidates and raises at the next, the
    function raises that error: it returns no plan and no skip list, and the
    candidates after the failing one are never retrieved. *)
Theorem discovery_stops_at_failed_retrieval (env : Env) (w : World)
    (pre : list string) (id : string) (post : list string)
    (pis : list PaymentIntent) (e : Exception) :
  retrieved env (n_requests w) pre = map Ret pis ->
  stripe_pi env (n_requests w + length pre) (retrieval id) = Raise e ->
  exists w',
    discover_eligible_payments (Some (pre ++ id :: post)) env w = (Raise e, w') /\
    stripe_requests (trace w') =
      stripe_requests (trace w) ++ map retrieval (pre ++ [id]) /\
    sleeps (trace w') = sleeps (trace w).
Proof.
  intros Hans He. remember (pre ++ id :: post) as ids eqn:Hids.
  unfold discover_eligible_payments.
  do 6 (rewrite bind_print; cbv beta). rewrite !with_lines_app.
  set (lines := (_ ++ _)%list).
  replace (match ids with
           | [] => ret ([], [])
           | i :: rest => discover_loop (i :: rest) [] []
           end) with (discover_loop ids [] []) by (destruct ids; reflexivity).
  subst ids. unfold bind at 1. unfold with_lines at 1.
  rewrite (discover_loop_raises env pre pis id post e [] [] _ _ _ _ _ Hans He).
  eexists. split; [reflexivity|]. cbn [trace].
  rewrite !stripe_requests_app, !sleeps_app.
  pose proof (stripe_requests_with_lines lines w) as H1.
  pose proof (sleeps_with_lines lines w) as H2.
  unfold with_lines in H1, H2. cbn [trace] in H1, H2.
  rewrite stripe_requests_app in H1. rewrite sleeps_app in H2.
  rewrite H1, H2. split.
  - f_equal. clear. induction (pre ++ [id]) as [|i l IH]; [reflexivity|].
    cbn. f_equal. exact IH.
  - rewrite <- (app_nil_r (sleeps (trace w))) at 2. f_equal.
    clear. induction (pre ++ [id]) as [|i l IH]; [reflexivity|exact IH].
Qed.

Lemma discovery_stops_at_failed_retrieval_witness :
  exists w',
    discover_eligible_payments (Some ids_with_unknown) env_recall world0
      = (Raise (mkExc InvalidRequestError "No such payment_intent"), w') /\
    stripe_requests (trace w') = [retrieval "pi_2"; retrieval "pi_404"].
Proof.
  destruct (discovery_stops_at_failed_retrieval env_recall world0 ["pi_2"] "pi_404"
              ["pi_4"] [pi_partial] (mkExc InvalidRequestError "No such payment_intent")
              eq_refl eq_refl) as (w' & Hrun & Hreq & _).
  exists w'. split; [exact Hrun|exact Hreq].
Defined.

Lemma actions_retrievals (ids : list string) :
  actions (map (fun id => EvStripe (PaymentIntent_retrieve id ["latest_charge"])) ids)
  = map (fun id => EvStripe (retrieval id)) ids.
Proof. induction ids as [|i l IH]; [reflexivity|]. cbn. f_equal. exact IH. Qed.

(** The discovery with the world it leaves: the requests are counted, the
    clock is not read. *)
Lemma discover_eligible_payments_world (env : Env) (w : World)
    (ids : list string) (pis : list PaymentIntent) :
  retrieved env (n_requests w) ids = map Ret pis ->
  exists w',
    discover_eligible_payments (Some ids) env w
      = (Ret (lefts (map route pis), rights (map route pis)), w') /\
    actions (trace w') = actions (trace w) ++ map (fun id => EvStripe (retrieval id)) ids /\
    n_requests w' = (n_requests w + length ids)%nat /\
    n_clock w' = n_clock w.
Proof.
  intros Hans. unfold discover_eligible_payments.
  do 6 (rewrite bind_print; cbv beta). rewrite !with_lines_app.
  set (lines := (_ ++ _)%list).
  replace (match ids with
           | [] => ret ([], [])
           | i :: rest => discover_loop (i :: rest) [] []
           end) with (discover_loop ids [] []) by (destruct ids; reflexivity).
  unfold bind at 1. unfold with_lines at 1.
  rewrite (discover_loop_routes env ids pis [] [] _ _ _ _ _ Hans). cbn [app].
  match goal with
  | |- ex (fun w' => ?m env ?w1 = _ /\ @?Q w') =>
      assert (Hp : only_prints m (lefts (map route pis), rights (map route pis)))
        by prints;
      destruct (Hp env w1) as [lines2 Hrun]
  end.
  eexists. split; [exact Hrun|]. split; [|split; reflexivity].
  rewrite actions_with_lines. cbn [trace]. rewrite !actions_app, actions_retrievals.
  pose proof (actions_with_lines lines w) as H1.
  unfold with_lines in H1. cbn [trace] in H1. rewrite actions_app in H1.
  rewrite H1. reflexivity.
Qed.

Lemma route_by_refundable_now (pi : PaymentIntent) :
  if refundable_now pi
  then exists t, route pi = inl t /\ e_pi_id t = pi_id pi /\
                 e_amount t = pi_amount pi /\
                 e_refundable t = pi_amount pi - refunded_of pi
  else exists s, route pi = inr s /\ sk_pi_id s = pi_id pi.
Proof.
  unfold refundable_now, route.
  destruct (String.eqb (pi_status pi) "succeeded"); cbn [negb andb].
  - destruct (0 <? pi_amount pi - refunded_of pi) eqn:Hpos.
    + apply Z.ltb_lt in Hpos.
      replace (pi_amount pi - refunded_of pi <=? 0) with false
        by (symmetry; apply Z.leb_gt; lia).
      eexists. split; [reflexivity|]. cbn. auto.
    + apply Z.ltb_ge in Hpos.
      replace (pi_amount pi - refunded_of pi <=? 0) with true
        by (symmetry; apply Z.leb_le; lia).
      eexists. split; reflexivity.
  - eexists. split; reflexivity.
Qed.

Lemma routed_by_refundable_now (pis : list PaymentIntent) :
  map e_pi_id (lefts (map route pis)) = map pi_id (List.filter refundable_now pis) /\
  map e_refundable (lefts (map route pis))
    = map (fun pi => pi_amount pi - refunded_of pi) (List.filter refundable_now pis) /\
  map sk_pi_id (rights (map route pis))
    = map pi_id (List.filter (fun pi => negb (refundable_now pi)) pis).
Proof.
  induction pis as [|pi pis (IH1 & IH2 & IH3)]; [repeat split|].
  cbn [map List.filter]. pose proof (route_by_refundable_now pi) as Hr.
  destruct (refundable_now pi); cbn [negb].
  - destruct Hr as (t & -> & Hid & _ & Hamt). cbn [lefts rights map].
    rewrite IH1, IH2, IH3, Hid, Hamt. repeat split.
  - destruct Hr as (s & -> & Hid). cbn [lefts rights map].
    rewrite IH1, IH2, IH3, Hid. repeat split.
Qed.

(** X9: the plan is exactly the candidates that can still be refunded, in
    the order they were given. When Stripe answers the retrievals with the
    payment intents [pis], the targets of the plan are, in order, those of
    [pis] that succeeded and have something left to refund, each with that
    remainder as its refundable amount; the skip list holds all the others, in
    order. No candidate is dropped and none is listed twice. *)
Theorem discovery_partitions_candidates_in_order (env : Env) (w : World)
    (ids : list string) (pis : list PaymentIntent) :
  retrieved env (n_requests w) ids = map Ret pis ->
  exists eligible skipped w',
    discover_eligible_payments (Some ids) env w = (Ret (eligible, skipped), w') /\
    map e_pi_id eligible = map pi_id (List.filter refundable_now pis) /\
    map e_refundable eligible
      = map (fun pi => pi_amount pi - refunded_of pi) (List.filter refundable_now pis) /\
    map sk_pi_id skipped
      = map pi_id (List.filter (fun pi => negb (refundable_now pi)) pis) /\
    stripe_requests (trace w') = stripe_requests (trace w) ++ map retrieval ids.
Proof.
  intros Hans.
  destruct (discover_eligible_payments_world env w ids pis Hans)
    as (w' & Hrun & Hact & _).
  destruct (routed_by_refundable_now pis) as (H1 & H2 & H3).
  eexists _, _, w'. split; [exact Hrun|]. split; [exact H1|]. split; [exact H2|].
  split; [exact H3|].
  rewrite <- (stripe_requests_actions (trace w')), Hact, stripe_requests_app,
    stripe_requests_actions. f_equal.
  clear. induction ids as [|i l IH]; [reflexivity|]. cbn. f_equal. exact IH.
Qed.

Lemma discovery_partitions_candidates_in_order_witness :
  exists eligible skipped w',
    discover_eligible_payments (Some ["pi_9"; "pi_2"; "pi_4"]) env_recall world0
      = (Ret (eligible, skipped), w') /\
    map e_pi_id eligible = ["pi_2"] /\
    map e_refundable eligible = [29900] /\
    map sk_pi_id skipped = ["pi_9"; "pi_4"].
Proof.
  destruct (discovery_partitions_candidates_in_order env_recall world0
              ["pi_9"; "pi_2"; "pi_4"] [pi_canceled; pi_partial; pi_refunded] eq_refl)
    as (eligible & skipped & w' & Hrun & H1 & H2 & H3 & _).
  exists eligible, skipped, w'. split; [exact Hrun|].
  split; [exact H1|]. split; [exact H2|exact H3].
Defined.

(** ** The recall from discovery to report *)

(** The run as a whole, when Stripe answers every retrieval: it cannot
    fail; besides printing it retrieves the candidates and then submits the
    plan; and the report shows the verification of the results against the
    preview. *)
Lemma recall_run_world (env : Env) (w : World) (ids : list string)
    (pis : list PaymentIntent) :
  retrieved env (n_requests w) ids = map Ret pis ->
  let plan := lefts (map route pis) in
  let subs := submissions env 1 (n_requests w + length ids) (n_clock w) plan in
  exists w',
    recall_run (Some ids) env w = (Ret tt, w') /\
    actions (trace w') =
      actions (trace w) ++ map (fun id => EvStripe (retrieval id)) ids
      ++ submission_actions subs /\
    In (verification_line (mkResults (succeeded_of subs) (failed_of subs))
                          (py_sum (map e_refundable plan)))
       (printed (trace w')).
Proof.
  intros Hans plan subs.
  destruct (discover_eligible_payments_world env w ids pis Hans)
    as (w1 & Hdisc & Hact1 & Hq1 & Ht1).
  destruct (dry_run_only_prints plan env w1) as [lines Hdry].
  destruct (execute_bulk_refunds_records env plan (with_lines lines w1))
    as (w2 & Hexec & Hact2 & _).
  cbn [with_lines n_requests n_clock] in Hexec, Hact2.
  rewrite Hq1, Ht1 in Hexec, Hact2. fold subs in Hexec, Hact2.
  destruct (generate_compliance_report_prints
              (mkResults (succeeded_of subs) (failed_of subs)) plan
              (rights (map route pis)) (py_sum (map e_refundable plan)) env w2)
    as (w3 & Hrep & Hin & Hact3).
  exists w3. split; [|split].
  - unfold recall_run, bind. rewrite Hdisc. fold plan. rewrite Hdry, Hexec. exact Hrep.
  - rewrite Hact3, Hact2.
    change (trace (mkWorld (trace w1 ++ map EvPrint lines) (n_calls w1)
                           (n_requests w1) (n_clock w1) (n_random w1)))
      with (trace (with_lines lines w1)).
    rewrite actions_with_lines, Hact1, <- app_assoc. reflexivity.
  - exact Hin.
Qed.

Lemma refund_targets_of_submissions (env : Env) (ps : list Eligible) :
  forall i q t,
    map refund_target (map sub_request (submissions env i q t ps))
    = map (fun p => Some (e_pi_id p, e_refundable p)) ps.
Proof.
  induction ps as [|p ps IH]; intros i q t; [reflexivity|].
  cbn [submissions map sub_request]. rewrite IH. reflexivity.
Qed.

(** X10: the run never refunds more than what remains, and refunds nothing
    it skipped. When Stripe answers every retrieval, the run cannot fail,
    whatever Stripe answers to the refunds; after the retrievals it sends
    one refund request for each candidate that succeeded and has something
    left, in order, for exactly the amount of the payment less what was
    already refunded; and it sends no other request. *)
Theorem recall_run_refunds_what_remains (env : Env) (w : World)
    (ids : list string) (pis : list PaymentIntent) :
  retrieved env (n_requests w) ids = map Ret pis ->
  exists refunds w',
    recall_run (Some ids) env w = (Ret tt, w') /\
    stripe_requests (trace w') =
      stripe_requests (trace w) ++ map retrieval ids ++ refunds /\
    map refund_target refunds =
      map (fun pi => Some (pi_id pi, pi_amount pi - refunded_of pi))
          (List.filter refundable_now pis).
Proof.
  intros Hans.
  destruct (recall_run_world env w ids pis Hans) as (w' & Hrun & Hact & _).
  eexists _, w'. split; [exact Hrun|]. split.
  - rewrite <- (stripe_requests_actions (trace w')), Hact, !stripe_requests_app,
      stripe_requests_actions, stripe_requests_submissions. do 2 f_equal.
    clear. induction ids as [|i l IH]; [reflexivity|]. cbn. f_equal. exact IH.
  - rewrite refund_targets_of_submissions.
    destruct (routed_by_refundable_now pis) as (H1 & H2 & _).
    clear -H1 H2. revert H1 H2.
    generalize (lefts (map route pis)) (List.filter refundable_now pis).
    induction l as [|p l IH]; intros [|pi l'] H1 H2; try discriminate; [reflexivity|].
    cbn [map] in *. injection H1 as Ha Hb. injection H2 as Hc Hd.
    rewrite Ha, Hc, (IH l' Hb Hd). reflexivity.
Qed.

Lemma recall_run_refunds_what_remains_witness :
  exists refunds w',
    recall_run (Some ["pi_9"; "pi_2"; "pi_4"]) env_recall world0 = (Ret tt, w') /\
    stripe_requests (trace w') =
      [retrieval "pi_9"; retrieval "pi_2"; retrieval "pi_4"] ++ refunds /\
    map refund_target refunds = [Some ("pi_2", 29900)].
Proof.
  destruct (recall_run_refunds_what_remains env_recall world0
              ["pi_9"; "pi_2"; "pi_4"] [pi_canceled; pi_partial; pi_refunded] eq_refl)
    as (refunds & w' & Hrun & Hreq & Htargets).
  exists refunds, w'. split; [exact Hrun|]. split; [exact Hreq|exact Htargets].
Defined.

Lemma lefts_route_positive (pis : list PaymentIntent) :
  Forall (fun t => 0 < e_refundable t) (lefts (map route pis)).
Proof.
  induction pis as [|pi pis IH]; [constructor|].
  cbn [map lefts]. destruct (route pi) as [t|s] eqn:E; [|exact IH].
  constructor; [|exact IH]. apply (route_eligible pi t E).
Qed.

Lemma failed_targets_of_plan (env : Env) (P : Eligible -> Prop) (ps : list Eligible) :
  Forall P ps ->
  forall i q t, Forall P (failed_targets (submissions env i q t ps)).
Proof.
  induction 1 as [|p ps Hp _ IH]; intros i q t; [constructor|].
  cbn [submissions]. rewrite failed_targets_cons. apply List.Forall_app. split.
  - unfold failed_targets. cbn [flat_map sub_answer sub_target].
    destruct (stripe_refund env q _); cbn [app]; [constructor|].
    constructor; [exact Hp|constructor].
  - apply IH.
Qed.

Lemma py_sum_positive (ps : list Eligible) :
  Forall (fun t => 0 < e_refundable t) ps ->
  0 <= py_sum (map e_refundable ps) /\
  (py_sum (map e_refundable ps) = 0 -> ps = []).
Proof.
  induction 1 as [|p ps Hp _ [IH _]]; [split; [reflexivity|auto]|].
  cbn [map]. rewrite py_sum_cons. split; [lia|]. intros H. lia.
Qed.

Lemma failed_of_targets (subs : list Submission) :
  failed_of subs = [] <-> failed_targets subs = [].
Proof.
  induction subs as [|s subs IH]; [tauto|].
  rewrite failed_of_cons, failed_targets_cons.
  unfold failed_of at 1, failed_targets at 1. cbn [flat_map].
  destruct (sub_answer s); cbn [app]; [exact IH|].
  split; discriminate.
Qed.

Lemma failed_of_answers (subs : list Submission) :
  failed_of subs = [] <->
  Forall (fun s => exists refund, sub_answer s = Ret refund) subs.
Proof.
  induction subs as [|s subs IH]; [split; [constructor|reflexivity]|].
  rewrite failed_of_cons. unfold failed_of at 1. cbn [flat_map].
  destruct (sub_answer s) as [refund|e] eqn:E; cbn [app].
  - rewrite IH. split.
    + intros H. constructor; [eauto|exact H].
    + intros H. inversion H. assumption.
  - split; [discriminate|].
    intros H. inversion H as [|? ? [refund Hr] ?]. congruence.
Qed.

(** X11: on a plan that discovery made, the report says MATCH exactly when
    no refund was rejected. When Stripe answers every retrieval, the four
    steps of the run return one after the other, each taking what the one
    before returned: discovery the plan and the skip list, the preview the
    total, the execution the results, and the report prints the verification
    line of these results against this total. That line says MATCH if and
    only if the list of failed refunds that the execution returned is empty,
    which is if and only if Stripe answered every refund request of the run
    with a refund: every target of the plan has a positive amount left, so
    one rejected refund is enough for a mismatch. *)
Theorem recall_run_matches_iff_nothing_failed (env : Env) (w : World)
    (ids : list string) (pis : list PaymentIntent) :
  retrieved env (n_requests w) ids = map Ret pis ->
  exists eligible skipped total_preview results w1 w2 w3 w4,
    discover_eligible_payments (Some ids) env w = (Ret (eligible, skipped), w1) /\
    dry_run eligible env w1 = (Ret total_preview, w2) /\
    execute_bulk_refunds eligible env w2 = (Ret results, w3) /\
    generate_compliance_report results eligible skipped total_preview env w3
      = (Ret tt, w4) /\
    recall_run (Some ids) env w = (Ret tt, w4) /\
    In (verification_line results total_preview) (printed (trace w4)) /\
    (length (succeeded results) + length (failed results) = length eligible)%nat /\
    (verification results total_preview = "ok MATCH" <-> failed results = []) /\
    (failed results = [] <->
     Forall (fun s => exists refund, sub_answer s = Ret refund)
            (submissions env 1 (n_requests w2) (n_clock w2) eligible)).
Proof.
  intros Hans.
  destruct (discover_eligible_payments_world env w ids pis Hans)
    as (w1 & Hdisc & _ & _ & _).
  set (plan := lefts (map route pis)) in *.
  destruct (dry_run_only_prints plan env w1) as [lines Hdry].
  set (w2 := with_lines lines w1) in *.
  destruct (execute_bulk_refunds_records env plan w2) as (w3 & Hexec & _).
  set (subs := submissions env 1 (n_requests w2) (n_clock w2) plan) in *.
  set (results := mkResults (succeeded_of subs) (failed_of subs)) in *.
  destruct (generate_compliance_report_prints results plan (rights (map route pis))
              (py_sum (map e_refundable plan)) env w3) as (w4 & Hrep & Hin & _).
  exists plan, (rights (map route pis)), (py_sum (map e_refundable plan)), results,
         w1, w2, w3, w4.
  split; [exact Hdisc|]. split; [exact Hdry|]. split; [exact Hexec|].
  split; [exact Hrep|]. split.
  { unfold recall_run, bind. rewrite Hdisc. fold plan. rewrite Hdry.
    fold w2. rewrite Hexec. exact Hrep. }
  split; [exact Hin|]. split.
  { cbn [succeeded failed results]. rewrite succeeded_failed_length. unfold subs.
    clear. generalize 1 (n_requests w2) (n_clock w2).
    induction plan as [|p ps IH]; intros i q t; [reflexivity|].
    cbn [submissions length]. rewrite IH. reflexivity. }
  split; [|apply failed_of_answers].
  rewrite verification_match. unfold total_refunded. cbn [succeeded failed results].
  rewrite failed_of_targets.
  pose proof (refundable_is_conserved env plan 1 (n_requests w2) (n_clock w2)) as Hcons.
  fold subs in Hcons.
  pose proof (failed_targets_of_plan env _ plan (lefts_route_positive pis) 1
                (n_requests w2) (n_clock w2)) as Hpos.
  fold subs in Hpos. apply py_sum_positive in Hpos. destruct Hpos as [_ Hnil].
  split; intros H.
  - apply Hnil. lia.
  - rewrite H in Hcons. change (py_sum (map e_refundable [])) with 0 in Hcons. lia.
Qed.

Lemma recall_run_matches_iff_nothing_failed_witness :
  exists eligible results w2 w3 w4,
    execute_bulk_refunds eligible env_recall w2 = (Ret results, w3) /\
    recall_run (Some ["pi_9"; "pi_2"; "pi_4"]) env_recall world0 = (Ret tt, w4) /\
    map e_pi_id eligible = ["pi_2"] /\
    In (verification_line results 29900) (printed (trace w4)) /\
    (verification results 29900 = "ok MATCH" <-> failed results = []).
Proof.
  destruct (recall_run_matches_iff_nothing_failed env_recall world0
              ["pi_9"; "pi_2"; "pi_4"] [pi_canceled; pi_partial; pi_refunded] eq_refl)
    as (eligible & skipped & total_preview & results & w1 & w2 & w3 & w4 &
        Hdisc & Hdry & Hexec & Hrep & Hrun & Hin & _ & Hiff & _).
  assert (He : eligible = lefts (map route [pi_canceled; pi_partial; pi_refunded])).
  { pose proof (discover_eligible_payments_world env_recall world0
                  ["pi_9"; "pi_2"; "pi_4"] [pi_canceled; pi_partial; pi_refunded] eq_refl)
      as (w1' & Hd & _). rewrite Hd in Hdisc. injection Hdisc as <- _ _. reflexivity. }
  assert (Ht : total_preview = 29900).
  { subst eligible. destruct (dry_run_only_prints
                                (lefts (map route [pi_canceled; pi_partial; pi_refunded]))
                                env_recall w1) as [lines Hl].
    rewrite Hl in Hdry. injection Hdry as <- _. reflexivity. }
  subst total_preview.
  exists eligible, results, w2, w3, w4.
  split; [exact Hexec|]. split; [exact Hrun|]. split; [subst eligible; reflexivity|].
  split; [exact Hin|exact Hiff].
Defined.

(** ** The demos of ticket 11 *)

Lemma create_payment_safely_result (env : Env) (w : World) (amount : Z)
    (currency description idempotency_key : string) (customer_email : option string) :
  let req := payment_request amount currency description idempotency_key in
  create_payment_safely amount currency description idempotency_key customer_email env w
  = (Ret (result_of idempotency_key (stripe_pi env (n_requests w) req)),
     after_request req w).
Proof.
  intros req. destruct (stripe_pi env (n_requests w) req) as [p|e] eqn:Ha.
  - apply create_payment_safely_created. exact Ha.
  - unfold result_of. destruct (decide (exc_class e = IdempotencyError)) as [Hc|Hc].
    + apply create_payment_safely_collision; assumption.
    + apply create_payment_safely_rejected; assumption.
Qed.

Lemma bind_create_payment_safely {B} (k : Dict -> Py B) (env : Env) (w : World)
    (amount : Z) (currency description idempotency_key : string)
    (customer_email : option string) :
  let req := payment_request amount currency description idempotency_key in
  bind (create_payment_safely amount currency description idempotency_key customer_email)
       k env w
  = k (result_of idempotency_key (stripe_pi env (n_requests w) req)) env
      (after_request req w).
Proof.
  intros req. unfold bind. rewrite create_payment_safely_result. reflexivity.
Qed.

Lemma getitem_success (key : string) (a : Res PaymentIntent) :
  getitem (result_of key a) "success"
  = inr (VBool (match a with Ret _ => true | Raise _ => false end)).
Proof. destruct a; reflexivity. Qed.

Lemma status_or_result (key otherwise : string) (a : Res PaymentIntent) :
  status_or (result_of key a) otherwise
  = inr (VStr (match a with Ret p => pi_status p | Raise _ => otherwise end)).
Proof. destruct a; reflexivity. Qed.

Lemma payment_intent_id_of_result (key : string) (a : Res PaymentIntent) :
  dict_get (result_of key a) "payment_intent_id"
  = match a with Ret p => VStr (pi_id p) | Raise _ => VNone end.
Proof. destruct a; reflexivity. Qed.

Lemma same_payment_intent (key : string) (a1 a2 : Res PaymentIntent) :
  py_eq (dict_get (result_of key a1) "payment_intent_id")
        (dict_get (result_of key a2) "payment_intent_id")
  = alike a1 a2.
Proof. rewrite !payment_intent_id_of_result. destruct a1, a2; reflexivity. Qed.

Lemma actions_after_request (req : Request) (w : World) :
  actions (trace (after_request req w)) = actions (trace w) ++ [EvStripe req].
Proof. unfold after_request. cbn [trace]. rewrite actions_app. reflexivity. Qed.

Lemma printed_after_request (req : Request) (w : World) :
  printed (trace (after_request req w)) = printed (trace w).
Proof.
  unfold after_request. cbn [trace]. rewrite printed_app. cbn. apply app_nil_r.
Qed.

Lemma last_printed_with_lines (l : Line) (w : World) :
  last (printed (trace (with_lines [l] w))) = Some l.
Proof. rewrite printed_with_lines. apply last_snoc. Qed.

Lemma n_requests_with_lines (lines : list Line) (w : World) :
  n_requests (with_lines lines w) = n_requests w.
Proof. reflexivity. Qed.

Lemma n_requests_after_request (req : Request) (w : World) :
  n_requests (after_request req w) = S (n_requests w).
Proof. reflexivity. Qed.

Lemma emit_print (l : Line) (w : World) : emit (EvPrint l) w = with_lines [l] w.
Proof. reflexivity. Qed.

Ltac step_print := rewrite bind_print; cbv beta.

Ltac step_create req :=
  rewrite bind_create_payment_safely; cbv zeta;
  change (payment_request _ _ _ _) with req;
  repeat (rewrite n_requests_with_lines || rewrite n_requests_after_request).

(** X12: the first demo, whatever number it draws and whatever Stripe
    answers. It ends without an error, a missing key included; it sends the
    same request twice, key and parameters alike, and does nothing else
    but print; and its last line is the success line exactly when the two
    calls ended alike: with the same payment intent, or both with an error.
    So it reports that no duplicate charge was created also when Stripe
    rejected both calls and no payment exists. *)
Theorem demo_safe_payment_repeats_and_judges (env : Env) (w : World) (drawn : Z) :
  let req := safe_payment_request drawn in
  let answer1 := stripe_pi env (n_requests w) req in
  let answer2 := stripe_pi env (S (n_requests w)) req in
  exists result1 result2 w',
    demo_safe_payment drawn env w = (Ret (inr (result1, result2)), w') /\
    actions (trace w') = actions (trace w) ++ [EvStripe req; EvStripe req] /\
    last (printed (trace w')) =
      Some (if alike answer1 answer2
            then mkLine "  ok No duplicate charge created - idempotency key worked!" []
            else mkLine "  x WARNING: Different PaymentIntents - check implementation" []).
Proof.
  intros req answer1 answer2. unfold demo_safe_payment. cbv zeta.
  unfold safe_payment_request in req. cbv zeta in req.
  set (booking_id := ("booking_" ++ pretty drawn)%string) in *.
  set (key := generate_composite_key "agency_042" booking_id "create_payment") in *.
  do 7 step_print. step_create req. fold answer1.
  rewrite status_or_result. cbn [need]. do 3 step_print.
  step_create req. fold answer2.
  rewrite status_or_result. cbn [need]. do 2 step_print.
  rewrite same_payment_intent. step_print.
  destruct (alike answer1 answer2); step_print;
    (eexists _, _, _; split; [reflexivity|]; split;
     [ repeat (rewrite actions_with_lines || rewrite actions_after_request);
       rewrite <- app_assoc; reflexivity
     | apply last_printed_with_lines ]).
Qed.

Lemma success_of_result (key : string) (a : Res PaymentIntent) :
  truthy (dict_get (result_of key a) "success")
  = match a with Ret _ => true | Raise _ => false end.
Proof. destruct a; reflexivity. Qed.

Lemma pi_ids_of_results (key : string) (answers : list (Res PaymentIntent)) :
  map (fun r => dict_get r "payment_intent_id")
      (List.filter (fun r => truthy (dict_get r "success"))
                   (map (result_of key) answers))
  = map VStr (created_ids answers).
Proof.
  induction answers as [|a answers IH]; [reflexivity|].
  cbn [map List.filter]. rewrite success_of_result.
  destruct a as [p|e].
  - cbn [map]. rewrite IH. reflexivity.
  - exact IH.
Qed.

Lemma py_set_grows (l : list PyVal) :
  forall s,
    (length s <=
     length (fold_left (fun s v => if existsb (py_eq v) s then s else s ++ [v]) l s))%nat.
Proof.
  induction l as [|v l IH]; intros s; cbn [fold_left]; [lia|].
  destruct (existsb (py_eq v) s).
  - apply IH.
  - etransitivity; [|apply IH]. rewrite List.length_app. cbn. lia.
Qed.

Lemma py_set_of_ids (ids : list string) :
  (length (py_set (map VStr ids)) =? 1)%nat = one_payment_intent ids.
Proof.
  destruct ids as [|id rest]; [reflexivity|].
  unfold py_set, one_payment_intent. cbn [map fold_left existsb app].
  induction rest as [|x rest IH]; [reflexivity|].
  cbn [map fold_left existsb forallb py_eq]. rewrite orb_false_r.
  rewrite (String.eqb_sym x id). destruct (String.eqb id x); cbn [andb].
  - exact IH.
  - cbn [app].
    pose proof (py_set_grows (map VStr rest) [VStr id; VStr x]) as H.
    cbn [length] in H. apply Nat.eqb_neq. lia.
Qed.

(** X13: the retry demo, whatever number it draws and whatever Stripe
    answers. It ends without an error, sends the same request three times
    and does nothing else but print. Its last line says the customer was
    charged exactly once when at least one call created a payment intent and
    all that did returned the same id, one call out of three being enough;
    otherwise, also when Stripe rejected all three calls, it reports
    multiple payment intents. *)
Theorem demo_retry_logic_repeats_and_judges (env : Env) (w : World) (drawn : Z) :
  let req := retry_logic_request drawn in
  let answers := [stripe_pi env (n_requests w) req;
                  stripe_pi env (S (n_requests w)) req;
                  stripe_pi env (S (S (n_requests w))) req] in
  exists w',
    demo_retry_logic drawn env w = (Ret (inr tt), w') /\
    actions (trace w') = actions (trace w) ++ [EvStripe req; EvStripe req; EvStripe req] /\
    last (printed (trace w')) =
      Some (if one_payment_intent (created_ids answers)
            then mkLine "  ok Customer charged exactly once - idempotency works!" []
            else mkLine "  x Multiple PaymentIntents - idempotency key mismatch" []).
Proof.
  intros req answers. unfold demo_retry_logic. cbv zeta.
  unfold retry_logic_request in req. cbv zeta in req.
  set (booking_id := ("booking_" ++ pretty drawn)%string) in *.
  set (key := generate_composite_key "agency_099" booking_id "create_payment") in *.
  do 7 step_print.
  change (py_range 0 3) with [0; 1; 2]. unfold bind at 1.
  cbn [request_loop].
  step_print. step_create req. cbn [app]. step_print.
  rewrite status_or_result. cbn [need]. step_print.
  step_print. step_create req. cbn [app]. step_print.
  rewrite status_or_result. cbn [need]. step_print.
  step_print. step_create req. cbn [app]. step_print.
  rewrite status_or_result. cbn [need]. step_print.
  cbn [ret need].
  match goal with
  | |- context [[result_of key ?a; result_of key ?b; result_of key ?c]] =>
      change [result_of key a; result_of key b; result_of key c]
        with (map (result_of key) answers)
  end.
  rewrite pi_ids_of_results. do 2 step_print. rewrite py_set_of_ids.
  destruct (one_payment_intent (created_ids answers)); repeat step_print;
    (eexists; split; [reflexivity|]; rewrite ?emit_print; split;
     [ repeat (rewrite actions_with_lines || rewrite actions_after_request);
       rewrite <- !app_assoc; reflexivity
     | apply last_printed_with_lines ]).
Qed.

Lemma getitem_error_type (key : string) (e : Exception) :
  getitem (result_of key (Raise e)) "error_type"
  = inr (VStr (if decide (exc_class e = IdempotencyError)
               then "idempotency_collision" else class_name (exc_class e))).
Proof. reflexivity. Qed.

Lemma getitem_message (key : string) (e : Exception) :
  getitem (result_of key (Raise e)) "message" = inr (VStr (exc_str e)).
Proof. reflexivity. Qed.

Lemma snoc_four {A} (l : list A) (a b c d : A) :
  (((l ++ [a]) ++ [b]) ++ [c]) ++ [d] = l ++ [a; b; c; d].
Proof. rewrite <- !app_assoc. reflexivity. Qed.

(** X14: the collision demo, whatever Stripe answers. It ends without an
    error and sends two requests that share the key and differ in amount
    and description, the descriptions as the source has them, dash
    included. When the second call is rejected, for whatever reason, it
    prints the type of the error and the first 120 characters of its
    message, whole characters whatever their length in bytes, and then
    reports that Stripe detected the key collision; when the second call is
    accepted, its last line says whether the payment intent is the one of
    the first call. *)
Theorem demo_key_collision_blames_the_key (env : Env) (w : World) :
  let key := generate_composite_key "agency_test" "collision_demo" "create_payment" in
  let req1 := payment_request 10000 "eur"
                ("Collision test " ++ em_dash ++ " first call")%string key in
  let req2 := payment_request 20000 "eur"
                ("Collision test " ++ em_dash ++ " second call")%string key in
  let answer1 := stripe_pi env (n_requests w) req1 in
  let answer2 := stripe_pi env (S (n_requests w)) req2 in
  exists w' earlier,
    demo_key_collision env w = (Ret (inr tt), w') /\
    actions (trace w') = actions (trace w) ++ [EvStripe req1; EvStripe req2] /\
    printed (trace w') = earlier ++
      match answer2 with
      | Raise e =>
          [mkLine "    Error:   {result2['error_type']}"
                  [VStr (if decide (exc_class e = IdempotencyError)
                         then "idempotency_collision" else class_name (exc_class e))];
           mkLine "    Message: {result2['message'][:120]}"
                  [VStr (chars_prefix 120 (exc_str e))];
           mkLine "\n  ok Stripe detected the key collision and rejected the request" [];
           mkLine "  ok This prevents accidental parameter changes on retries" []]
      | Ret _ =>
          [if alike answer1 answer2
           then mkLine "\n  -> Stripe returned original result (params matched)" []
           else mkLine "\n  -> Different result - check parameters" []]
      end.
Proof.
  intros key req1 req2 answer1 answer2. unfold demo_key_collision. cbv zeta.
  fold key. clearbody key.
  do 6 step_print.
  step_create req1. fold answer1.
  rewrite getitem_success. cbn [need].
  do 3 step_print.
  step_create req2. fold answer2.
  rewrite getitem_success. cbn [need]. step_print.
  cbn [need truthy].
  destruct answer2 as [p2|e] eqn:Ha2; cbn [negb].
  - step_print. rewrite same_payment_intent.
    destruct (alike answer1 (Ret p2)); step_print.
    + eexists _, _. split; [reflexivity|]. split.
      * repeat (rewrite actions_with_lines || rewrite actions_after_request).
        rewrite <- !app_assoc. reflexivity.
      * rewrite printed_with_lines. reflexivity.
    + eexists _, _. split; [reflexivity|]. split.
      * repeat (rewrite actions_with_lines || rewrite actions_after_request).
        rewrite <- !app_assoc. reflexivity.
      * rewrite printed_with_lines. reflexivity.
  - rewrite getitem_error_type. cbn [need]. step_print.
    rewrite getitem_message. cbn [need slice_to]. do 3 step_print.
    eexists _, _. split; [reflexivity|]. split.
    + repeat (rewrite actions_with_lines || rewrite actions_after_request).
      rewrite <- !app_assoc. reflexivity.
    + do 4 rewrite printed_with_lines. apply snoc_four.
Qed.
